(** * VibeClaw: the skill installer and the security gate

    A shallow embedding of [src/skill-installer.ts] (name sanitizer, source
    prober, installer, registry) and of [checkSecurity] from [src/tools.ts],
    with the properties of the specification proved over it.

    Conventions of the embedding.
    - A JavaScript string is a [string]: the sequence of its UTF-8 bytes.
      Every test the code makes on strings ([startsWith], [includes],
      [indexOf], the character class of the sanitizer) looks for ASCII
      text only, and a unit outside ASCII is a byte outside ASCII, so the
      tests agree on both representations.
    - A JavaScript [number] that the catalog sends (risk score, findings
      count) is an integer, a [Z]. In a text it is printed digit by digit,
      as JavaScript prints the integers it holds exactly; the properties
      on the digits of a text are stated for those.
    - [node:fs] is modelled on the tree below the installation root: a
      call fails when the tree makes it fail. Failures of the host
      (permissions, name length, space) are not modelled.
    - [T | null] is [option T]; an optional field [f?: T] is [option T].
    - The asynchronous functions run to completion one after the other;
      they are functions in a monad of state (the file system and the log
      of the operations performed) and exceptions.
    - [src/skill-installer.ts] comes in two revisions; the embedding
      follows the later one, which sanitizes the skill name. *)

From Stdlib Require Import String Ascii List ZArith Lia Bool.
From stdpp Require Import base option list gmap strings pretty.
Import ListNotations.

Local Open Scope string_scope.
Local Open Scope Z_scope.

(* stdpp keeps [simpl] from unfolding string concatenation; here the
   templates of the code are literals, which it is handy to compute. *)
#[local] Arguments String.append _ _ : simpl nomatch.

(** ** JavaScript string primitives *)

Module JsString.

(** The one-character string holding a double quote. *)
Definition dquote : string := String (ascii_of_nat 34) EmptyString.

(** A line feed, the [\n] of a template literal. *)
Definition nl : string := String (ascii_of_nat 10) EmptyString.

(** [s.startsWith(p)] *)
Definition startsWith (s p : string) : bool := String.prefix p s.

(** [s.includes(p)] *)
Fixpoint includes (s p : string) : bool :=
  String.prefix p s ||
  match s with
  | EmptyString => false
  | String _ s' => includes s' p
  end.

(** The scan of [indexOf]: [skip] characters are passed over, then the
    first position where [p] occurs is returned; [idx] is the index of
    the head of [s] in the whole string. *)
Fixpoint find_from (s p : string) (skip idx : nat) : option nat :=
  match skip, s with
  | S k, String _ s' => find_from s' p k (S idx)
  | _, _ =>
      if String.prefix p s then Some idx
      else match s with
           | EmptyString => None
           | String _ s' => find_from s' p 0 (S idx)
           end
  end.

(** [s.indexOf(p, pos)]: the first index at or after [pos] where [p]
    occurs, [-1] when there is none. *)
Definition indexOf (s p : string) (pos : nat) : Z :=
  match find_from s p pos 0 with
  | Some i => Z.of_nat i
  | None => -1
  end.

(** [p] occurs in [s] at index [i]. *)
Fixpoint occurs_at (p : string) (i : nat) (s : string) : bool :=
  match i, s with
  | O, _ => String.prefix p s
  | S k, String _ s' => occurs_at p k s'
  | S _, EmptyString => false
  end.

(** [l.join(sep)] *)
Fixpoint join (sep : string) (l : list string) : string :=
  match l with
  | [] => ""
  | [x] => x
  | x :: rest => x +:+ sep +:+ join sep rest
  end.

(** A string is truthy when it is not empty. *)
Definition truthy (s : string) : bool :=
  match s with EmptyString => false | _ => true end.

End JsString.
Import JsString.

(** ** The security gate ([src/tools.ts]) *)

Module Gate.

(** [cisco_scan_result] of [VibeResource]. *)
Record CiscoScan := {
  is_safe : bool;
  max_severity : string;
  findings_count : Z;
}.

(** The fields of [VibeResource] that [checkSecurity] reads. *)
Record VibeResource := {
  name : string;
  security_score : option Z;
  security_flags : option (list string);
  cisco_scan_result : option CiscoScan;
}.

(** [skill.security_flags?.length ? `  Flags: ...\n` : ""] *)
Definition flags_line (skill : VibeResource) : string :=
  match security_flags skill with
  | Some (f :: fs) => "  Flags: " +:+ join ", " (f :: fs) +:+ nl
  | _ => ""
  end.

Definition SCORE_THRESHOLD : Z := 25.

(** The explanation returned when the deep scan says unsafe. A number
    in a template literal is printed digit by digit, which is what
    JavaScript does for the integers it holds exactly (those of magnitude
    below 2^53); beyond them JavaScript rounds or prints an exponent, and
    the text of the model is not that of the code. *)
Definition scan_block_message (skill : VibeResource) (scan : CiscoScan) : string :=
  let sev := max_severity scan in
  let count := findings_count scan in
  "⛔ BLOCKED: " +:+ dquote +:+ name skill +:+ dquote +:+
  " failed Vibe Index security scan." +:+ nl +:+ nl +:+
  "  Severity: " +:+ sev +:+ nl +:+
  "  Findings: " +:+ pretty count +:+ " issue(s) detected" +:+ nl +:+
  flags_line skill +:+
  nl +:+ "This skill has known security issues and cannot be installed." +:+ nl +:+
  "See https://vibeindex.ai for details.".

(** The explanation returned when the pre-scan score is too high, with
    the score printed as in [scan_block_message]. *)
Definition score_block_message (skill : VibeResource) (score : Z) : string :=
  "⛔ BLOCKED: " +:+ dquote +:+ name skill +:+ dquote +:+
  " has a high security risk score (" +:+ pretty score +:+ ")." +:+ nl +:+ nl +:+
  flags_line skill +:+
  nl +:+ "This skill has been flagged by Vibe Index security scanning and cannot be installed." +:+ nl +:+
  "See https://vibeindex.ai for details.".

(** The second test of [checkSecurity]:
    [skill.security_score !== null && skill.security_score >= 25]. *)
Definition check_score (skill : VibeResource) : option string :=
  match security_score skill with
  | Some score =>
      if score >=? SCORE_THRESHOLD then Some (score_block_message skill score)
      else None
  | None => None
  end.

Definition checkSecurity (skill : VibeResource) : option string :=
  match cisco_scan_result skill with
  | Some scan =>
      if negb (is_safe scan) then Some (scan_block_message skill scan)
      else check_score skill
  | None => check_score skill
  end.

End Gate.

(** ** [node:path], POSIX flavour *)

Module Path.

Definition sep : string := "/".

Definition slash : ascii := ascii_of_nat 47.

(** [path.split("/")] *)
Fixpoint split_slash (s : string) : list string :=
  match s with
  | EmptyString => [""]
  | String c s' =>
      if Ascii.eqb c slash then "" :: split_slash s'
      else match split_slash s' with
           | h :: t => String c h :: t
           | [] => [String c ""]
           end
  end.

(** The segment walk of [normalizeString]: empty and ["."] segments are
    dropped, [".."] removes the last kept segment, or is kept itself
    when nothing can be removed and the path is relative. [acc] holds
    the kept segments, last first. *)
Fixpoint normalize_go (allowAboveRoot : bool) (segs acc : list string) : list string :=
  match segs with
  | [] => rev acc
  | seg :: rest =>
      if String.eqb seg "" || String.eqb seg "." then
        normalize_go allowAboveRoot rest acc
      else if String.eqb seg ".." then
        match acc with
        | top :: acc' =>
            if String.eqb top ".." then
              normalize_go allowAboveRoot rest
                (if allowAboveRoot then ".." :: acc else acc)
            else normalize_go allowAboveRoot rest acc'
        | [] =>
            normalize_go allowAboveRoot rest
              (if allowAboveRoot then [".."] else [])
        end
      else normalize_go allowAboveRoot rest (seg :: acc)
  end.

Definition normalizeString (path : string) (allowAboveRoot : bool) : string :=
  join "/" (normalize_go allowAboveRoot (split_slash path) []).

Definition isAbsolute (path : string) : bool := String.prefix "/" path.

Fixpoint endsWithSlash (path : string) : bool :=
  match path with
  | EmptyString => false
  | String c EmptyString => Ascii.eqb c slash
  | String _ rest => endsWithSlash rest
  end.

(** [path.normalize(p)] *)
Definition normalize (path : string) : string :=
  if String.eqb path "" then "."
  else
    let absolute := isAbsolute path in
    let trailingSeparator := endsWithSlash path in
    let p := normalizeString path (negb absolute) in
    if String.eqb p "" then
      if absolute then "/" else if trailingSeparator then "./" else "."
    else
      let p := if trailingSeparator then p +:+ "/" else p in
      if absolute then "/" +:+ p else p.

(** [path.join(...args)] *)
Definition join (args : list string) : string :=
  match filter (fun a => negb (String.eqb a "")) args with
  | [] => "."
  | parts => normalize (JsString.join "/" parts)
  end.

(** The right-to-left loop of [path.resolve]: [paths] is the argument
    list reversed, followed by the working directory. *)
Fixpoint resolve_go (paths : list string) (resolvedPath : string) : string * bool :=
  match paths with
  | [] => (resolvedPath, false)
  | p :: rest =>
      if String.eqb p "" then resolve_go rest resolvedPath
      else
        let r := p +:+ "/" +:+ resolvedPath in
        if isAbsolute p then (r, true) else resolve_go rest r
  end.

(** [path.resolve(...args)] in a process whose working directory is [cwd]. *)
Definition resolve (cwd : string) (args : list string) : string :=
  let '(resolvedPath, resolvedAbsolute) := resolve_go (rev args ++ [cwd]) "" in
  let p := normalizeString resolvedPath (negb resolvedAbsolute) in
  if resolvedAbsolute then "/" +:+ p
  else if String.eqb p "" then "." else p.

End Path.


(** ** The world of the installer *)

(** What the process reads from its environment when the module is loaded,
    and what the outside world answers. *)
Inductive FetchResult :=
| FetchThrows
    (* [fetch] rejects: a transport failure *)
| Response (ok : bool) (text : option string).
    (* a response; [text] is [None] when reading the body rejects *)

Record Env := {
  OPENCLAW_STATE_DIR : option string;
  CLAWDBOT_STATE_DIR : option string;
  homedir : string;
  cwd : string;
  (* what [globalThis.fetch(url)] yields *)
  net : string -> FetchResult;
  (* [new Date().toISOString()] *)
  now : string;
}.

Module Meta.
(** The object serialised into [.vibeclaw.json]. *)
Record t := {
  installedBy : string;
  installedAt : string;
  source : string;
  sourceUrl : string;
  skillName : string;
}.
End Meta.

(** What a file holds: text, or the JSON text of an install record
    ([JSON.stringify(meta, null, 2)], kept as the object it encodes). *)
Inductive FileData :=
| Text (content : string)
| MetaJson (meta : Meta.t).

(** The file system below [SKILLS_DIR]. A sanitized name holds no
    separator and is neither ["."] nor [".."], so [path.join(SKILLS_DIR,
    name)] is the child [name] of the root, and the files of a skill are
    the children of that child. *)
Inductive item :=
| IFile (data : FileData)
| ISubdir.

Inductive entry :=
| EFile
| EDir (children : gmap string item).

(** [None]: [SKILLS_DIR] does not exist yet. *)
Definition FS : Type := option (gmap string entry).

Inductive FsPath :=
| PRoot
| PDir (d : string)
| PFile (d f : string).

Inductive Event :=
| EvFetch (url : string)
| EvAccess (p : FsPath)
| EvMkdir (p : FsPath)
| EvWriteFile (p : FsPath) (data : FileData)
| EvRm (p : FsPath)
| EvReaddir (p : FsPath).

Definition is_network (e : Event) : bool :=
  match e with EvFetch _ => true | _ => false end.

Definition is_fs_write (e : Event) : bool :=
  match e with EvMkdir _ | EvWriteFile _ _ | EvRm _ => true | _ => false end.

(** The state threaded through the code: the file system, and the log of
    every operation performed so far, oldest first, each with the file
    system it left behind. *)
Record World := {
  fs : FS;
  log : list (Event * FS);
}.

Definition events (w : World) : list Event := (log w).*1.
Definition snapshots (w : World) : list FS := (log w).*2.

(** ** A monad of state and exceptions *)

Inductive Outcome (A : Type) :=
| Returned (a : A)
| Threw.
Arguments Returned {A} a.
Arguments Threw {A}.

Definition M (A : Type) : Type := World -> Outcome A * World.

Definition ret {A} (a : A) : M A := fun w => (Returned a, w).

Definition throw {A} : M A := fun w => (Threw, w).

Definition bind {A B} (m : M A) (k : A -> M B) : M B :=
  fun w =>
    match m w with
    | (Returned a, w') => k a w'
    | (Threw, w') => (Threw, w')
    end.

(** [try { m } catch { handler }] *)
Definition try_catch {A} (m : M A) (handler : M A) : M A :=
  fun w =>
    match m w with
    | (Returned a, w') => (Returned a, w')
    | (Threw, w') => handler w'
    end.

Declare Scope js_scope.
Delimit Scope js_scope with js.
Notation "'let*' x ':=' m 'in' k" := (bind m (fun x => k))
  (at level 10, x name, m at level 200, k at level 200) : js_scope.
Notation "m ;; k" := (bind m (fun _ => k))
  (at level 100, right associativity) : js_scope.
Local Open Scope js_scope.

(** Perform one operation: the file system becomes [fs'], the operation
    is logged, and it returns or throws. *)
Definition perform {A} (e : Event) (fs' : FS) (r : Outcome A) : M A :=
  fun w => (r, {| fs := fs'; log := (log w ++ [(e, fs')])%list |}).

Definition get_fs : M FS := fun w => (Returned (fs w), w).

(** ** [node:fs] and [fetch] *)

Definition lookup_dir (f : FS) (d : string) : option (gmap string item) :=
  match f with
  | Some root =>
      match root !! d with
      | Some (EDir children) => Some children
      | _ => None
      end
  | None => None
  end.

Definition exists_path (f : FS) (p : FsPath) : bool :=
  match p with
  | PRoot => match f with Some _ => true | None => false end
  | PDir d =>
      match f with
      | Some root => match root !! d with Some _ => true | None => false end
      | None => false
      end
  | PFile d name =>
      match lookup_dir f d with
      | Some children => match children !! name with Some _ => true | None => false end
      | None => false
      end
  end.

(** [fs.access(p)]: returns when [p] exists, throws otherwise. *)
Definition fs_access (p : FsPath) : M unit :=
  let* f := get_fs in
  perform (EvAccess p) f (if exists_path f p then Returned tt else Threw).

(** The effect of [fs.mkdir(dir, { recursive: true })] for a child of the
    root: the root and the child are created as needed, nothing changes
    when the directory is there, and the call throws when a file has the
    name. The model has the failures that the tree decides; those of the
    host (permissions, the length of a name, a full disk) are not in it,
    so a call that returns here may throw there, never the reverse. *)
Definition mkdir_fs (f : FS) (d : string) : FS * Outcome unit :=
  match f with
  | None => (Some {[ d := EDir ∅ ]}, Returned tt)
  | Some root =>
      match root !! d with
      | None => (Some (<[ d := EDir ∅ ]> root), Returned tt)
      | Some (EDir _) => (f, Returned tt)
      | Some EFile => (f, Threw)
      end
  end.

Definition fs_mkdir (d : string) : M unit :=
  let* f := get_fs in
  perform (EvMkdir (PDir d)) (mkdir_fs f d).1 (mkdir_fs f d).2.

(** The effect of [fs.writeFile(file, data, "utf-8")] for a file of a
    skill directory: the file is created or replaced; the call throws
    when the directory is missing or the name is a directory. As for
    [mkdir_fs], the failures of the host are not in the model. *)
Definition writeFile_fs (f : FS) (d name : string) (data : FileData) : FS * Outcome unit :=
  match f, lookup_dir f d with
  | Some root, Some children =>
      match children !! name with
      | Some ISubdir => (f, Threw)
      | _ => (Some (<[ d := EDir (<[ name := IFile data ]> children) ]> root), Returned tt)
      end
  | _, _ => (f, Threw)
  end.

Definition fs_writeFile (d name : string) (data : FileData) : M unit :=
  let* f := get_fs in
  perform (EvWriteFile (PFile d name) data)
    (writeFile_fs f d name data).1 (writeFile_fs f d name data).2.

(** The effect of [fs.rm(dir, { recursive: true })] for a child of the
    root: it is removed with all it holds; the call throws when there is
    no such child. *)
Definition rm_fs (f : FS) (d : string) : FS * Outcome unit :=
  match f with
  | Some root =>
      match root !! d with
      | Some _ => (Some (delete d root), Returned tt)
      | None => (f, Threw)
      end
  | None => (f, Threw)
  end.

Definition fs_rm (d : string) : M unit :=
  let* f := get_fs in
  perform (EvRm (PDir d)) (rm_fs f d).1 (rm_fs f d).2.

Definition isDirectory (e : entry) : bool :=
  match e with EDir _ => true | EFile => false end.

(** What [fs.readdir(SKILLS_DIR, { withFileTypes: true })] yields: the
    entries of the root, each with its name and whether it is a
    directory; the call throws when the root does not exist. *)
Definition readdir_fs (f : FS) : Outcome (list (string * bool)) :=
  match f with
  | Some root => Returned ((fun ne => (ne.1, isDirectory ne.2)) <$> map_to_list root)
  | None => Threw
  end.

Definition fs_readdir : M (list (string * bool)) :=
  let* f := get_fs in
  perform (EvReaddir PRoot) f (readdir_fs f).

(** [await globalThis.fetch(url, ...)]: one request. *)
Definition fetch (env : Env) (url : string) : M FetchResult :=
  let* f := get_fs in
  match net env url with
  | FetchThrows => perform (EvFetch url) f Threw
  | r => perform (EvFetch url) f (Returned r)
  end.

(** [await response.text()] *)
Definition response_text (text : option string) : M string :=
  match text with
  | Some content => ret content
  | None => throw
  end.

(** ** The installer ([src/skill-installer.ts]) *)

Module InstallResult.
Record t := {
  success : bool;
  skillName : string;
  installPath : option string;
  sourceUrl : option string;
  error : option string;
  alreadyInstalled : option bool;
}.
End InstallResult.

(** [opts?: { force?: boolean }] *)
Record InstallOpts := {
  force : option bool;
}.

(** [opts?.force] as a condition. *)
Definition force_set (opts : option InstallOpts) : bool :=
  match opts with
  | Some o => match force o with Some b => b | None => false end
  | None => false
  end.

Section Installer.

Context (env : Env).

(** [process.env.OPENCLAW_STATE_DIR ?? process.env.CLAWDBOT_STATE_DIR
    ?? path.join(os.homedir(), ".openclaw")] *)
Definition CONFIG_DIR : string :=
  match OPENCLAW_STATE_DIR env with
  | Some d => d
  | None =>
      match CLAWDBOT_STATE_DIR env with
      | Some d => d
      | None => Path.join [homedir env; ".openclaw"]
      end
  end.

Definition SKILLS_DIR : string := Path.join [CONFIG_DIR; "skills"].

Definition SKILL_MD : string := "SKILL.md".
Definition VIBECLAW_JSON : string := ".vibeclaw.json".

(** The class [[a-zA-Z0-9\-_.]]. *)
Definition allowed_char (c : ascii) : bool :=
  let n := nat_of_ascii c in
  ((97 <=? n) && (n <=? 122))%nat ||
  ((65 <=? n) && (n <=? 90))%nat ||
  ((48 <=? n) && (n <=? 57))%nat ||
  (n =? 45)%nat || (n =? 95)%nat || (n =? 46)%nat.

(** [name.replace(/[^a-zA-Z0-9\-_.]/g, "")] *)
Fixpoint strip (name : string) : string :=
  match name with
  | EmptyString => EmptyString
  | String c rest =>
      if allowed_char c then String c (strip rest) else strip rest
  end.

Definition sanitizeSkillName (name : string) : option string :=
  let sanitized := strip name in
  if negb (truthy sanitized) || includes sanitized ".." || startsWith sanitized "."
  then None
  else
    let resolved := Path.resolve (cwd env) [SKILLS_DIR; sanitized] in
    if negb (startsWith resolved (SKILLS_DIR +:+ Path.sep)) then None
    else Some sanitized.

Definition getSkillMdUrls (owner repo skillName : string) : list string :=
  let base := "https://raw.githubusercontent.com/" +:+ owner +:+ "/" +:+ repo in
  [ base +:+ "/main/skills/" +:+ skillName +:+ "/SKILL.md";
    base +:+ "/master/skills/" +:+ skillName +:+ "/SKILL.md";
    base +:+ "/main/SKILL.md";
    base +:+ "/master/SKILL.md";
    base +:+ "/main/src/skills/" +:+ skillName +:+ "/SKILL.md";
    base +:+ "/master/src/skills/" +:+ skillName +:+ "/SKILL.md" ].

(** The test of [downloadSkillMd] on a body:
    [content.startsWith("---") && content.indexOf("---", 3) > 3 &&
     content.includes("name:")] *)
Definition looks_like_skill_md (content : string) : bool :=
  startsWith content "---" && (indexOf content "---" 3 >? 3) && includes content "name:".

(** The body of the loop of [downloadSkillMd] for one URL: [Some] is the
    [return] inside the loop, [None] goes on to the next URL. *)
Definition try_url (url : string) : M (option (string * string)) :=
  try_catch
    (let* response := fetch env url in
     match response with
     | Response true text =>
         let* content := response_text text in
         if looks_like_skill_md content then ret (Some (content, url))
         else ret None
     | _ => ret None
     end)
    (ret None).

Fixpoint probe (urls : list string) : M (option (string * string)) :=
  match urls with
  | [] => ret None
  | url :: rest =>
      let* hit := try_url url in
      match hit with
      | Some r => ret (Some r)
      | None => probe rest
      end
  end.

Definition downloadSkillMd (owner repo skillName : string) : M (option (string * string)) :=
  let urls := getSkillMdUrls owner repo skillName in
  probe urls.

Definition invalid_name_error (skillName : string) : string :=
  "Invalid skill name " +:+ dquote +:+ skillName +:+ dquote +:+
  ". Names must be alphanumeric with hyphens/underscores only.".

Definition not_found_error (owner repo skillName : string) : string :=
  "Could not find SKILL.md for " +:+ dquote +:+ skillName +:+ dquote +:+
  " in " +:+ owner +:+ "/" +:+ repo +:+ ". Tried multiple paths.".

Definition installSkillFromGitHub
    (owner repo skillName : string) (opts : option InstallOpts)
    : M InstallResult.t :=
  match sanitizeSkillName skillName with
  | None =>
      ret {| InstallResult.success := false;
             InstallResult.skillName := skillName;
             InstallResult.installPath := None;
             InstallResult.sourceUrl := None;
             InstallResult.error := Some (invalid_name_error skillName);
             InstallResult.alreadyInstalled := None |}
  | Some safeName =>
      let skillDir := Path.join [SKILLS_DIR; safeName] in
      (* Check if already installed *)
      let* early :=
        try_catch
          (fs_access (PFile safeName SKILL_MD) ;;
           if negb (force_set opts) then
             ret (Some {| InstallResult.success := true;
                          InstallResult.skillName := skillName;
                          InstallResult.installPath := Some skillDir;
                          InstallResult.sourceUrl := None;
                          InstallResult.error := None;
                          InstallResult.alreadyInstalled := Some true |})
           else ret None)
          (ret None) in
      match early with
      | Some r => ret r
      | None =>
          (* Download SKILL.md *)
          let* result := downloadSkillMd owner repo skillName in
          match result with
          | None =>
              ret {| InstallResult.success := false;
                     InstallResult.skillName := skillName;
                     InstallResult.installPath := None;
                     InstallResult.sourceUrl := None;
                     InstallResult.error := Some (not_found_error owner repo skillName);
                     InstallResult.alreadyInstalled := None |}
          | Some (content, url) =>
              (* Ensure directory exists *)
              fs_mkdir safeName ;;
              (* Write SKILL.md *)
              fs_writeFile safeName SKILL_MD (Text content) ;;
              (* Write metadata for tracking *)
              let meta :=
                {| Meta.installedBy := "vibeclaw";
                   Meta.installedAt := now env;
                   Meta.source := "github:" +:+ owner +:+ "/" +:+ repo;
                   Meta.sourceUrl := url;
                   Meta.skillName := skillName |} in
              fs_writeFile safeName VIBECLAW_JSON (MetaJson meta) ;;
              ret {| InstallResult.success := true;
                     InstallResult.skillName := skillName;
                     InstallResult.installPath := Some skillDir;
                     InstallResult.sourceUrl := Some url;
                     InstallResult.error := None;
                     InstallResult.alreadyInstalled := None |}
          end
      end
  end.

(** The loop of [listInstalledSkills] over the entries of the root. *)
Fixpoint collect_installed (entries : list (string * bool)) (installed : list string)
    : M (list string) :=
  match entries with
  | [] => ret installed
  | (name, is_dir) :: rest =>
      if is_dir then
        let* installed' :=
          try_catch
            (fs_access (PFile name VIBECLAW_JSON) ;;
             ret ((installed ++ [name])%list))
            (ret installed) in
        collect_installed rest installed'
      else collect_installed rest installed
  end.

Definition listInstalledSkills : M (list string) :=
  try_catch
    (let* entries := fs_readdir in
     collect_installed entries [])
    (ret []).

Definition uninstallSkill (skillName : string) : M bool :=
  match sanitizeSkillName skillName with
  | None => ret false
  | Some safeName =>
      try_catch
        (fs_access (PFile safeName VIBECLAW_JSON) ;;
         fs_rm safeName ;;
         ret true)
        (ret false)
  end.

End Installer.

(** A run starts with an empty log. *)
Definition start (f : FS) : World := {| fs := f; log := [] |}.


(** ** Vocabulary of the specification *)

(** The world after one more logged operation. *)
Definition record_op (e : Event) (f' : FS) (w : World) : World :=
  {| fs := f'; log := (log w ++ [(e, f')])%list |}.

(** The world after a series of requests, which leave the files alone. *)
Definition after_fetches (urls : list string) (w : World) : World :=
  {| fs := fs w; log := (log w ++ ((fun u => (EvFetch u, fs w)) <$> urls))%list |}.

(** A candidate is a hit when the response is HTTP-successful, its body
    can be read and the body passes the content test. *)
Definition candidate_hit (env : Env) (url : string) : option string :=
  match net env url with
  | Response true (Some content) =>
      if looks_like_skill_md content then Some content else None
  | _ => None
  end.

(** The first hit of a list of candidates, and the candidates requested
    until then. *)
Fixpoint first_hit (env : Env) (urls : list string) : option (string * string) :=
  match urls with
  | [] => None
  | u :: rest =>
      match candidate_hit env u with
      | Some content => Some (content, u)
      | None => first_hit env rest
      end
  end.

Fixpoint requested (env : Env) (urls : list string) : list string :=
  match urls with
  | [] => []
  | u :: rest =>
      match candidate_hit env u with
      | Some _ => [u]
      | None => u :: requested env rest
      end
  end.

(** The test of the sanitizer on a resolved path, read on the strings: the
    path is the root as it is written, a separator and something more. *)
Definition written_below (root p : string) : Prop :=
  exists rest, rest <> "" /\ p = root +:+ "/" +:+ rest.

Definition deep_scan_unsafe (skill : Gate.VibeResource) : Prop :=
  exists scan, Gate.cisco_scan_result skill = Some scan /\ Gate.is_safe scan = false.

Definition score_reaches_threshold (skill : Gate.VibeResource) : Prop :=
  exists score, Gate.security_score skill = Some score /\ 25 <= score.

(** The directory of a skill is tracked when it holds an install record,
    and has content when it holds the skill file. *)
Definition tracked (f : FS) (d : string) : bool := exists_path f (PFile d VIBECLAW_JSON).
Definition has_content (f : FS) (d : string) : bool := exists_path f (PFile d SKILL_MD).

(** No directory is tracked without content. *)
Definition content_before_record (d : string) (f : FS) : Prop :=
  tracked f d = true -> has_content f d = true.

(** The content test in the words of the specification: the body starts
    with the delimiter, the delimiter occurs again after position 3, and
    a [name:] field lies between the two delimiters. *)
Definition spec_frontmatter_with_name (content : string) : bool :=
  startsWith content "---" &&
  existsb
    (fun i =>
       occurs_at "---" i content &&
       existsb (fun j => occurs_at "name:" j content && (j + 5 <=? i)%nat)
               (seq 3 (i - 3)))
    (seq 4 (String.length content - 4)).


(** The characters of the class of the sanitizer, spelled out. *)
Definition allowed_alphabet : string :=
  "abcdefghijklmnopqrstuvwxyzABCDEFGHIJKLMNOPQRSTUVWXYZ0123456789-_.".

(** A string holds a separator. *)
Fixpoint has_slash (s : string) : bool :=
  match s with
  | EmptyString => false
  | String c rest => Ascii.eqb c Path.slash || has_slash rest
  end.

(** A path segment as [normalizeString] keeps them: not empty, no
    separator inside. *)
Definition proper_segment (seg : string) : Prop :=
  seg <> "" /\ has_slash seg = false.

(** The results of [installSkillFromGitHub]. *)
Definition invalid_name_result (skillName : string) : InstallResult.t :=
  {| InstallResult.success := false;
     InstallResult.skillName := skillName;
     InstallResult.installPath := None;
     InstallResult.sourceUrl := None;
     InstallResult.error := Some (invalid_name_error skillName);
     InstallResult.alreadyInstalled := None |}.

Definition already_installed_result (skillName skillDir : string) : InstallResult.t :=
  {| InstallResult.success := true;
     InstallResult.skillName := skillName;
     InstallResult.installPath := Some skillDir;
     InstallResult.sourceUrl := None;
     InstallResult.error := None;
     InstallResult.alreadyInstalled := Some true |}.

Definition not_found_result (owner repo skillName : string) : InstallResult.t :=
  {| InstallResult.success := false;
     InstallResult.skillName := skillName;
     InstallResult.installPath := None;
     InstallResult.sourceUrl := None;
     InstallResult.error := Some (not_found_error owner repo skillName);
     InstallResult.alreadyInstalled := None |}.

Definition fresh_install_result (skillName skillDir url : string) : InstallResult.t :=
  {| InstallResult.success := true;
     InstallResult.skillName := skillName;
     InstallResult.installPath := Some skillDir;
     InstallResult.sourceUrl := Some url;
     InstallResult.error := None;
     InstallResult.alreadyInstalled := None |}.

(** The install record written for a download from [url]. *)
Definition install_record (env : Env) (owner repo url skillName : string) : Meta.t :=
  {| Meta.installedBy := "vibeclaw";
     Meta.installedAt := now env;
     Meta.source := "github:" +:+ owner +:+ "/" +:+ repo;
     Meta.sourceUrl := url;
     Meta.skillName := skillName |}.


(** The world in which the installer starts to probe: the check for the
    skill file has been made. *)
Definition after_check (safe : string) (w : World) : World :=
  record_op (EvAccess (PFile safe SKILL_MD)) (fs w) w.

(** The installer stops at the check exactly when the skill file is there
    and [force] is not set. *)
Definition stops_at_check (safe : string) (opts : option InstallOpts) (w : World) : bool :=
  has_content (fs w) safe && negb (force_set opts).

(** ** Sample worlds *)

(** A well-formed skill descriptor. *)
Definition sample_skill_md : string :=
  "---" +:+ nl +:+ "name: x" +:+ nl +:+ "---" +:+ nl +:+ "# x" +:+ nl.

(** A process with the default installation root, and a repository [o/r]
    that serves a descriptor at the root of its [master] branch only. *)
Definition sample_env : Env :=
  {| OPENCLAW_STATE_DIR := None;
     CLAWDBOT_STATE_DIR := None;
     homedir := "/home/u";
     cwd := "/work";
     net := fun url =>
       if String.eqb url "https://raw.githubusercontent.com/o/r/master/SKILL.md"
       then Response true (Some sample_skill_md)
       else Response false (Some "404: Not Found");
     now := "2026-01-01T00:00:00.000Z" |}.

(** The same process when no candidate can be fetched. *)
Definition offline_env : Env :=
  {| OPENCLAW_STATE_DIR := None;
     CLAWDBOT_STATE_DIR := None;
     homedir := "/home/u";
     cwd := "/work";
     net := fun _ => FetchThrows;
     now := "2026-01-01T00:00:00.000Z" |}.

(** A root whose directory [foo] holds an install record and no skill file. *)
Definition record_only_fs : FS :=
  Some {[ "foo" := EDir {[ VIBECLAW_JSON := IFile (Text "{}") ]} ]}.

(** A root whose directory [foo] holds a skill file and no install record. *)
Definition content_only_fs : FS :=
  Some {[ "foo" := EDir {[ SKILL_MD := IFile (Text sample_skill_md) ]} ]}.


(** The names that [listInstalledSkills] keeps from a directory listing:
    those of the directories that hold an install record. *)
Definition tracked_names (f : FS) (entries : list (string * bool)) : list string :=
  (List.filter (fun e => e.2 && tracked f e.1) entries).*1.

(** The operations logged since [w] were reads that left the file system
    of [w] as it was. *)
Definition only_reads_since (w w' : World) : Prop :=
  fs w' = fs w /\
  exists new, log w' = (log w ++ new)%list /\
              Forall (fun e => is_fs_write e.1 = false /\ is_network e.1 = false /\ e.2 = fs w) new.


(** The file system a run leaves behind. *)
Definition fs_after {A} (run : Outcome A * World) : FS := fs run.2.

(** Two skills installed one after the other into an empty home. *)
Definition two_installed_fs : FS :=
  fs_after (installSkillFromGitHub sample_env "o" "r" "beta" None
              (start (fs_after (installSkillFromGitHub sample_env "o" "r" "alpha" None
                                  (start None))))).

(** The content of a directory placed by hand: a skill file, no record. *)
Definition manual_children : gmap string item :=
  {[ SKILL_MD := IFile (Text sample_skill_md) ]}.

(** The root of [two_installed_fs], entry by entry. *)
Definition two_installed_root : gmap string entry :=
  <[ "alpha" := EDir (<[ VIBECLAW_JSON :=
                          IFile (MetaJson (install_record sample_env "o" "r"
                            "https://raw.githubusercontent.com/o/r/master/SKILL.md" "alpha")) ]>
                      (<[ SKILL_MD := IFile (Text sample_skill_md) ]> ∅)) ]>
  (<[ "beta" := EDir (<[ VIBECLAW_JSON :=
                          IFile (MetaJson (install_record sample_env "o" "r"
                            "https://raw.githubusercontent.com/o/r/master/SKILL.md" "beta")) ]>
                      (<[ SKILL_MD := IFile (Text sample_skill_md) ]> ∅)) ]> ∅).


(** ** Further vocabulary *)

(** A segment that [normalizeString] keeps as it is: a proper segment that
    is neither ["."] nor [".."]. *)
Definition plain_segment (seg : string) : Prop :=
  proper_segment seg /\ seg <> "." /\ seg <> "..".

(** The entries of the installation root, none when it does not exist. *)
Definition root_of (f : FS) : gmap string entry :=
  match f with
  | Some root => root
  | None => ∅
  end.

(** The files of the directory of a skill, none when there is no such
    directory. *)
Definition files_of (f : FS) (d : string) : gmap string item :=
  match lookup_dir f d with
  | Some children => children
  | None => ∅
  end.

(** The path an operation works on. *)
Definition event_path (e : Event) : option FsPath :=
  match e with
  | EvFetch _ => None
  | EvAccess p | EvMkdir p | EvWriteFile p _ | EvRm p | EvReaddir p => Some p
  end.

(** A path inside the directory of the skill [d], the directory included. *)
Definition within_skill (d : string) (p : FsPath) : Prop :=
  p = PDir d \/ exists name, p = PFile d name.

(** A process whose state directory is given by a relative path. *)
Definition relative_env : Env :=
  {| OPENCLAW_STATE_DIR := Some "state";
     CLAWDBOT_STATE_DIR := None;
     homedir := "/home/u";
     cwd := "/work";
     net := fun _ => FetchThrows;
     now := "2026-01-01T00:00:00.000Z" |}.


(** The end of a run that has downloaded [content] from [url], from the
    world [w2] in which the download ended. *)
Inductive InstallWrites (env : Env) (owner repo skillName safe : string)
    (content url : string) (w2 : World) : Outcome InstallResult.t -> World -> Prop :=
| MkdirThrew w3 :
    fs_mkdir safe w2 = (Threw, w3) ->
    InstallWrites env owner repo skillName safe content url w2 Threw w3
| ContentThrew w3 w4 :
    fs_mkdir safe w2 = (Returned tt, w3) ->
    fs_writeFile safe SKILL_MD (Text content) w3 = (Threw, w4) ->
    InstallWrites env owner repo skillName safe content url w2 Threw w4
| RecordThrew w3 w4 w5 :
    fs_mkdir safe w2 = (Returned tt, w3) ->
    fs_writeFile safe SKILL_MD (Text content) w3 = (Returned tt, w4) ->
    fs_writeFile safe VIBECLAW_JSON
      (MetaJson (install_record env owner repo url skillName)) w4 = (Threw, w5) ->
    InstallWrites env owner repo skillName safe content url w2 Threw w5
| Written w3 w4 w5 :
    fs_mkdir safe w2 = (Returned tt, w3) ->
    fs_writeFile safe SKILL_MD (Text content) w3 = (Returned tt, w4) ->
    fs_writeFile safe VIBECLAW_JSON
      (MetaJson (install_record env owner repo url skillName)) w4 = (Returned tt, w5) ->
    InstallWrites env owner repo skillName safe content url w2
      (Returned (fresh_install_result skillName (Path.join [SKILLS_DIR env; safe]) url))
      w5.

(** The runs of [installSkillFromGitHub] for a name that sanitizes to
    [safe], one constructor for each way the function ends: at the check
    for the skill file, after a probe without a hit, by an exception of
    [mkdir] or of one of the two writes, or after the second write. *)
Inductive InstallRun (env : Env) (owner repo skillName safe : string)
    (opts : option InstallOpts) (w : World) : Outcome InstallResult.t -> World -> Prop :=
| RunAlready :
    stops_at_check safe opts w = true ->
    InstallRun env owner repo skillName safe opts w
      (Returned (already_installed_result skillName (Path.join [SKILLS_DIR env; safe])))
      (after_check safe w)
| RunNotFound :
    stops_at_check safe opts w = false ->
    first_hit env (getSkillMdUrls owner repo skillName) = None ->
    InstallRun env owner repo skillName safe opts w
      (Returned (not_found_result owner repo skillName))
      (after_fetches (requested env (getSkillMdUrls owner repo skillName))
         (after_check safe w))
| RunDownloaded content url o w' :
    stops_at_check safe opts w = false ->
    first_hit env (getSkillMdUrls owner repo skillName) = Some (content, url) ->
    InstallWrites env owner repo skillName safe content url
      (after_fetches (requested env (getSkillMdUrls owner repo skillName))
         (after_check safe w)) o w' ->
    InstallRun env owner repo skillName safe opts w o w'.

(** ** The rest of the installer and of the tools *)

(** What [fs.readFile(file, "utf-8")] yields for a file of a skill
    directory: its data, or an exception when the file is missing or is a
    directory. *)
Definition readFile_fs (f : FS) (d name : string) : Outcome FileData :=
  match lookup_dir f d with
  | Some children =>
      match children !! name with
      | Some (IFile data) => Returned data
      | _ => Threw
      end
  | None => Threw
  end.

(** The read leaves the files as they are; the log, which has no finer
    kind of read, takes it as an access to the path. *)
Definition fs_readFile (d name : string) : M FileData :=
  let* f := get_fs in
  perform (EvAccess (PFile d name)) f (readFile_fs f d name).

(** [JSON.parse(content)] on what was read. The text of an install record
    parses to the record it encodes; for any other text the outcome is
    that of [JSON_parse], [None] when it throws or yields null. A text
    that parses to a value which is not a full record (an object that
    lacks a field, a number) is returned as it is by the code and has no
    counterpart here. *)
Definition parse_meta (JSON_parse : string -> option Meta.t) (data : FileData)
    : M (option Meta.t) :=
  match data with
  | MetaJson meta => ret (Some meta)
  | Text content =>
      match JSON_parse content with
      | Some meta => ret (Some meta)
      | None => throw
      end
  end.

Definition getInstalledSkillMeta (env : Env) (JSON_parse : string -> option Meta.t)
    (skillName : string) : M (option Meta.t) :=
  match sanitizeSkillName env skillName with
  | None => ret None
  | Some safeName =>
      try_catch
        (let* content := fs_readFile safeName VIBECLAW_JSON in
         parse_meta JSON_parse content)
        (ret None)
  end.

(** [formatSecurityBadge] of [src/tools.ts]. *)
Definition formatSecurityBadge (skill : Gate.VibeResource) : string :=
  if match Gate.cisco_scan_result skill with
     | Some scan => Gate.is_safe scan
     | None => false
     end
  then "🛡️ Verified safe (Cisco scan)"
  else if match Gate.security_score skill with
          | Some score => score =? 0
          | None => false
          end
  then "🛡️ Pre-scanned (no issues)"
  else
    match Gate.security_score skill with
    | Some score =>
        if (score >? 0) && (score <? 25)
        then "⚠️ Minor flags (score: " +:+ pretty score +:+ ")"
        else "🔍 Scan pending"
    | None => "🔍 Scan pending"
    end.

(** [createManageTool().execute(args)]: the text of the [content] field
    of the result. [args.skillName] is optional. *)
Definition createManageTool_execute (env : Env) (action : string)
    (skillName : option string) : M string :=
  if String.eqb action "list" then
    let* skills := listInstalledSkills in
    match skills with
    | [] => ret "No skills installed via VibeClaw yet."
    | _ =>
        let output :=
          "VibeClaw-installed skills (" +:+ pretty (Z.of_nat (length skills)) +:+ "):" +:+
          nl +:+ nl in
        ret (fold_left (fun output name => output +:+ "  - " +:+ name +:+ nl) skills output)
    end
  else if String.eqb action "uninstall" then
    match skillName with
    | Some name =>
        if truthy name then
          let* removed := uninstallSkill env name in
          if removed : bool then
            ret ("✓ Uninstalled " +:+ dquote +:+ name +:+ dquote +:+
                 ". It will be removed on next session.")
          else
            ret (dquote +:+ name +:+ dquote +:+
                 " was not found or was not installed via VibeClaw.")
        else ret "Please specify which skill to uninstall."
    | None => ret "Please specify which skill to uninstall."
    end
  else ret ("Unknown action: " +:+ action).


(** ** The catalog client and the install tool *)

Module Catalog.

(** The fields of [VibeResource] that the install tool reads. *)
Record Resource := {
  name : string;
  github_owner : option string;
  github_repo : option string;
  github_url : option string;
  stars : Z;
  description : option string;
  security_score : option Z;
  security_flags : option (list string);
  cisco_scan_result : option Gate.CiscoScan;
}.

(** The same resource as [checkSecurity] and [formatSecurityBadge] see it. *)
Definition gate_view (r : Resource) : Gate.VibeResource :=
  {| Gate.name := name r;
     Gate.security_score := security_score r;
     Gate.security_flags := security_flags r;
     Gate.cisco_scan_result := cisco_scan_result r |}.

(** The fields of [VibeSearchResult] that the install tool reads. *)
Record VibeSearchResult := {
  success : bool;
  data : list Resource;
}.

(** What the catalog answers to a request: [fetch] rejects, the response
    is not [ok], reading the body as JSON rejects, or the body is a search
    result. A rejection comes with the message of its error. *)
Inductive ApiAnswer :=
| ApiRejects (message : string)
| ApiStatus (status : Z) (statusText : string)
| ApiBadBody (message : string)
| ApiBody (body : VibeSearchResult).

(** The catalog, and the message of the error that a failed operation of
    the installer raises. *)
Record Remote := {
  api : string -> ApiAnswer;
  error_message : Event -> string;
}.

Record VibeIndexClient := {
  apiKey : string;
  baseUrl : string;
}.

(** [opts] of [search]. *)
Record SearchOpts := {
  type : option string;
  limit : option Z;
  offset : option Z;
}.

End Catalog.

Definition VIBE_INDEX_BASE_URL : string := "https://vibeindex.ai/api/v1".

(** [new VibeIndexClient(apiKey, baseUrl)] *)
Definition new_VibeIndexClient (apiKey : string) (baseUrl : option string)
    : Catalog.VibeIndexClient :=
  {| Catalog.apiKey := apiKey;
     Catalog.baseUrl := match baseUrl with Some b => b | None => VIBE_INDEX_BASE_URL end |}.

(** The bytes that the serializer of [URLSearchParams] leaves as they
    are: letters, digits, [*], [-], [.] and [_]. *)
Definition urlencoded_plain (c : ascii) : bool :=
  let n := nat_of_ascii c in
  ((97 <=? n) && (n <=? 122))%nat ||
  ((65 <=? n) && (n <=? 90))%nat ||
  ((48 <=? n) && (n <=? 57))%nat ||
  (n =? 42)%nat || (n =? 45)%nat || (n =? 46)%nat || (n =? 95)%nat.

Definition hex_digit (n : nat) : ascii :=
  nth n (list_ascii_of_string "0123456789ABCDEF") "0"%char.

(** The serializer of [URLSearchParams] on a name or a value: a space
    becomes [+], any other byte outside the plain ones becomes [%XX]. *)
Fixpoint urlencode (s : string) : string :=
  match s with
  | EmptyString => EmptyString
  | String c rest =>
      if urlencoded_plain c then String c (urlencode rest)
      else if (nat_of_ascii c =? 32)%nat then String "+" (urlencode rest)
      else
        String "%" (String (hex_digit (nat_of_ascii c / 16))
                      (String (hex_digit (nat_of_ascii c mod 16)) (urlencode rest)))
  end.

(** [new URL(base)], [searchParams.set(key, value)] for every entry with a
    truthy value, [toString()], for a [base] that the URL parser keeps as it
    is written (the default one and its endpoints are). *)
Definition request_url (base : string) (params : list (string * string)) : string :=
  match List.filter (fun kv => truthy kv.2) params with
  | [] => base
  | set =>
      base +:+ "?" +:+
      join "&" ((fun kv => urlencode kv.1 +:+ "=" +:+ urlencode kv.2) <$> set)
  end.

(** [VibeIndexClient.fetch] on the search endpoint. An exception comes
    back as its message, on the left. *)
Definition VibeIndexClient_fetch (remote : Catalog.Remote) (client : Catalog.VibeIndexClient)
    (endpoint : string) (params : list (string * string))
    : M (string + Catalog.VibeSearchResult) :=
  let url := request_url (Catalog.baseUrl client +:+ endpoint) params in
  let* f := get_fs in
  match Catalog.api remote url with
  | Catalog.ApiRejects message => perform (EvFetch url) f (Returned (inl message))
  | Catalog.ApiStatus status statusText =>
      perform (EvFetch url) f
        (Returned (inl ("Vibe Index API error: " +:+ pretty status +:+ " " +:+ statusText)))
  | Catalog.ApiBadBody message => perform (EvFetch url) f (Returned (inl message))
  | Catalog.ApiBody body => perform (EvFetch url) f (Returned (inr body))
  end.

(** [VibeIndexClient.search(query, opts)] *)
Definition VibeIndexClient_search (remote : Catalog.Remote) (client : Catalog.VibeIndexClient)
    (query : string) (opts : option Catalog.SearchOpts)
    : M (string + Catalog.VibeSearchResult) :=
  VibeIndexClient_fetch remote client "/search"
    [ ("q", query);
      ("type", match opts with
               | Some o => match Catalog.type o with Some t => t | None => "" end
               | None => ""
               end);
      ("limit", pretty (match opts with
                        | Some o => match Catalog.limit o with Some n => n | None => 5 end
                        | None => 5
                        end));
      ("offset", pretty (match opts with
                         | Some o => match Catalog.offset o with Some n => n | None => 0 end
                         | None => 0
                         end)) ].

(** An optional string in a template literal. *)
Definition template (o : option string) : string :=
  match o with Some s => s | None => "undefined" end.

(** An optional string as a condition. *)
Definition truthy_opt (o : option string) : bool :=
  match o with Some s => truthy s | None => false end.

(** The message of the error that the last operation raised. *)
Definition caught_message (remote : Catalog.Remote) : M string :=
  fun w =>
    (Returned (match last (events w) with
               | Some e => Catalog.error_message remote e
               | None => ""
               end), w).

Definition could_not_find (query : string) : string :=
  "Could not find skill " +:+ dquote +:+ query +:+ dquote +:+ " in Vibe Index.".

Definition no_repository (skill : Catalog.Resource) : string :=
  "Found " +:+ dquote +:+ Catalog.name skill +:+ dquote +:+
  " but it has no GitHub repository. Cannot install automatically." +:+ nl +:+
  (if truthy_opt (Catalog.github_url skill)
   then "Manual link: " +:+ template (Catalog.github_url skill)
   else "").

(** The text for a result of the installer. *)
Definition install_report (skill : Catalog.Resource) (result : InstallResult.t) : string :=
  if negb (InstallResult.success result) then
    "Failed to install " +:+ dquote +:+ Catalog.name skill +:+ dquote +:+ ": " +:+
    template (InstallResult.error result)
  else if match InstallResult.alreadyInstalled result with Some b => b | None => false end then
    dquote +:+ Catalog.name skill +:+ dquote +:+ " is already installed at " +:+
    template (InstallResult.installPath result) +:+ "." +:+ nl +:+
    "Use force: true to reinstall." +:+ nl +:+
    "The skill is available in your next agent session."
  else
    "✓ Installed " +:+ dquote +:+ InstallResult.skillName result +:+ dquote +:+
    " successfully!" +:+ nl +:+ nl +:+
    "  Location: " +:+ template (InstallResult.installPath result) +:+ nl +:+
    "  Source: " +:+ template (InstallResult.sourceUrl result) +:+ nl +:+
    "  Stars: ⭐ " +:+ pretty (Catalog.stars skill) +:+ nl +:+
    "  Security: " +:+ formatSecurityBadge (Catalog.gate_view skill) +:+ nl +:+
    (if truthy_opt (Catalog.description skill)
     then "  Description: " +:+ template (Catalog.description skill) +:+ nl
     else "") +:+
    nl +:+ "**The skill will be available in your next agent session.**" +:+ nl +:+
    "Restart the agent or start a new session to use it.".

(** [createInstallTool(client).execute(args)]: the text of the [content]
    field of the result. The one [try] of the source covers the search,
    whose exceptions come back as messages, and the install, whose
    exceptions are caught here. *)
Definition createInstallTool_execute (remote : Catalog.Remote) (env : Env)
    (client : Catalog.VibeIndexClient) (query : string) (force : option bool) : M string :=
  let* searchResult :=
    VibeIndexClient_search remote client query
      (Some {| Catalog.type := Some "skill"; Catalog.limit := Some 1;
               Catalog.offset := None |}) in
  match searchResult with
  | inl message => ret ("Error installing skill: " +:+ message)
  | inr searchResult =>
      match Catalog.data searchResult with
      | [] => ret (could_not_find query)
      | skill :: _ =>
          if negb (Catalog.success searchResult) then ret (could_not_find query)
          else
            match Catalog.github_owner skill, Catalog.github_repo skill with
            | Some owner, Some repo =>
                if negb (truthy owner) || negb (truthy repo) then ret (no_repository skill)
                else
                  (* Security gate: check Vibe Index scan results before installing *)
                  let securityBlock := Gate.checkSecurity (Catalog.gate_view skill) in
                  if truthy_opt securityBlock then ret (template securityBlock)
                  else
                    try_catch
                      (let* result :=
                         installSkillFromGitHub env owner repo (Catalog.name skill)
                           (Some {| force := force |}) in
                       ret (install_report skill result))
                      (let* message := caught_message remote in
                       ret ("Error installing skill: " +:+ message))
            | _, _ => ret (no_repository skill)
            end
      end
  end.

(** A catalog whose best match for any query is a skill with an unsafe
    deep scan and score 0, and one whose best match is a clean skill of
    the repository [o/r]. *)
Definition unsafe_skill : Catalog.Resource :=
  {| Catalog.name := "x";
     Catalog.github_owner := Some "o";
     Catalog.github_repo := Some "r";
     Catalog.github_url := Some "https://github.com/o/r";
     Catalog.stars := 7;
     Catalog.description := None;
     Catalog.security_score := Some 0;
     Catalog.security_flags := None;
     Catalog.cisco_scan_result :=
       Some {| Gate.is_safe := false; Gate.max_severity := "high";
               Gate.findings_count := 3 |} |}.

Definition clean_skill : Catalog.Resource :=
  {| Catalog.name := "my skill";
     Catalog.github_owner := Some "o";
     Catalog.github_repo := Some "r";
     Catalog.github_url := Some "https://github.com/o/r";
     Catalog.stars := 7;
     Catalog.description := Some "A skill.";
     Catalog.security_score := Some 0;
     Catalog.security_flags := None;
     Catalog.cisco_scan_result := None |}.

Definition remote_with (skill : Catalog.Resource) : Catalog.Remote :=
  {| Catalog.api := fun _ =>
       Catalog.ApiBody {| Catalog.success := true; Catalog.data := [skill] |};
     Catalog.error_message := fun _ => "EEXIST: file already exists" |}.

Definition sample_client : Catalog.VibeIndexClient := new_VibeIndexClient "key" None.


(** The request that the install tool sends to the catalog. *)
Definition install_search_url (client : Catalog.VibeIndexClient) (query : string) : string :=
  request_url (Catalog.baseUrl client +:+ "/search")
    [("q", query); ("type", "skill"); ("limit", "1"); ("offset", "0")].

(** What [VibeIndexClient.fetch] makes of an answer of the catalog. *)
Definition api_result (a : Catalog.ApiAnswer) : string + Catalog.VibeSearchResult :=
  match a with
  | Catalog.ApiRejects message => inl message
  | Catalog.ApiStatus status statusText =>
      inl ("Vibe Index API error: " +:+ pretty status +:+ " " +:+ statusText)
  | Catalog.ApiBadBody message => inl message
  | Catalog.ApiBody body => inr body
  end.

(** The skill that the install tool goes on with: the first result of a
    successful search, when it names a repository. *)
Definition installable (a : Catalog.ApiAnswer)
    (skill : Catalog.Resource) (owner repo : string) : Prop :=
  exists body rest,
    a = Catalog.ApiBody body /\
    Catalog.success body = true /\
    Catalog.data body = skill :: rest /\
    Catalog.github_owner skill = Some owner /\ truthy owner = true /\
    Catalog.github_repo skill = Some repo /\ truthy repo = true.

(** The line of a skill in the text of the listing. *)
Definition listing_line (name : string) : string := "  - " +:+ name +:+ nl.


(** The world after the skill [my skill] of the sample repository has
    been installed into an empty home. *)
Definition sample_installed : World :=
  (installSkillFromGitHub sample_env "o" "r" "my skill" None (start None)).2.

Definition sample_url : string :=
  "https://raw.githubusercontent.com/o/r/master/SKILL.md".

(** A root in which a plain file has the name of the skill directory. *)
Definition file_in_the_way_fs : FS := Some {[ "myskill" := EFile ]}.


(** ** Paths in the hierarchy, readable records, exact numbers *)

(** The components of a path: what lies between its separators. *)
Definition components (p : string) : list string :=
  List.filter truthy (Path.split_slash p).

(** In the words of the specification: an absolute path is a strict
    descendant of a root when the components of the root are the first
    components of the path and the path has more. *)
Definition spec_strict_descendant (root p : string) : bool :=
  let r := components root in
  let c := components p in
  (length r <? length c)%nat && bool_decide (take (length r) c = r).

(** The installation root and the candidate path of a name resolved under
    it, as absolute paths of the process. *)
Definition resolved_root (env : Env) : string :=
  Path.resolve (cwd env) [SKILLS_DIR env].

Definition resolved_candidate (env : Env) (name : string) : string :=
  Path.resolve (cwd env) [SKILLS_DIR env; name].

(** The four conditions under which the specification has the sanitizer
    reject a raw identifier. *)
Definition spec_rejects (env : Env) (name : string) : bool :=
  let stripped := strip name in
  negb (truthy stripped) || includes stripped ".." || startsWith stripped "." ||
  negb (spec_strict_descendant (resolved_root env) (resolved_candidate env stripped)).

(** In the words of the specification: the install record of a directory
    is present and readable when reading it yields its text. *)
Definition record_readable (f : FS) (d : string) : bool :=
  match readFile_fs f d VIBECLAW_JSON with
  | Returned _ => true
  | Threw => false
  end.

(** A root whose directory [notes] holds a directory that has the name of
    the install record. *)
Definition unreadable_record_fs : FS :=
  Some {[ "notes" := EDir {[ VIBECLAW_JSON := ISubdir ]} ]}.

(** The integers that a JavaScript number holds exactly, and that a
    template literal prints digit by digit: [Number.isSafeInteger]. *)
Definition safe_integer (z : Z) : Prop := Z.abs z <= 2 ^ 53 - 1.


(** ** The security gate *)

Section GateProperties.

Import Gate.

Lemma scan_block_message_truthy skill scan :
  truthy (scan_block_message skill scan) = true.
Proof. reflexivity. Qed.

Lemma score_block_message_truthy skill score :
  truthy (score_block_message skill score) = true.
Proof. reflexivity. Qed.

Lemma check_score_spec skill :
  (score_reaches_threshold skill ->
     exists score, security_score skill = Some score /\
                   check_score skill = Some (score_block_message skill score)) /\
  (~ score_reaches_threshold skill -> check_score skill = None).
Proof.
  unfold check_score, score_reaches_threshold, SCORE_THRESHOLD.
  destruct (security_score skill) as [score|].
  - destruct (Z.geb_spec score 25) as [Hge|Hlt]; split.
    + intros _. eauto.
    + intros Hn. exfalso. apply Hn. exists score. split; [done | lia].
    + intros (s & [= <-] & Hs). lia.
    + done.
  - split; [intros (s & ? & _); done | done].
Qed.

(** C1. The gate blocks with a non-empty explanation whenever a deep scan
    exists and says unsafe, whatever the score (score 0 included);
    otherwise it blocks exactly when a score exists and is at least 25
    (25 is blocked, 24 is allowed); in every other case it returns null.
    The gate is a function of the record alone. *)
Theorem checkSecurity_policy (skill : VibeResource) :
  (deep_scan_unsafe skill ->
     exists msg, checkSecurity skill = Some msg /\ truthy msg = true) /\
  (~ deep_scan_unsafe skill ->
     (score_reaches_threshold skill ->
        exists msg, checkSecurity skill = Some msg /\ truthy msg = true) /\
     (~ score_reaches_threshold skill -> checkSecurity skill = None)) /\
  (forall n flags scan,
     is_safe scan = false ->
     is_Some (checkSecurity {| name := n; security_score := Some 0;
                               security_flags := flags;
                               cisco_scan_result := Some scan |})) /\
  (forall n flags scan,
     is_Some (checkSecurity {| name := n; security_score := Some 25;
                               security_flags := flags;
                               cisco_scan_result := scan |})) /\
  (forall n flags scan,
     ~ deep_scan_unsafe {| name := n; security_score := Some 24;
                           security_flags := flags;
                           cisco_scan_result := scan |} ->
     checkSecurity {| name := n; security_score := Some 24;
                      security_flags := flags;
                      cisco_scan_result := scan |} = None).
Proof.
  assert (Hsafe : forall s, ~ deep_scan_unsafe s -> checkSecurity s = check_score s).
  { intros s Hn. unfold checkSecurity.
    destruct (cisco_scan_result s) as [scan|] eqn:E; [|done].
    destruct (is_safe scan) eqn:Es; [done|].
    exfalso. apply Hn. by exists scan. }
  repeat split.
  - intros (scan & Hscan & Hunsafe). unfold checkSecurity.
    rewrite Hscan, Hunsafe. simpl. eauto using scan_block_message_truthy.
  - intros Hscore. rewrite (Hsafe _ H).
    destruct (proj1 (check_score_spec skill) Hscore) as (score & _ & ->).
    eauto using score_block_message_truthy.
  - intros Hscore. rewrite (Hsafe _ H). by apply check_score_spec.
  - intros n flags scan Hunsafe. unfold checkSecurity. simpl. rewrite Hunsafe. simpl. eauto.
  - intros n flags [scan|]; unfold checkSecurity; simpl.
    + destruct (is_safe scan); simpl; eauto.
    + eauto.
  - intros n flags scan Hn. by rewrite (Hsafe _ Hn).
Qed.

End GateProperties.

(** ** String primitives *)

Section StringFacts.

Lemma includes_occurs s p :
  includes s p = true <-> exists k, occurs_at p k s = true.
Proof.
  induction s as [|c s IH]; simpl.
  - rewrite orb_false_r. split.
    + intros H. by exists 0%nat.
    + intros [[|k] H]; simpl in H; done.
  - rewrite orb_true_iff, IH. split.
    + intros [H | [k H]]; [by exists 0%nat | by exists (S k)].
    + intros [[|k] H]; simpl in H; eauto.
Qed.

(** What the scan of [indexOf] finds, for a non-empty needle. *)
Lemma find_from_spec p s : p <> "" ->
  forall skip idx,
  match find_from s p skip idx with
  | Some n =>
      exists i, n = (idx + i)%nat /\ (skip <= i)%nat /\ occurs_at p i s = true /\
                forall j, (skip <= j < i)%nat -> occurs_at p j s = false
  | None => forall j, (skip <= j)%nat -> occurs_at p j s = false
  end.
Proof.
  intros Hp. induction s as [|c s IH]; intros skip idx.
  - destruct p as [|a p]; [done|].
    destruct skip; cbn [find_from occurs_at]; intros [|j] _; cbn [find_from occurs_at]; done.
  - destruct skip as [|k].
    + cbn [find_from occurs_at]. destruct (String.prefix p (String c s)) eqn:Hpre.
      * exists 0%nat. repeat split; [lia | lia | done | lia].
      * specialize (IH 0%nat (S idx)).
        destruct (find_from s p 0 (S idx)) as [n|].
        -- destruct IH as (i & -> & _ & Hocc & Hfirst).
           exists (S i). repeat split; [lia | lia | done |].
           intros [|j] Hj; [done | cbn [find_from occurs_at]; apply Hfirst; lia].
        -- intros [|j] _; [done | cbn [find_from occurs_at]; apply IH; lia].
    + cbn [find_from occurs_at]. specialize (IH k (S idx)).
      destruct (find_from s p k (S idx)) as [n|].
      * destruct IH as (i & -> & Hk & Hocc & Hfirst).
        exists (S i). repeat split; [lia | lia | done |].
        intros [|j] Hj; [lia | cbn [find_from occurs_at]; apply Hfirst; lia].
      * intros [|j] Hj; [lia | cbn [find_from occurs_at]; apply IH; lia].
Qed.

(** [s.indexOf(p, pos) > pos] says that [p] does not occur at [pos] but
    occurs somewhere after it. *)
Lemma indexOf_gt p s pos : p <> "" ->
  (indexOf s p pos >? Z.of_nat pos) = true <->
  occurs_at p pos s = false /\ exists i, (pos < i)%nat /\ occurs_at p i s = true.
Proof.
  intros Hp. unfold indexOf.
  pose proof (find_from_spec p s Hp pos 0) as H.
  destruct (find_from s p pos 0) as [n|].
  - destruct H as (i & -> & Hle & Hocc & Hfirst). simpl.
    rewrite Z.gtb_ltb, Z.ltb_lt. split.
    + intros Hlt. split; [apply Hfirst; lia | exists i; split; [lia | done]].
    + intros [Hno _]. destruct (decide (i = pos)) as [->|]; [congruence | lia].
  - split; [intros Hgt; exfalso; revert Hgt; rewrite Z.gtb_ltb, Z.ltb_lt; lia |].
    intros [_ (i & Hi & Hocc)]. rewrite H in Hocc; [done | lia].
Qed.

End StringFacts.

(** ** The source prober *)

Section Prober.

Context (env : Env).

Lemma after_fetches_nil w : after_fetches [] w = w.
Proof. destruct w as [f l]. unfold after_fetches. simpl. by rewrite app_nil_r. Qed.

Lemma after_fetches_cons u urls w :
  after_fetches (u :: urls) w = after_fetches urls (record_op (EvFetch u) (fs w) w).
Proof.
  unfold after_fetches, record_op. simpl. f_equal.
  by rewrite <- app_assoc.
Qed.

Lemma after_fetches_events urls w :
  events (after_fetches urls w) = (events w ++ (EvFetch <$> urls))%list.
Proof.
  unfold events, after_fetches. simpl. rewrite fmap_app. f_equal.
  rewrite <- list_fmap_compose. done.
Qed.

(** One turn of the loop: one request, and a result only for a hit. *)
Lemma try_url_run url w :
  try_url env url w =
  (Returned (match candidate_hit env url with
             | Some content => Some (content, url)
             | None => None
             end),
   record_op (EvFetch url) (fs w) w).
Proof.
  unfold try_url, try_catch, bind, fetch, get_fs, perform, candidate_hit, record_op.
  destruct (net env url) as [|[] [content|]]; simpl; try reflexivity.
  destruct (looks_like_skill_md content); reflexivity.
Qed.

(** The loop returns the first hit and requests the candidates up to it. *)
Lemma probe_run urls w :
  probe env urls w = (Returned (first_hit env urls), after_fetches (requested env urls) w).
Proof.
  revert w. induction urls as [|u rest IH]; intros w.
  - simpl. by rewrite after_fetches_nil.
  - cbn [probe first_hit requested]. unfold bind at 1. rewrite try_url_run.
    destruct (candidate_hit env u) as [content|].
    + by rewrite after_fetches_cons, after_fetches_nil.
    + by rewrite IH, after_fetches_cons.
Qed.

Lemma first_hit_split pre url post content :
  (forall u, u ∈ pre -> candidate_hit env u = None) ->
  candidate_hit env url = Some content ->
  first_hit env (pre ++ url :: post)%list = Some (content, url) /\
  requested env (pre ++ url :: post)%list = (pre ++ [url])%list.
Proof.
  intros Hpre Hhit. induction pre as [|p pre IH]; simpl.
  - by rewrite Hhit.
  - rewrite (Hpre p) by (apply elem_of_cons; auto).
    destruct IH as [H1 H2].
    { intros u Hu. apply Hpre, elem_of_cons. auto. }
    by rewrite H1, H2.
Qed.

Lemma first_hit_none urls :
  (forall u, u ∈ urls -> candidate_hit env u = None) ->
  first_hit env urls = None /\ requested env urls = urls.
Proof.
  intros Hall. induction urls as [|u rest IH]; simpl; [done|].
  rewrite (Hall u) by (apply elem_of_cons; auto).
  destruct IH as [H1 H2].
  { intros v Hv. apply Hall, elem_of_cons. auto. }
  by rewrite H1, H2.
Qed.

(** C3. The prober builds the six candidates in the fixed precedence,
    requests them strictly in that order, and returns the content and the
    URL of the first candidate whose response is successful and passes the
    content test, with no request to a later candidate; when no candidate
    qualifies, all six are requested and the result is null. *)
Theorem downloadSkillMd_probes_in_order (owner repo skillName : string) :
  let base := "https://raw.githubusercontent.com/" +:+ owner +:+ "/" +:+ repo in
  getSkillMdUrls owner repo skillName =
    [ base +:+ "/main/skills/" +:+ skillName +:+ "/SKILL.md";
      base +:+ "/master/skills/" +:+ skillName +:+ "/SKILL.md";
      base +:+ "/main/SKILL.md";
      base +:+ "/master/SKILL.md";
      base +:+ "/main/src/skills/" +:+ skillName +:+ "/SKILL.md";
      base +:+ "/master/src/skills/" +:+ skillName +:+ "/SKILL.md" ] /\
  (forall pre url post content w,
     getSkillMdUrls owner repo skillName = (pre ++ url :: post)%list ->
     (forall u, u ∈ pre -> candidate_hit env u = None) ->
     candidate_hit env url = Some content ->
     downloadSkillMd env owner repo skillName w =
       (Returned (Some (content, url)), after_fetches (pre ++ [url]) w) /\
     events (after_fetches (pre ++ [url]) w) =
       (events w ++ (EvFetch <$> pre) ++ [EvFetch url])%list) /\
  (forall w,
     (forall u, u ∈ getSkillMdUrls owner repo skillName -> candidate_hit env u = None) ->
     downloadSkillMd env owner repo skillName w =
       (Returned None, after_fetches (getSkillMdUrls owner repo skillName) w)).
Proof.
  split; [reflexivity|]. split.
  - intros pre url post content w Hurls Hpre Hhit.
    unfold downloadSkillMd. rewrite probe_run, Hurls.
    destruct (first_hit_split pre url post content Hpre Hhit) as [-> ->].
    split; [done|]. by rewrite after_fetches_events, fmap_app.
  - intros w Hall. unfold downloadSkillMd. rewrite probe_run.
    by destruct (first_hit_none _ Hall) as [-> ->].
Qed.

(** C4, as the code has it. The content test accepts a body exactly when
    it starts with the delimiter, the delimiter does not occur at index 3
    but occurs at some index after 3, and [name:] occurs anywhere in the
    body; a body that fails the test, such as a page that does not start
    with the delimiter, is no hit even with a successful response, and the
    prober goes on to the next candidate. *)
Theorem looks_like_skill_md_spec (content : string) :
  (looks_like_skill_md content = true <->
     startsWith content "---" = true /\
     occurs_at "---" 3 content = false /\
     (exists i, (3 < i)%nat /\ occurs_at "---" i content = true) /\
     (exists k, occurs_at "name:" k content = true)) /\
  (startsWith content "---" = false -> looks_like_skill_md content = false) /\
  (forall url rest w,
     net env url = Response true (Some content) ->
     looks_like_skill_md content = false ->
     candidate_hit env url = None /\
     probe env (url :: rest) w = probe env rest (record_op (EvFetch url) (fs w) w)).
Proof.
  split; [|split].
  - unfold looks_like_skill_md.
    pose proof (indexOf_gt "---" content 3 ltac:(done)) as Hidx.
    change (Z.of_nat 3) with 3 in Hidx.
    rewrite !andb_true_iff, includes_occurs, Hidx. tauto.
  - unfold looks_like_skill_md. by intros ->.
  - intros url rest w Hnet Hbad.
    assert (Hmiss : candidate_hit env url = None).
    { unfold candidate_hit. by rewrite Hnet, Hbad. }
    split; [done|].
    cbn [probe]. unfold bind at 1. by rewrite try_url_run, Hmiss.
Qed.

End Prober.

(** C4, as the specification words it, fails: a body whose [name:] field
    comes after the closing delimiter is accepted by the code, although no
    [name:] lies between the two delimiters. *)
Lemma looks_like_skill_md_name_outside_header :
  let content := "---" +:+ nl +:+ "---" +:+ nl +:+ "name: x" in
  looks_like_skill_md content = true /\
  spec_frontmatter_with_name content = false.
Proof. split; vm_compute; reflexivity. Qed.

(** ** Paths *)

Section PathFacts.

Lemma append_assoc (a b c : string) : (a +:+ b) +:+ c = a +:+ (b +:+ c).
Proof. induction a as [|x a IH]; simpl; [done | by f_equal]. Qed.

Lemma prefix_app (p s : string) :
  String.prefix p s = true <-> exists rest, s = p +:+ rest.
Proof.
  revert s. induction p as [|x p IH]; intros s.
  - split; [intros _; by exists s | by destruct s].
  - destruct s as [|y s]; simpl.
    + split; [done | intros [rest H]; simpl in H; discriminate].
    + destruct (ascii_dec x y) as [->|Hne].
      * rewrite IH. split; intros [rest H]; exists rest; simpl in *; congruence.
      * split; [done | intros [rest H]; simpl in H; congruence].
Qed.

Lemma endsWithSlash_has_slash s : Path.endsWithSlash s = true -> has_slash s = true.
Proof.
  induction s as [|c s IH]; [done|].
  cbn [Path.endsWithSlash has_slash]. destruct s as [|d s].
  - intros ->. done.
  - intros H. rewrite (IH H). apply orb_true_r.
Qed.

Lemma endsWithSlash_app a b : b <> "" -> Path.endsWithSlash (a +:+ b) = Path.endsWithSlash b.
Proof.
  intros Hb. induction a as [|x a IH]; [done|].
  simpl. rewrite <- IH. destruct (a +:+ b) eqn:E; [|done].
  destruct a; simpl in E; [done | discriminate].
Qed.

Lemma split_slash_segments s : Forall (fun seg => has_slash seg = false) (Path.split_slash s).
Proof.
  induction s as [|c s IH]; simpl.
  - by constructor.
  - destruct (Ascii.eqb c Path.slash) eqn:Ec.
    + by constructor.
    + destruct (Path.split_slash s) as [|h t]; inversion IH; subst;
        constructor; simpl; rewrite ?Ec; done.
Qed.

Lemma normalize_go_segments allow segs acc :
  Forall (fun seg => has_slash seg = false) segs ->
  Forall proper_segment acc ->
  Forall proper_segment (Path.normalize_go allow segs acc).
Proof.
  revert acc. induction segs as [|seg rest IH]; intros acc Hsegs Hacc.
  - simpl. by apply Forall_rev.
  - inversion Hsegs as [|? ? Hseg Hrest]; subst. cbn [Path.normalize_go].
    assert (Hdots : proper_segment "..") by (split; done).
    destruct (String.eqb_spec seg "") as [->|Hne]; [by apply IH|].
    destruct (String.eqb_spec seg ".") as [->|_]; [by apply IH|]. simpl.
    destruct (String.eqb_spec seg "..") as [->|_].
    + destruct acc as [|top acc']; [destruct allow; apply IH; auto|].
      inversion Hacc; subst.
      destruct (String.eqb top ".."); [destruct allow|]; apply IH; auto.
    + apply IH; [done|]. constructor; [by split | done].
Qed.

Lemma join_proper_segments segs :
  Forall proper_segment segs ->
  Path.endsWithSlash (join "/" segs) = false /\ (segs <> [] -> join "/" segs <> "").
Proof.
  induction 1 as [|seg rest [Hne Hns] Hrest [IH1 IH2]]; [done|].
  assert (Hseg : Path.endsWithSlash seg = false).
  { destruct (Path.endsWithSlash seg) eqn:E; [|done].
    apply endsWithSlash_has_slash in E. congruence. }
  destruct rest as [|seg' rest']; [done|].
  cbn [join]. split.
  - rewrite endsWithSlash_app; [rewrite endsWithSlash_app; [done|]|].
    + by apply IH2.
    + done.
  - intros _. destruct seg; done.
Qed.

(** A resolved path has no trailing separator, the root apart. *)
Lemma resolve_no_trailing_slash cwd args :
  Path.endsWithSlash (Path.resolve cwd args) = true -> Path.resolve cwd args = "/".
Proof.
  unfold Path.resolve.
  destruct (Path.resolve_go (rev args ++ [cwd]) "") as [r absolute].
  unfold Path.normalizeString.
  pose proof (normalize_go_segments (negb absolute) (Path.split_slash r) []
                (split_slash_segments r) ltac:(constructor)) as Hsegs.
  apply join_proper_segments in Hsegs as [Hend Hne].
  set (p := join "/" _) in *.
  destruct absolute.
  - destruct p as [|c q]; [done|].
    rewrite endsWithSlash_app by done. congruence.
  - destruct (String.eqb p ""); [done | congruence].
Qed.

Lemma normalize_nonempty path : Path.normalize path <> "".
Proof.
  unfold Path.normalize. cbv zeta.
  destruct (String.eqb path ""); [done|].
  destruct (String.eqb_spec (Path.normalizeString path (negb (Path.isAbsolute path))) "") as [_|Hne].
  - destruct (Path.isAbsolute path); [done|]. by destruct (Path.endsWithSlash path).
  - destruct (Path.endsWithSlash path), (Path.isAbsolute path); try done.
    destruct (Path.normalizeString _ _); done.
Qed.

Lemma join_nonempty args : Path.join args <> "".
Proof.
  unfold Path.join. destruct (filter _ args); [done | apply normalize_nonempty].
Qed.

(** The test of the sanitizer on the resolved path holds exactly for the
    paths written below the root. *)
Lemma startsWith_root_sep root cwd args :
  root <> "" ->
  startsWith (Path.resolve cwd args) (root +:+ Path.sep) = true <->
  written_below root (Path.resolve cwd args).
Proof.
  intros Hroot. unfold startsWith, written_below, Path.sep.
  rewrite prefix_app. split.
  - intros [rest Hrest]. exists rest. rewrite append_assoc in Hrest.
    split; [|done]. intros ->.
    assert (Hend : Path.endsWithSlash (Path.resolve cwd args) = true).
    { rewrite Hrest. by rewrite endsWithSlash_app. }
    apply resolve_no_trailing_slash in Hend. rewrite Hend in Hrest.
    destruct root as [|c [|d root]]; simpl in Hrest; congruence.
  - intros (rest & _ & ->). exists rest. by rewrite append_assoc.
Qed.

End PathFacts.

(** ** The name sanitizer *)

Section Sanitizer.

Context (env : Env).

(** The class of the sanitizer holds the letters, the digits, the hyphen,
    the underscore and the dot, and nothing else. *)
Lemma allowed_char_alphabet c :
  allowed_char c = existsb (Ascii.eqb c) (list_ascii_of_string allowed_alphabet).
Proof.
  rewrite <- (ascii_nat_embedding c).
  assert (Hall : forallb
            (fun n => Bool.eqb (allowed_char (ascii_of_nat n))
                        (existsb (Ascii.eqb (ascii_of_nat n))
                           (list_ascii_of_string allowed_alphabet)))
            (seq 0 256) = true) by (vm_compute; reflexivity).
  rewrite forallb_forall in Hall.
  apply Bool.eqb_prop, Hall, in_seq.
  pose proof (nat_ascii_bounded c). lia.
Qed.

Lemma strip_filter name :
  list_ascii_of_string (strip name) =
  List.filter allowed_char (list_ascii_of_string name).
Proof.
  induction name as [|c name IH]; simpl; [done|].
  destruct (allowed_char c); simpl; by rewrite IH.
Qed.

Lemma includes_cons c s p : includes s p = true -> includes (String c s) p = true.
Proof. intros H. cbn [includes]. rewrite H. apply orb_true_r. Qed.

Lemma includes_prefix s p : String.prefix p s = true -> includes s p = true.
Proof. intros H. destruct s; cbn [includes]; by rewrite H. Qed.

(** Stripping does not separate two adjacent dots. *)
Lemma strip_keeps_dotdot name :
  includes name "../" = true -> includes (strip name) ".." = true.
Proof.
  induction name as [|c name IH]; [done|].
  cbn [includes]. rewrite orb_true_iff. intros [Hpre | Hrest].
  - apply prefix_app in Hpre as [rest Hrest]. simpl in Hrest.
    injection Hrest as -> ->.
    change (strip (String "." (String "." (String "/" rest))))
      with (String "." (String "." (strip rest))).
    apply includes_prefix. by destruct (strip rest).
  - simpl. destruct (allowed_char c); auto using includes_cons.
Qed.

Lemma strip_keeps_leading_dot name :
  startsWith name "." = true -> startsWith (strip name) "." = true.
Proof.
  unfold startsWith. intros H. apply prefix_app in H as [rest ->].
  simpl. by destruct (strip rest).
Qed.

Lemma strip_no_slash name : has_slash (strip name) = false.
Proof.
  induction name as [|c name IH]; [done|]. simpl.
  destruct (allowed_char c) eqn:Hc; [|done]. simpl. rewrite IH, orb_false_r.
  destruct (Ascii.eqb_spec c Path.slash) as [->|]; [|done]. by vm_compute in Hc.
Qed.

(** A sanitized name is one path segment, and neither ["."] nor [".."]:
    joined to the root it names a child of the root. *)
Lemma sanitized_is_segment name safe :
  sanitizeSkillName env name = Some safe ->
  proper_segment safe /\ startsWith safe "." = false.
Proof.
  unfold sanitizeSkillName. cbv zeta.
  destruct (truthy (strip name)) eqn:Ht; [|done].
  destruct (includes (strip name) ".."); [done|].
  destruct (startsWith (strip name) ".") eqn:Hdot; [done|]. simpl.
  destruct (negb _); [done|]. intros [= <-].
  split; [|done]. split; [|apply strip_no_slash].
  intros H. by rewrite H in Ht.
Qed.

Lemma SKILLS_DIR_nonempty : SKILLS_DIR env <> "".
Proof. apply join_nonempty. Qed.

Lemma truthy_false s : truthy s = false <-> s = "".
Proof. destruct s; simpl; split; congruence. Qed.

(** What the sanitizer decides, whatever the root. It strips every
    character outside the class and rejects exactly when what is left is
    empty, contains [..], starts with a dot, or resolves to a path that
    is not written below the installation root as the process was given
    it; a raw name containing [../] or starting with a dot is always
    rejected; and when the sanitizer rejects, the installer returns the
    invalid-name failure and performs no operation at all. *)
Theorem sanitizeSkillName_rejects (name : string) :
  list_ascii_of_string (strip name) =
    List.filter allowed_char (list_ascii_of_string name) /\
  (forall safe, sanitizeSkillName env name = Some safe -> safe = strip name) /\
  (sanitizeSkillName env name = None <->
     strip name = "" \/
     includes (strip name) ".." = true \/
     startsWith (strip name) "." = true \/
     ~ written_below (SKILLS_DIR env)
         (Path.resolve (cwd env) [SKILLS_DIR env; strip name])) /\
  (includes name "../" = true \/ startsWith name "." = true ->
     sanitizeSkillName env name = None) /\
  (sanitizeSkillName env name = None ->
     forall owner repo opts w,
       installSkillFromGitHub env owner repo name opts w =
         (Returned (invalid_name_result name), w) /\
       InstallResult.success (invalid_name_result name) = false /\
       InstallResult.error (invalid_name_result name) = Some (invalid_name_error name)).
Proof.
  assert (Hiff : sanitizeSkillName env name = None <->
     strip name = "" \/
     includes (strip name) ".." = true \/
     startsWith (strip name) "." = true \/
     ~ written_below (SKILLS_DIR env)
         (Path.resolve (cwd env) [SKILLS_DIR env; strip name])).
  { unfold sanitizeSkillName. cbv zeta.
    rewrite <- (startsWith_root_sep _ _ _ SKILLS_DIR_nonempty).
    rewrite <- truthy_false.
    destruct (truthy (strip name)), (includes (strip name) ".."),
      (startsWith (strip name) "."); simpl; try (split; [auto | done]).
    destruct (startsWith (Path.resolve _ _) _); simpl.
    - split; [done|]. intros [?|[?|[?|?]]]; done.
    - split; [|done]. intros _. do 3 right. done. }
  split; [apply strip_filter|]. split; [|split; [exact Hiff|split]].
  - unfold sanitizeSkillName. cbv zeta. intros safe.
    destruct (_ || _ || _); [done|]. destruct (negb _); [done|]. congruence.
  - intros [H|H]; apply Hiff.
    + right; left. by apply strip_keeps_dotdot.
    + do 2 right; left. by apply strip_keeps_leading_dot.
  - intros Hnone owner repo opts w. unfold installSkillFromGitHub.
    by rewrite Hnone.
Qed.

End Sanitizer.

(** ** The file system *)

Section FileSystem.

Lemma SKILL_MD_ne_VIBECLAW_JSON : SKILL_MD <> VIBECLAW_JSON.
Proof. done. Qed.

(** Creating the directory of a skill adds no file to it. *)
Lemma mkdir_fs_exists f d name :
  exists_path (mkdir_fs f d).1 (PFile d name) = exists_path f (PFile d name).
Proof.
  unfold mkdir_fs, exists_path, lookup_dir. destruct f as [root|]; simpl.
  - destruct (root !! d) as [[|children]|] eqn:E; simpl; rewrite ?E; [done..|].
    by rewrite lookup_insert_eq.
  - by rewrite lookup_singleton_eq.
Qed.

Lemma writeFile_fs_threw f d name data :
  (writeFile_fs f d name data).2 = Threw -> (writeFile_fs f d name data).1 = f.
Proof.
  unfold writeFile_fs. destruct f as [root|]; [|done].
  destruct (lookup_dir (Some root) d) as [children|]; [|done].
  by destruct (children !! name) as [[|]|].
Qed.

(** A successful write leaves the file in place. *)
Lemma writeFile_fs_same f d name data :
  (writeFile_fs f d name data).2 = Returned tt ->
  exists_path (writeFile_fs f d name data).1 (PFile d name) = true.
Proof.
  unfold writeFile_fs. destruct f as [root|]; [|done].
  destruct (lookup_dir (Some root) d) as [children|]; [|done].
  destruct (children !! name) as [[|]|]; cbn [fst snd]; try done;
    unfold exists_path, lookup_dir; by rewrite !lookup_insert_eq.
Qed.

(** A write, successful or not, neither adds nor removes another file. *)
Lemma writeFile_fs_other f d name data name' :
  name <> name' ->
  exists_path (writeFile_fs f d name data).1 (PFile d name') = exists_path f (PFile d name').
Proof.
  intros Hne. unfold writeFile_fs. destruct f as [root|]; [|done].
  destruct (lookup_dir (Some root) d) as [children|] eqn:E; [|done].
  destruct (children !! name) as [[|]|]; cbn [fst snd]; try done;
    unfold exists_path; rewrite E; unfold lookup_dir;
    by rewrite lookup_insert_eq, lookup_insert_ne.
Qed.

Lemma rm_fs_removes root d :
  is_Some (root !! d) ->
  rm_fs (Some root) d = (Some (delete d root), Returned tt).
Proof. intros [e He]. unfold rm_fs. by rewrite He. Qed.

Lemma tracked_is_dir f d :
  tracked f d = true ->
  exists root children,
    f = Some root /\ root !! d = Some (EDir children) /\
    is_Some (children !! VIBECLAW_JSON).
Proof.
  unfold tracked, exists_path, lookup_dir. destruct f as [root|]; [|done].
  destruct (root !! d) as [[|children]|] eqn:Ed; try done.
  destruct (children !! VIBECLAW_JSON) eqn:E; [|done]. intros _.
  exists root, children. rewrite E. split; [done|]. split; [done | by eexists].
Qed.

End FileSystem.

(** ** The installer *)

Section InstallerFacts.

Context (env : Env).

Lemma fs_access_run p w :
  fs_access p w =
  (if exists_path (fs w) p then Returned tt else Threw, record_op (EvAccess p) (fs w) w).
Proof. reflexivity. Qed.

Lemma fs_mkdir_run d w :
  fs_mkdir d w = ((mkdir_fs (fs w) d).2, record_op (EvMkdir (PDir d)) (mkdir_fs (fs w) d).1 w).
Proof. reflexivity. Qed.

Lemma fs_writeFile_run d name data w :
  fs_writeFile d name data w =
  ((writeFile_fs (fs w) d name data).2,
   record_op (EvWriteFile (PFile d name) data) (writeFile_fs (fs w) d name data).1 w).
Proof. reflexivity. Qed.

Lemma fs_rm_run d w :
  fs_rm d w = ((rm_fs (fs w) d).2, record_op (EvRm (PDir d)) (rm_fs (fs w) d).1 w).
Proof. reflexivity. Qed.

Lemma install_already owner repo skillName opts w safe :
  sanitizeSkillName env skillName = Some safe ->
  stops_at_check safe opts w = true ->
  installSkillFromGitHub env owner repo skillName opts w =
  (Returned (already_installed_result skillName (Path.join [SKILLS_DIR env; safe])),
   after_check safe w).
Proof.
  intros Hsafe Hstop. unfold installSkillFromGitHub. rewrite Hsafe.
  apply andb_true_iff in Hstop as [Hc Hf]. unfold has_content in Hc.
  unfold bind at 1. unfold try_catch, bind at 1. rewrite fs_access_run, Hc, Hf.
  reflexivity.
Qed.

Lemma install_probes owner repo skillName opts w safe :
  sanitizeSkillName env skillName = Some safe ->
  stops_at_check safe opts w = false ->
  installSkillFromGitHub env owner repo skillName opts w =
  let urls := getSkillMdUrls owner repo skillName in
  let w2 := after_fetches (requested env urls) (after_check safe w) in
  match first_hit env urls with
  | None => (Returned (not_found_result owner repo skillName), w2)
  | Some (content, url) =>
      let m := mkdir_fs (fs w) safe in
      let w3 := record_op (EvMkdir (PDir safe)) m.1 w2 in
      match m.2 with
      | Threw => (Threw, w3)
      | Returned _ =>
          let c := writeFile_fs m.1 safe SKILL_MD (Text content) in
          let w4 := record_op (EvWriteFile (PFile safe SKILL_MD) (Text content)) c.1 w3 in
          match c.2 with
          | Threw => (Threw, w4)
          | Returned _ =>
              let meta := MetaJson (install_record env owner repo url skillName) in
              let j := writeFile_fs c.1 safe VIBECLAW_JSON meta in
              let w5 := record_op (EvWriteFile (PFile safe VIBECLAW_JSON) meta) j.1 w4 in
              match j.2 with
              | Threw => (Threw, w5)
              | Returned _ =>
                  (Returned (fresh_install_result skillName
                               (Path.join [SKILLS_DIR env; safe]) url), w5)
              end
          end
      end
  end.
Proof.
  intros Hsafe Hstop. unfold installSkillFromGitHub. rewrite Hsafe. cbv zeta.
  unfold bind at 1. unfold try_catch, bind at 1. rewrite fs_access_run.
  fold (has_content (fs w) safe). fold (after_check safe w).
  assert (Hearly :
    (if has_content (fs w) safe
     then (if negb (force_set opts)
           then ret (Some (already_installed_result skillName
                             (Path.join [SKILLS_DIR env; safe])))
           else ret None) (after_check safe w)
     else ret None (after_check safe w)) = (Returned None, after_check safe w)).
  { unfold stops_at_check in Hstop.
    destruct (has_content (fs w) safe), (negb (force_set opts)); done. }
  unfold already_installed_result in Hearly.
  destruct (has_content (fs w) safe); rewrite Hearly; clear Hearly;
    (unfold bind at 1; unfold downloadSkillMd; rewrite probe_run;
     destruct (first_hit env _) as [[content url]|]; [|reflexivity];
     unfold bind at 1; rewrite fs_mkdir_run; cbn [fs after_fetches after_check record_op];
     destruct (mkdir_fs (fs w) safe) as [f1 [[]|]]; cbn [fst snd]; [|reflexivity];
     unfold bind at 1; rewrite fs_writeFile_run; cbn [fs record_op];
     destruct (writeFile_fs f1 safe SKILL_MD (Text content)) as [f2 [[]|]];
     cbn [fst snd]; [|reflexivity];
     unfold bind at 1; rewrite fs_writeFile_run; cbn [fs record_op];
     destruct (writeFile_fs f2 safe VIBECLAW_JSON _) as [f3 [[]|]];
     cbn [fst snd]; reflexivity).
Qed.

Lemma after_check_log safe w :
  log (after_check safe w) = (log w ++ [(EvAccess (PFile safe SKILL_MD), fs w)])%list.
Proof. reflexivity. Qed.

(** A successful install leaves the skill file in place. *)
Lemma install_success_has_content owner repo skillName opts w safe r w' :
  sanitizeSkillName env skillName = Some safe ->
  installSkillFromGitHub env owner repo skillName opts w = (Returned r, w') ->
  InstallResult.success r = true ->
  has_content (fs w') safe = true.
Proof.
  intros Hsafe Hrun Hok.
  destruct (stops_at_check safe opts w) eqn:Hstop.
  - rewrite (install_already _ _ _ _ _ _ Hsafe Hstop) in Hrun.
    injection Hrun as _ <-. by apply andb_true_iff in Hstop as [? _].
  - rewrite (install_probes _ _ _ _ _ _ Hsafe Hstop) in Hrun. cbv zeta in Hrun.
    destruct (first_hit env _) as [[content url]|].
    + destruct (mkdir_fs (fs w) safe) as [f1 [[]|]] eqn:Em; cbn [fst snd] in Hrun; [|done].
      pose proof (writeFile_fs_same f1 safe SKILL_MD (Text content)) as Hc.
      destruct (writeFile_fs f1 safe SKILL_MD (Text content)) as [f2 [[]|]];
        cbn [fst snd] in *; [|done].
      pose proof (writeFile_fs_other f2 safe VIBECLAW_JSON
                    (MetaJson (install_record env owner repo url skillName)) SKILL_MD) as Hj.
      destruct (writeFile_fs f2 safe VIBECLAW_JSON _) as [f3 [[]|]];
        cbn [fst snd] in *; [|done].
      injection Hrun as _ <-. cbn [fs record_op]. unfold has_content.
      rewrite Hj by done. by apply Hc.
    + injection Hrun as <- _. done.
Qed.

(** C5, as the code has it. For a valid identifier whose target directory
    already contains the skill file, an install without [force] returns
    success with [alreadyInstalled = true] after the one check for the
    file: no request is made and nothing is written. Hence a second
    install without [force] after a successful install yields
    [alreadyInstalled = true] and does not fetch or write again. *)
Theorem install_idempotent_on_content (owner repo skillName safe : string)
    (opts : option InstallOpts) (w : World) :
  sanitizeSkillName env skillName = Some safe ->
  force_set opts = false ->
  let already := already_installed_result skillName (Path.join [SKILLS_DIR env; safe]) in
  InstallResult.success already = true /\
  InstallResult.alreadyInstalled already = Some true /\
  (has_content (fs w) safe = true ->
     installSkillFromGitHub env owner repo skillName opts w =
       (Returned already, after_check safe w) /\
     fs (after_check safe w) = fs w /\
     log (after_check safe w) =
       (log w ++ [(EvAccess (PFile safe SKILL_MD), fs w)])%list) /\
  (forall opts1 r1 w1,
     installSkillFromGitHub env owner repo skillName opts1 w = (Returned r1, w1) ->
     InstallResult.success r1 = true ->
     installSkillFromGitHub env owner repo skillName opts w1 =
       (Returned already, after_check safe w1) /\
     fs (after_check safe w1) = fs w1 /\
     log (after_check safe w1) =
       (log w1 ++ [(EvAccess (PFile safe SKILL_MD), fs w1)])%list).
Proof.
  intros Hsafe Hforce already.
  assert (Hskip : forall v, has_content (fs v) safe = true ->
            installSkillFromGitHub env owner repo skillName opts v =
              (Returned already, after_check safe v)).
  { intros v Hv. apply install_already; [done|].
    unfold stops_at_check. by rewrite Hv, Hforce. }
  split; [done|]. split; [done|]. split.
  - intros Hc. by rewrite (Hskip w Hc).
  - intros opts1 r1 w1 Hrun Hok.
    rewrite Hskip; [done|]. eauto using install_success_has_content.
Qed.

(** C6. When the prober exhausts the six candidates without a hit, it
    yields null and the installer returns a failure with a descriptive
    error; the operations performed are the check for the skill file and
    the six requests, each of which leaves the file system as it was: no
    directory is created and no file is written. *)
Theorem install_not_found_writes_nothing (owner repo skillName safe : string)
    (opts : option InstallOpts) (w : World) :
  sanitizeSkillName env skillName = Some safe ->
  stops_at_check safe opts w = false ->
  (forall u, u ∈ getSkillMdUrls owner repo skillName -> candidate_hit env u = None) ->
  let urls := getSkillMdUrls owner repo skillName in
  let w' := after_fetches urls (after_check safe w) in
  downloadSkillMd env owner repo skillName (after_check safe w) = (Returned None, w') /\
  installSkillFromGitHub env owner repo skillName opts w =
    (Returned (not_found_result owner repo skillName), w') /\
  InstallResult.success (not_found_result owner repo skillName) = false /\
  InstallResult.error (not_found_result owner repo skillName) =
    Some (not_found_error owner repo skillName) /\
  fs w' = fs w /\
  log w' = (log w ++ (EvAccess (PFile safe SKILL_MD), fs w) ::
                     ((fun u => (EvFetch u, fs w)) <$> urls))%list /\
  Forall (fun e => is_fs_write e.1 = false /\ e.2 = fs w)
         ((EvAccess (PFile safe SKILL_MD), fs w) :: ((fun u => (EvFetch u, fs w)) <$> urls)).
Proof.
  intros Hsafe Hstop Hall urls w'.
  destruct (first_hit_none env _ Hall) as [Hhit Hreq].
  split; [|split; [|repeat split]].
  - unfold downloadSkillMd. by rewrite probe_run, Hhit, Hreq.
  - rewrite (install_probes _ _ _ _ _ _ Hsafe Hstop). cbv zeta.
    by rewrite Hhit, Hreq.
  - unfold w', after_fetches, after_check, record_op. cbn [fs log].
    by rewrite <- app_assoc.
  - constructor; [done|]. apply Forall_fmap, Forall_forall. done.
Qed.

(** C10. Whatever the outcome, the result names the raw identifier as it
    was given, and the install path, when there is one, is the
    installation root joined with the sanitized identifier. *)
Theorem install_result_names_raw_identifier (owner repo skillName : string)
    (opts : option InstallOpts) (w : World) :
  forall r w',
    installSkillFromGitHub env owner repo skillName opts w = (Returned r, w') ->
    InstallResult.skillName r = skillName /\
    (r = invalid_name_result skillName /\ sanitizeSkillName env skillName = None \/
     r = not_found_result owner repo skillName \/
     exists safe, sanitizeSkillName env skillName = Some safe /\
       InstallResult.installPath r = Some (Path.join [SKILLS_DIR env; safe]) /\
       (r = already_installed_result skillName (Path.join [SKILLS_DIR env; safe]) \/
        exists url, r = fresh_install_result skillName (Path.join [SKILLS_DIR env; safe]) url)) /\
    (InstallResult.installPath r = None \/
     exists safe, sanitizeSkillName env skillName = Some safe /\
       InstallResult.installPath r = Some (Path.join [SKILLS_DIR env; safe])).
Proof.
  intros r w' Hrun.
  destruct (sanitizeSkillName env skillName) as [safe|] eqn:Hsafe.
  - destruct (stops_at_check safe opts w) eqn:Hstop.
    + rewrite (install_already _ _ _ _ _ _ Hsafe Hstop) in Hrun.
      injection Hrun as <- _. split; [done|]. split; [|right; eauto].
      right; right. exists safe. eauto.
    + rewrite (install_probes _ _ _ _ _ _ Hsafe Hstop) in Hrun. cbv zeta in Hrun.
      destruct (first_hit env _) as [[content url]|].
      * destruct (mkdir_fs (fs w) safe) as [f1 [[]|]]; cbn [fst snd] in Hrun; [|done].
        destruct (writeFile_fs f1 safe SKILL_MD _) as [f2 [[]|]]; cbn [fst snd] in Hrun; [|done].
        destruct (writeFile_fs f2 safe VIBECLAW_JSON _) as [f3 [[]|]]; cbn [fst snd] in Hrun; [|done].
        injection Hrun as <- _. split; [done|]. split; [|right; eauto].
        right; right. exists safe. eauto.
      * injection Hrun as <- _. split; [done|]. split; [by right; left | by left].
  - unfold installSkillFromGitHub in Hrun. rewrite Hsafe in Hrun.
    injection Hrun as <- _. split; [done|]. split; [by left | by left].
Qed.

Lemma mkdir_fs_preserves d f :
  content_before_record d f -> content_before_record d (mkdir_fs f d).1.
Proof. unfold content_before_record, tracked, has_content. by rewrite !mkdir_fs_exists. Qed.

Lemma write_content_preserves d f data :
  content_before_record d f ->
  content_before_record d (writeFile_fs f d SKILL_MD data).1.
Proof.
  intros Hf. destruct (writeFile_fs f d SKILL_MD data).2 as [[]|] eqn:E.
  - intros _. by apply writeFile_fs_same.
  - by rewrite writeFile_fs_threw.
Qed.

Lemma write_record_preserves d f data :
  has_content f d = true ->
  content_before_record d (writeFile_fs f d VIBECLAW_JSON data).1.
Proof.
  intros Hf _. unfold has_content. by rewrite writeFile_fs_other.
Qed.

(** C7, as the code has it. A successful fresh install ends with the
    creation of the directory, the write of the downloaded content and
    then the write of the install record, in that order. The operations
    before the write of the content leave the files of the directory as
    they were at the start; between the two writes the directory has its
    content and is tracked exactly when it was tracked at the start, so
    an install into an untracked directory that is interrupted there
    leaves an installed, untracked directory. No state an install goes
    through, whatever its outcome, holds an install record without the
    skill file unless the directory did at the start. *)
Theorem install_writes_content_before_record (owner repo skillName safe : string)
    (opts : option InstallOpts) (w : World) :
  sanitizeSkillName env skillName = Some safe ->
  forall o w',
    installSkillFromGitHub env owner repo skillName opts w = (o, w') ->
    exists new,
      log w' = (log w ++ new)%list /\
      Forall (fun f => content_before_record safe (fs w) -> content_before_record safe f)
             new.*2 /\
      (forall r,
         o = Returned r ->
         InstallResult.success r = true ->
         InstallResult.alreadyInstalled r <> Some true ->
         exists reads content url f1 f2 f3,
           new = (reads ++
                  [ (EvMkdir (PDir safe), f1);
                    (EvWriteFile (PFile safe SKILL_MD) (Text content), f2);
                    (EvWriteFile (PFile safe VIBECLAW_JSON)
                       (MetaJson (install_record env owner repo url skillName)), f3) ])%list /\
           Forall (fun e => is_fs_write e.1 = false /\ e.2 = fs w) reads /\
           has_content f1 safe = has_content (fs w) safe /\
           tracked f1 safe = tracked (fs w) safe /\
           has_content f2 safe = true /\
           tracked f2 safe = tracked (fs w) safe /\
           (tracked (fs w) safe = false -> tracked f2 safe = false) /\
           has_content f3 safe = true /\
           tracked f3 safe = true /\
           fs w' = f3).
Proof.
  intros Hsafe o w' Hrun.
  set (kept := fun f => content_before_record safe (fs w) -> content_before_record safe f).
  destruct (stops_at_check safe opts w) eqn:Hstop.
  { rewrite (install_already _ _ _ _ _ _ Hsafe Hstop) in Hrun.
    injection Hrun as <- <-. eexists. split; [apply after_check_log|].
    split; [constructor; [by intros ? | constructor]|].
    intros r [= <-] _ Hne. done. }
  rewrite (install_probes _ _ _ _ _ _ Hsafe Hstop) in Hrun. cbv zeta in Hrun.
  set (urls := requested env _) in Hrun.
  set (access := (EvAccess (PFile safe SKILL_MD), fs w)).
  set (fetches := (fun u => (EvFetch u, fs w)) <$> urls).
  assert (Hsame : Forall (fun e : Event * FS => is_fs_write e.1 = false /\ e.2 = fs w)
                    (access :: fetches)).
  { constructor; [done|]. apply Forall_fmap, Forall_forall. done. }
  assert (Hreads : Forall kept (access :: fetches).*2).
  { apply Forall_fmap. eapply Forall_impl; [exact Hsame|].
    intros e [_ He] Hinv. simpl. by rewrite He. }
  destruct (first_hit env _) as [[content url]|].
  2:{ injection Hrun as <- <-. exists (access :: fetches).
      split; [|split; [done|]].
      - unfold after_fetches, after_check, record_op. cbn [fs log].
        by rewrite <- app_assoc.
      - intros r [= <-]. done. }
  assert (H1 : kept (mkdir_fs (fs w) safe).1).
  { intros Hinv. by apply mkdir_fs_preserves. }
  pose proof (mkdir_fs_exists (fs w) safe VIBECLAW_JSON) as Ht1.
  pose proof (mkdir_fs_exists (fs w) safe SKILL_MD) as Hc1.
  destruct (mkdir_fs (fs w) safe) as [f1 o1]. cbn [fst snd] in *.
  set (mk := (EvMkdir (PDir safe), f1)).
  assert (H2 : kept (writeFile_fs f1 safe SKILL_MD (Text content)).1).
  { intros Hinv. by apply write_content_preserves, H1. }
  pose proof (writeFile_fs_same f1 safe SKILL_MD (Text content)) as Hc2.
  pose proof (writeFile_fs_other f1 safe SKILL_MD (Text content) VIBECLAW_JSON
                SKILL_MD_ne_VIBECLAW_JSON) as Ht2.
  destruct (writeFile_fs f1 safe SKILL_MD (Text content)) as [f2 o2]. cbn [fst snd] in *.
  set (wc := (EvWriteFile (PFile safe SKILL_MD) (Text content), f2)).
  set (meta := MetaJson (install_record env owner repo url skillName)) in *.
  pose proof (write_record_preserves safe f2 meta) as H3.
  pose proof (writeFile_fs_same f2 safe VIBECLAW_JSON meta) as Ht3.
  pose proof (writeFile_fs_other f2 safe VIBECLAW_JSON meta SKILL_MD
                ltac:(done)) as Hc3.
  destruct (writeFile_fs f2 safe VIBECLAW_JSON meta) as [f3 o3]. cbn [fst snd] in *.
  set (wr := (EvWriteFile (PFile safe VIBECLAW_JSON) meta, f3)).
  destruct o1 as [[]|].
  2:{ injection Hrun as <- <-. exists ((access :: fetches) ++ [mk])%list.
      split; [|split; [|done]].
      - unfold after_fetches, after_check, record_op. cbn [fs log].
        by rewrite <- !app_assoc.
      - rewrite fmap_app. apply Forall_app. split; [done | by repeat constructor]. }
  destruct o2 as [[]|].
  2:{ injection Hrun as <- <-. exists ((access :: fetches) ++ [mk; wc])%list.
      split; [|split; [|done]].
      - unfold after_fetches, after_check, record_op. cbn [fs log].
        by rewrite <- !app_assoc.
      - rewrite fmap_app. apply Forall_app. split; [done | by repeat constructor]. }
  specialize (Hc2 eq_refl). specialize (H3 Hc2).
  assert (Hnew : log (record_op wr.1 f3 (record_op wc.1 f2 (record_op mk.1 f1
                   (after_fetches urls (after_check safe w))))) =
                 (log w ++ (access :: fetches) ++ [mk; wc; wr])%list).
  { unfold after_fetches, after_check, record_op. cbn [fs log fst].
    by rewrite <- !app_assoc. }
  assert (Hall : Forall kept ((access :: fetches) ++ [mk; wc; wr])%list.*2).
  { rewrite fmap_app. apply Forall_app. split; [done|].
    repeat constructor; [exact H1 | exact H2 | by intros _]. }
  destruct o3 as [[]|].
  2:{ injection Hrun as <- <-. eexists. split; [exact Hnew|]. split; [exact Hall | done]. }
  injection Hrun as <- <-. eexists. split; [exact Hnew|]. split; [exact Hall|].
  intros r _ _ _. exists (access :: fetches), content, url, f1, f2, f3.
  split; [done|]. split; [exact Hsame|].
  split; [exact Hc1|]. split; [exact Ht1|].
  split; [done|].
  assert (Ht : tracked f2 safe = tracked (fs w) safe).
  { unfold tracked. by rewrite Ht2, Ht1. }
  split; [exact Ht|]. split; [by rewrite Ht|].
  split; [unfold has_content; by rewrite Hc3|]. split; [by apply Ht3 | done].
Qed.

End InstallerFacts.

(** ** The registry *)

Section Registry.

Context (env : Env).

Lemma only_reads_refl w : only_reads_since w w.
Proof. split; [done|]. exists []. by rewrite app_nil_r. Qed.

Lemma only_reads_access p w w' :
  only_reads_since (record_op (EvAccess p) (fs w) w) w' -> only_reads_since w w'.
Proof.
  intros [Hfs (new & Hlog & Hnew)]. split; [done|].
  exists ((EvAccess p, fs w) :: new). split.
  - rewrite Hlog. cbn [log record_op]. by rewrite <- app_assoc.
  - by constructor.
Qed.

Lemma collect_installed_run entries acc w :
  exists w',
    collect_installed entries acc w =
      (Returned (acc ++ tracked_names (fs w) entries)%list, w') /\
    only_reads_since w w'.
Proof.
  revert acc w. induction entries as [|[name is_dir] rest IH]; intros acc w.
  - exists w. split; [|apply only_reads_refl].
    unfold tracked_names. simpl. by rewrite app_nil_r.
  - cbn [collect_installed]. destruct is_dir.
    + unfold bind at 1. unfold try_catch, bind at 1. rewrite fs_access_run.
      set (w1 := record_op _ _ w).
      unfold tracked_names. cbn [List.filter fst snd andb].
      fold (tracked (fs w) name).
      destruct (tracked (fs w) name).
      * destruct (IH (acc ++ [name])%list w1) as (w' & Hrun & Hreads).
        exists w'. split; [|by apply only_reads_access in Hreads].
        cbn [ret]. rewrite Hrun. cbn [fmap list_fmap fst]. by rewrite <- app_assoc.
      * destruct (IH acc w1) as (w' & Hrun & Hreads).
        exists w'. split; [|by apply only_reads_access in Hreads].
        cbn [ret]. by rewrite Hrun.
    + destruct (IH acc w) as (w' & Hrun & Hreads).
      exists w'. split; [|done]. by rewrite Hrun.
Qed.

Lemma tracked_names_readdir root n :
  n ∈ tracked_names (Some root)
        ((fun ne => (ne.1, isDirectory ne.2)) <$> map_to_list root) <->
  tracked (Some root) n = true.
Proof.
  unfold tracked_names. rewrite list_elem_of_fmap. split.
  - intros ([m b] & -> & Hin). apply list_elem_of_In, filter_In in Hin as [_ Hin].
    by apply andb_true_iff in Hin as [_ Hin].
  - intros Ht. destruct (tracked_is_dir _ _ Ht) as (root' & children & [= <-] & Hd & _).
    exists (n, true). split; [done|].
    apply list_elem_of_In, filter_In. split; [|by cbn [fst snd]; rewrite Ht].
    apply list_elem_of_In, list_elem_of_fmap. exists (n, EDir children).
    split; [done|]. by apply elem_of_map_to_list.
Qed.

Lemma tracked_names_NoDup root :
  NoDup (tracked_names (Some root)
           ((fun ne => (ne.1, isDirectory ne.2)) <$> map_to_list root)).
Proof.
  unfold tracked_names.
  pose proof (NoDup_fst_map_to_list root) as Hnd.
  induction (map_to_list root) as [|[n e] l IH]; [constructor|].
  cbn [fmap list_fmap fst snd] in *. apply NoDup_cons in Hnd as [Hn Hl].
  cbn [List.filter fst snd].
  destruct (isDirectory e && tracked (Some root) n); [|by apply IH].
  cbn [fmap list_fmap fst]. apply NoDup_cons. split; [|by apply IH].
  intros Hin. apply Hn. apply list_elem_of_fmap in Hin as ([m b] & -> & Hin).
  apply list_elem_of_In, filter_In in Hin as [Hin _].
  apply list_elem_of_In, list_elem_of_fmap in Hin as ([m' e'] & [= -> ->] & Hin).
  apply list_elem_of_fmap. by exists (m', e').
Qed.

Lemma only_reads_readdir f w w' :
  fs w = f ->
  only_reads_since (record_op (EvReaddir PRoot) f w) w' -> only_reads_since w w'.
Proof.
  intros <- [Hfs (new & Hlog & Hnew)]. split; [done|].
  exists ((EvReaddir PRoot, fs w) :: new). split.
  - rewrite Hlog. cbn [log record_op]. by rewrite <- app_assoc.
  - by constructor.
Qed.

Lemma fs_readdir_run w :
  fs_readdir w = (readdir_fs (fs w), record_op (EvReaddir PRoot) (fs w) w).
Proof. reflexivity. Qed.

Lemma tracked_insert_other root c children n :
  n <> c ->
  tracked (Some (<[ c := EDir children ]> root)) n = tracked (Some root) n.
Proof.
  intros Hne. unfold tracked, exists_path, lookup_dir. by rewrite lookup_insert_ne.
Qed.

Lemma tracked_insert_recordless root c children :
  children !! VIBECLAW_JSON = None ->
  tracked (Some (<[ c := EDir children ]> root)) c = false.
Proof.
  intros Hnone. unfold tracked, exists_path, lookup_dir.
  by rewrite lookup_insert_eq, Hnone.
Qed.

(** C9, as the code has it. The listing never fails: it returns, without
    writing anything, the names of the directories directly under the
    installation root in which an entry with the name of the install
    record exists, each once, and skips every other entry. The record is
    not opened: a directory whose record can be read is listed, and so is
    one whose record exists and cannot be read. So when the tracked
    directories are two and a third directory without a record is placed
    beside them, the listing is those two names. *)
Theorem listInstalledSkills_lists_tracked (w : World) :
  exists names w',
    listInstalledSkills w = (Returned names, w') /\
    only_reads_since w w' /\
    NoDup names /\
    (forall n, n ∈ names <-> tracked (fs w) n = true) /\
    (forall n, record_readable (fs w) n = true -> n ∈ names) /\
    (forall root a b c children,
       fs w = Some (<[ c := EDir children ]> root) ->
       root !! c = None ->
       children !! VIBECLAW_JSON = None ->
       a <> b ->
       (forall n, tracked (Some root) n = true <-> n = a \/ n = b) ->
       names ≡ₚ [a; b]).
Proof.
  assert (Hlist : exists names w',
    listInstalledSkills w = (Returned names, w') /\
    only_reads_since w w' /\
    NoDup names /\
    (forall n, n ∈ names <-> tracked (fs w) n = true)).
  { unfold listInstalledSkills, try_catch. unfold bind at 1. rewrite fs_readdir_run.
    set (w1 := record_op _ _ w). unfold readdir_fs.
    destruct (fs w) as [root|] eqn:Hfs.
    - destruct (collect_installed_run ((fun ne => (ne.1, isDirectory ne.2)) <$> map_to_list root)
                  [] w1) as (w' & Hrun & Hreads).
      eexists _, w'. split; [by rewrite Hrun|].
      split; [by apply (only_reads_readdir (Some root))|].
      subst w1. cbn [app fs record_op].
      split; [apply tracked_names_NoDup | apply tracked_names_readdir].
    - exists [], w1. split; [done|].
      split; [apply (only_reads_readdir None); [done | apply only_reads_refl]|].
      split; [constructor|]. intros n. split; [by intros ?%elem_of_nil | done]. }
  destruct Hlist as (names & w' & Hrun & Hreads & Hnd & Hmem).
  exists names, w'. do 4 (split; [done|]).
  split.
  { intros n Hn. apply Hmem. revert Hn.
    unfold record_readable, readFile_fs, tracked, exists_path.
    destruct (lookup_dir (fs w) n) as [children|]; [|done].
    by destruct (children !! VIBECLAW_JSON) as [[|]|]. }
  intros root a b c children Hfs Hfree Hrecordless Hab Htracked.
  apply NoDup_Permutation; [done | |].
  { apply NoDup_cons. split; [by intros ?%list_elem_of_singleton|].
    apply NoDup_singleton. }
  intros n. rewrite Hmem, Hfs.
  assert (Hc : tracked (Some root) c = false).
  { unfold tracked, exists_path, lookup_dir. by rewrite Hfree. }
  destruct (decide (n = c)) as [->|Hne].
  - rewrite tracked_insert_recordless by done. split; [done|].
    intros Hin. rewrite <- Hc. apply Htracked.
    apply elem_of_cons in Hin as [?|Hin]; [by left|].
    apply list_elem_of_singleton in Hin. by right.
  - rewrite tracked_insert_other by done. rewrite Htracked.
    rewrite elem_of_cons, list_elem_of_singleton. done.
Qed.

(** C8. Uninstall sanitizes the identifier. When the directory of the
    sanitized name holds an install record, the whole directory is removed
    and the result is true; for an invalid identifier, a directory that
    does not exist or a directory without an install record, the result is
    false and the file system is left as it was. *)
Theorem uninstallSkill_removes_tracked_only (skillName : string) (w : World) :
  (sanitizeSkillName env skillName = None ->
     uninstallSkill env skillName w = (Returned false, w)) /\
  (forall safe,
     sanitizeSkillName env skillName = Some safe ->
     tracked (fs w) safe = false ->
     uninstallSkill env skillName w =
       (Returned false, record_op (EvAccess (PFile safe VIBECLAW_JSON)) (fs w) w) /\
     fs (record_op (EvAccess (PFile safe VIBECLAW_JSON)) (fs w) w) = fs w) /\
  (forall safe,
     sanitizeSkillName env skillName = Some safe ->
     tracked (fs w) safe = true ->
     exists root,
       fs w = Some root /\
       uninstallSkill env skillName w =
         (Returned true,
          record_op (EvRm (PDir safe)) (Some (delete safe root))
            (record_op (EvAccess (PFile safe VIBECLAW_JSON)) (fs w) w)) /\
       exists_path (Some (delete safe root)) (PDir safe) = false /\
       (forall name, exists_path (Some (delete safe root)) (PFile safe name) = false) /\
       (forall d, d <> safe -> delete safe root !! d = root !! d)).
Proof.
  split; [|split].
  - intros Hnone. unfold uninstallSkill. by rewrite Hnone.
  - intros safe Hsafe Ht. unfold uninstallSkill. rewrite Hsafe.
    unfold try_catch. unfold bind at 1. rewrite fs_access_run.
    unfold tracked in Ht. by rewrite Ht.
  - intros safe Hsafe Ht.
    destruct (tracked_is_dir _ _ Ht) as (root & children & Hfs & Hd & _).
    exists root. split; [done|]. split; [|split; [|split]].
    + unfold uninstallSkill. rewrite Hsafe.
      unfold try_catch. unfold bind at 1. rewrite fs_access_run.
      unfold tracked in Ht. rewrite Ht.
      unfold bind at 1. rewrite fs_rm_run. cbn [fs record_op].
      rewrite Hfs, rm_fs_removes by (by eexists). reflexivity.
    + unfold exists_path. by rewrite lookup_delete_eq.
    + intros name. unfold exists_path, lookup_dir. by rewrite lookup_delete_eq.
    + intros d Hne. by apply lookup_delete_ne.
Qed.

End Registry.

(** ** The properties on sample worlds *)

(** The gate on a record with an unsafe deep scan and score 0. *)
Lemma checkSecurity_policy_witness :
  let skill :=
    {| Gate.name := "x"; Gate.security_score := Some 0;
       Gate.security_flags := None;
       Gate.cisco_scan_result :=
         Some {| Gate.is_safe := false; Gate.max_severity := "high";
                 Gate.findings_count := 3 |} |} in
  deep_scan_unsafe skill /\
  exists msg, Gate.checkSecurity skill = Some msg /\ truthy msg = true.
Proof.
  intros skill.
  assert (Hunsafe : deep_scan_unsafe skill).
  { eexists. split; reflexivity. }
  split; [exact Hunsafe|].
  exact (proj1 (checkSecurity_policy skill) Hunsafe).
Defined.

(** C2, at a relative installation root. The state directory is given as
    the relative path [state] to a process whose working directory is
    [/work]. The name [weather] is clean: nothing is stripped from it, it
    is not empty, holds no [..], does not start with a dot, and it
    resolves to [/work/state/skills/weather], a strict descendant of the
    root [/work/state/skills]: none of the four conditions of the
    specification holds. The sanitizer rejects it all the same, because
    it compares the resolved path with the root as it is written,
    [state/skills/], and the installer returns the invalid-name failure
    without any operation. *)
Theorem sanitizeSkillName_relative_root_rejects_clean_name :
  let env := relative_env in
  let name := "weather" in
  strip name = name /\
  SKILLS_DIR env = "state/skills" /\
  resolved_root env = "/work/state/skills" /\
  resolved_candidate env (strip name) = "/work/state/skills/weather" /\
  spec_strict_descendant (resolved_root env) (resolved_candidate env (strip name)) = true /\
  spec_rejects env name = false /\
  startsWith (resolved_candidate env (strip name)) (SKILLS_DIR env +:+ Path.sep) = false /\
  sanitizeSkillName env name = None /\
  forall w,
    installSkillFromGitHub env "o" "r" name None w = (Returned (invalid_name_result name), w).
Proof.
  intros env name. do 8 (split; [vm_compute; reflexivity|]).
  intros w. unfold installSkillFromGitHub.
  by replace (sanitizeSkillName env name) with (@None string) by (vm_compute; reflexivity).
Qed.

(** A traversal attempt is rejected before anything is done. *)
Lemma sanitizeSkillName_rejects_witness :
  installSkillFromGitHub sample_env "o" "r" "../../etc/passwd" None (start None) =
  (Returned (invalid_name_result "../../etc/passwd"), start None).
Proof.
  apply (sanitizeSkillName_rejects sample_env "../../etc/passwd").
  apply (sanitizeSkillName_rejects sample_env "../../etc/passwd").
  left. reflexivity.
Defined.

(** Only the fourth candidate serves a descriptor: four requests are
    made, and the fourth is returned. *)
Lemma downloadSkillMd_probes_in_order_witness :
  downloadSkillMd sample_env "o" "r" "x" (start None) =
  (Returned (Some (sample_skill_md,
                   "https://raw.githubusercontent.com/o/r/master/SKILL.md")),
   after_fetches
     [ "https://raw.githubusercontent.com/o/r/main/skills/x/SKILL.md";
       "https://raw.githubusercontent.com/o/r/master/skills/x/SKILL.md";
       "https://raw.githubusercontent.com/o/r/main/SKILL.md";
       "https://raw.githubusercontent.com/o/r/master/SKILL.md" ]
     (start None)).
Proof.
  apply (proj1 (proj2 (downloadSkillMd_probes_in_order sample_env "o" "r" "x"))
           [ "https://raw.githubusercontent.com/o/r/main/skills/x/SKILL.md";
             "https://raw.githubusercontent.com/o/r/master/skills/x/SKILL.md";
             "https://raw.githubusercontent.com/o/r/main/SKILL.md" ]
           "https://raw.githubusercontent.com/o/r/master/SKILL.md"
           [ "https://raw.githubusercontent.com/o/r/main/src/skills/x/SKILL.md";
             "https://raw.githubusercontent.com/o/r/master/src/skills/x/SKILL.md" ]
           sample_skill_md (start None)).
  - reflexivity.
  - intros u Hu. repeat (apply elem_of_cons in Hu as [->|Hu]; [reflexivity|]).
    by apply elem_of_nil in Hu.
  - reflexivity.
Defined.

(** C5, as the specification words it, fails: a directory that holds an
    install record but no skill file is not taken as installed; the
    installer probes the source and writes the files. *)
Lemma install_record_without_content_refetches :
  let run := installSkillFromGitHub sample_env "o" "r" "foo" None (start record_only_fs) in
  sanitizeSkillName sample_env "foo" = Some "foo" /\
  tracked record_only_fs "foo" = true /\
  run.1 = Returned (fresh_install_result "foo" "/home/u/.openclaw/skills/foo"
                      "https://raw.githubusercontent.com/o/r/master/SKILL.md") /\
  InstallResult.alreadyInstalled
    (fresh_install_result "foo" "/home/u/.openclaw/skills/foo"
       "https://raw.githubusercontent.com/o/r/master/SKILL.md") <> Some true /\
  existsb is_network (events run.2) = true /\
  existsb is_fs_write (events run.2) = true.
Proof. vm_compute. repeat split; done. Qed.

(** A second install right after a first one stops at the check. *)
Lemma install_idempotent_on_content_witness :
  let first := installSkillFromGitHub sample_env "o" "r" "my skill" None (start None) in
  installSkillFromGitHub sample_env "o" "r" "my skill" None first.2 =
    (Returned (already_installed_result "my skill"
                 (Path.join [SKILLS_DIR sample_env; "myskill"])),
     after_check "myskill" first.2).
Proof.
  intros first.
  apply (install_idempotent_on_content sample_env "o" "r" "my skill" "myskill"
           None (start None) eq_refl eq_refl)
    with (opts1 := None)
         (r1 := fresh_install_result "my skill" "/home/u/.openclaw/skills/myskill"
                  "https://raw.githubusercontent.com/o/r/master/SKILL.md").
  - rewrite (surjective_pairing (installSkillFromGitHub _ _ _ _ _ _)).
    apply (f_equal2 pair); [vm_compute; reflexivity | reflexivity].
  - reflexivity.
Defined.

(** No candidate can be fetched: the install fails and writes nothing. *)
Lemma install_not_found_writes_nothing_witness :
  installSkillFromGitHub offline_env "o" "r" "my skill" None (start None) =
  (Returned (not_found_result "o" "r" "my skill"),
   after_fetches (getSkillMdUrls "o" "r" "my skill") (after_check "myskill" (start None))).
Proof.
  apply (install_not_found_writes_nothing offline_env "o" "r" "my skill" "myskill"
           None (start None)).
  - reflexivity.
  - reflexivity.
  - intros u _. reflexivity.
Defined.

(** C7, as the specification words it, fails: a successful fresh install
    into a directory that holds an install record and no skill file goes
    through states in which the directory holds the record without the
    content, and at the seventh operation, the write of the content,
    which comes before the write of the record, the directory is left
    installed and tracked, not untracked. *)
Lemma install_over_record_without_content :
  let run := installSkillFromGitHub sample_env "o" "r" "foo" None (start record_only_fs) in
  sanitizeSkillName sample_env "foo" = Some "foo" /\
  run.1 = Returned (fresh_install_result "foo" "/home/u/.openclaw/skills/foo"
                      "https://raw.githubusercontent.com/o/r/master/SKILL.md") /\
  existsb (fun f => tracked f "foo" && negb (has_content f "foo")) (snapshots run.2) = true /\
  events run.2 !! 6%nat = Some (EvWriteFile (PFile "foo" SKILL_MD) (Text sample_skill_md)) /\
  (fun f => (has_content f "foo", tracked f "foo")) <$> (snapshots run.2 !! 6%nat) =
    Some (true, true) /\
  length (log run.2) = 8%nat.
Proof. vm_compute. repeat split; reflexivity. Qed.

(** A fresh install into an empty home: the directory is created, the
    content is written, then the record; between the two writes the
    directory has its content and is not tracked. *)
Lemma install_writes_content_before_record_witness :
  let run := installSkillFromGitHub sample_env "o" "r" "my skill" None (start None) in
  exists reads content url f1 f2 f3,
    log run.2 =
      ([] ++ reads ++
       [ (EvMkdir (PDir "myskill"), f1);
         (EvWriteFile (PFile "myskill" SKILL_MD) (Text content), f2);
         (EvWriteFile (PFile "myskill" VIBECLAW_JSON)
            (MetaJson (install_record sample_env "o" "r" url "my skill")), f3) ])%list /\
    has_content f2 "myskill" = true /\
    tracked f2 "myskill" = false.
Proof.
  intros run.
  destruct (install_writes_content_before_record sample_env "o" "r" "my skill" "myskill"
              None (start None) eq_refl run.1 run.2)
    as (new & Hlog & _ & Hfresh).
  - subst run. by destruct (installSkillFromGitHub _ _ _ _ _ _).
  - destruct (Hfresh (fresh_install_result "my skill" "/home/u/.openclaw/skills/myskill"
                        "https://raw.githubusercontent.com/o/r/master/SKILL.md"))
      as (reads & content & url & f1 & f2 & f3 & Hnew & _ & _ & _ & Hc2 & _ & Ht2 & _).
    + subst run. vm_compute. reflexivity.
    + reflexivity.
    + discriminate.
    + exists reads, content, url, f1, f2, f3.
      split; [by rewrite Hlog, Hnew|]. split; [exact Hc2|]. by apply Ht2.
Defined.

(** The result names the raw identifier; the path names the sanitized one. *)
Lemma install_result_names_raw_identifier_witness :
  let r := fresh_install_result "my skill" "/home/u/.openclaw/skills/myskill"
             "https://raw.githubusercontent.com/o/r/master/SKILL.md" in
  InstallResult.skillName r = "my skill" /\
  (InstallResult.installPath r = None \/
   exists safe, sanitizeSkillName sample_env "my skill" = Some safe /\
     InstallResult.installPath r = Some (Path.join [SKILLS_DIR sample_env; safe])).
Proof.
  intros r.
  destruct (install_result_names_raw_identifier sample_env "o" "r" "my skill" None
              (start None) r
              (installSkillFromGitHub sample_env "o" "r" "my skill" None (start None)).2)
    as (Hname & _ & Hpath).
  - rewrite (surjective_pairing (installSkillFromGitHub _ _ _ _ _ _)).
    apply (f_equal2 pair); [vm_compute; reflexivity | reflexivity].
  - split; assumption.
Defined.

(** The sample run of the witness indeed returns, with a path that
    differs from the raw identifier. *)
Example install_sample_run :
  (installSkillFromGitHub sample_env "o" "r" "my skill" None (start None)).1 =
  Returned (fresh_install_result "my skill" "/home/u/.openclaw/skills/myskill"
              "https://raw.githubusercontent.com/o/r/master/SKILL.md").
Proof. vm_compute. reflexivity. Qed.

(** A directory with the skill file and no record counts as installed
    for the installer, and as absent for the registry. *)
Example install_content_without_record :
  (installSkillFromGitHub sample_env "o" "r" "foo" None (start content_only_fs)).1 =
    Returned (already_installed_result "foo" "/home/u/.openclaw/skills/foo") /\
  (listInstalledSkills (start content_only_fs)).1 = Returned [] /\
  (uninstallSkill sample_env "foo" (start content_only_fs)).1 = Returned false /\
  fs_after (uninstallSkill sample_env "foo" (start content_only_fs)) = content_only_fs.
Proof. vm_compute. repeat split; reflexivity. Qed.

(** A body of six dashes and more is rejected by the code, although the
    delimiter occurs again after index 3 with [name:] before it. *)
Example looks_like_skill_md_six_dashes :
  let content := "------" +:+ nl +:+ "name: x" +:+ nl +:+ "---" +:+ nl in
  looks_like_skill_md content = false /\ spec_frontmatter_with_name content = true.
Proof. vm_compute. split; reflexivity. Qed.

(** With a relative installation root every name is rejected: the
    resolved path is absolute and never starts with the relative root. *)
Example sanitizeSkillName_relative_root :
  sanitizeSkillName
    {| OPENCLAW_STATE_DIR := Some "state"; CLAWDBOT_STATE_DIR := None;
       homedir := "/home/u"; cwd := "/work";
       net := fun _ => FetchThrows; now := "" |} "weather" = None.
Proof. vm_compute. reflexivity. Qed.

Lemma two_installed_root_tracked n :
  tracked (Some two_installed_root) n = true <-> n = "alpha" \/ n = "beta".
Proof.
  unfold two_installed_root, tracked, exists_path, lookup_dir.
  destruct (decide (n = "alpha")) as [->|Ha].
  { rewrite lookup_insert_eq, lookup_insert_eq. split; auto. }
  rewrite lookup_insert_ne by done.
  destruct (decide (n = "beta")) as [->|Hb].
  { rewrite lookup_insert_eq, lookup_insert_eq. split; auto. }
  rewrite lookup_insert_ne, lookup_empty by done.
  split; [done | intros [?|?]; done].
Qed.

(** C9, as the specification words it, fails: a directory in which the
    name of the install record is taken by a directory is listed,
    although its record cannot be read: reading it raises an exception
    and [getInstalledSkillMeta] yields null. *)
Lemma listInstalledSkills_lists_unreadable_record :
  let w := start unreadable_record_fs in
  (listInstalledSkills w).1 = Returned ["notes"] /\
  record_readable (fs w) "notes" = false /\
  (fs_readFile "notes" VIBECLAW_JSON w).1 = Threw /\
  (getInstalledSkillMeta sample_env (fun _ => None) "notes" w).1 = Returned None.
Proof. vm_compute. repeat split; reflexivity. Qed.

(** Two skills are installed and a third directory is placed by hand
    without a record: the listing is the two installed names. *)
Lemma listInstalledSkills_lists_tracked_witness :
  two_installed_fs = Some two_installed_root /\
  exists names w',
    listInstalledSkills
      (start (Some (<[ "gamma" := EDir manual_children ]> two_installed_root))) =
      (Returned names, w') /\
    names ≡ₚ ["alpha"; "beta"].
Proof.
  split; [vm_compute; reflexivity|].
  destruct (listInstalledSkills_lists_tracked
              (start (Some (<[ "gamma" := EDir manual_children ]> two_installed_root))))
    as (names & w' & Hrun & _ & _ & _ & _ & Hscenario).
  exists names, w'. split; [assumption|].
  apply (Hscenario two_installed_root "alpha" "beta" "gamma" manual_children).
  - reflexivity.
  - vm_compute. reflexivity.
  - vm_compute. reflexivity.
  - discriminate.
  - apply two_installed_root_tracked.
Defined.

(** Uninstalling one of two installed skills removes its directory and
    leaves the other. *)
Lemma uninstallSkill_removes_tracked_only_witness :
  uninstallSkill sample_env "alpha" (start (Some two_installed_root)) =
  (Returned true,
   record_op (EvRm (PDir "alpha")) (Some (delete "alpha" two_installed_root))
     (record_op (EvAccess (PFile "alpha" VIBECLAW_JSON)) (Some two_installed_root)
        (start (Some two_installed_root)))).
Proof.
  destruct (proj2 (proj2 (uninstallSkill_removes_tracked_only sample_env "alpha"
                            (start (Some two_installed_root))))
              "alpha" eq_refl (proj2 (two_installed_root_tracked "alpha") (or_introl eq_refl)))
    as (root & Hroot & Hrun & _).
  injection Hroot as <-. exact Hrun.
Defined.

(** ** More on the sanitizer and the paths *)

Section SanitizerMore.

Context (env : Env).

Lemma strip_idempotent name : strip (strip name) = strip name.
Proof.
  induction name as [|c name IH]; [done|]. simpl.
  destruct (allowed_char c) eqn:Hc; [|done]. simpl. by rewrite Hc, IH.
Qed.

Lemma strip_clean name :
  Forall (fun c => allowed_char c = true) (list_ascii_of_string name) ->
  strip name = name.
Proof.
  induction name as [|c name IH]; [done|]. simpl. intros H.
  inversion H as [|? ? Hc Hrest]; subst. by rewrite Hc, IH.
Qed.

Lemma sanitize_is_strip name safe :
  sanitizeSkillName env name = Some safe -> safe = strip name.
Proof.
  unfold sanitizeSkillName. cbv zeta.
  destruct (_ || _ || _); [done|]. destruct (negb _); [done|]. congruence.
Qed.

(** X1. The sanitizer returns an accepted name unchanged when it is given
    again, and a name of allowed characters only is either rejected or
    returned as it is. *)
Theorem sanitizeSkillName_fixed_point (name safe : string) :
  sanitizeSkillName env name = Some safe ->
  sanitizeSkillName env safe = Some safe /\
  (Forall (fun c => allowed_char c = true) (list_ascii_of_string name) -> safe = name).
Proof.
  intros Hsafe. pose proof (sanitize_is_strip _ _ Hsafe) as ->. split.
  - revert Hsafe. unfold sanitizeSkillName. cbv zeta. by rewrite strip_idempotent.
  - intros Hclean. by apply strip_clean.
Qed.

Lemma not_absolute_prefix root p :
  root <> "" -> Path.isAbsolute root = false ->
  String.prefix (root +:+ Path.sep) ("/" +:+ p) = false.
Proof.
  intros Hne Hrel. destruct (String.prefix _ _) eqn:E; [|done].
  apply prefix_app in E as [rest E].
  destruct root as [|c root]; [done|]. simpl in E. injection E as <- _.
  by destruct root.
Qed.

Lemma no_slash_not_absolute s : has_slash s = false -> Path.isAbsolute s = false.
Proof.
  intros H. destruct (Path.isAbsolute s) eqn:E; [|done].
  unfold Path.isAbsolute in E. apply prefix_app in E as [rest ->]. done.
Qed.

Lemma stripped_not_absolute name : Path.isAbsolute (strip name) = false.
Proof. apply no_slash_not_absolute, strip_no_slash. Qed.

(** X2. With a relative installation root, in a process whose working
    directory is absolute as it always is, the sanitizer rejects every
    name: the resolved path is absolute and the root it is compared with
    is not. So every install fails as an invalid name and nothing can be
    uninstalled. *)
Theorem sanitizeSkillName_relative_root_rejects_all (name : string) :
  Path.isAbsolute (cwd env) = true ->
  Path.isAbsolute (SKILLS_DIR env) = false ->
  sanitizeSkillName env name = None /\
  (forall owner repo opts w,
     installSkillFromGitHub env owner repo name opts w =
       (Returned (invalid_name_result name), w)) /\
  (forall w, uninstallSkill env name w = (Returned false, w)).
Proof.
  intros Hcwd Hroot.
  assert (Hnone : sanitizeSkillName env name = None).
  { unfold sanitizeSkillName. cbv zeta.
    destruct (negb (truthy (strip name))) eqn:Ht; [done|].
    destruct (_ || _); [done|]. simpl.
    assert (Hres : exists p,
      Path.resolve (cwd env) [SKILLS_DIR env; strip name] = "/" +:+ p).
    { unfold Path.resolve. cbn [rev app Path.resolve_go].
      destruct (String.eqb_spec (strip name) "") as [E|_].
      { rewrite E in Ht. done. }
      rewrite stripped_not_absolute.
      destruct (String.eqb_spec (SKILLS_DIR env) "") as [E|_].
      { by apply SKILLS_DIR_nonempty in E. }
      rewrite Hroot.
      destruct (String.eqb_spec (cwd env) "") as [E|_].
      { rewrite E in Hcwd. done. }
      rewrite Hcwd. eauto. }
    destruct Hres as [p ->]. unfold startsWith.
    by rewrite not_absolute_prefix by (auto using SKILLS_DIR_nonempty). }
  split; [done|]. split.
  - intros owner repo opts w. unfold installSkillFromGitHub. by rewrite Hnone.
  - intros w. unfold uninstallSkill. by rewrite Hnone.
Qed.

End SanitizerMore.

Lemma sanitizeSkillName_relative_root_rejects_all_witness :
  sanitizeSkillName relative_env "weather" = None.
Proof.
  apply (sanitizeSkillName_relative_root_rejects_all relative_env "weather");
    reflexivity.
Defined.

Lemma sanitizeSkillName_fixed_point_witness :
  sanitizeSkillName sample_env "myskill" = Some "myskill".
Proof.
  apply (sanitizeSkillName_fixed_point sample_env "my skill" "myskill").
  reflexivity.
Defined.

(** ** Normal forms of paths *)

Section PathNormalForms.

Lemma append_nil_r_string (a : string) : a +:+ "" = a.
Proof. induction a as [|x a IH]; simpl; [done | by f_equal]. Qed.

Lemma split_slash_nonempty s : exists h t, Path.split_slash s = h :: t.
Proof.
  destruct s as [|c s]; simpl; [eauto|].
  destruct (Ascii.eqb c Path.slash); [eauto|].
  destruct (Path.split_slash s); eauto.
Qed.

Lemma split_slash_app a b :
  Path.split_slash (a +:+ "/" +:+ b) = (Path.split_slash a ++ Path.split_slash b)%list.
Proof.
  induction a as [|c a IH]; [done|].
  change (String c a +:+ "/" +:+ b) with (String c (a +:+ "/" +:+ b)).
  cbn [Path.split_slash]. rewrite IH.
  destruct (Ascii.eqb c Path.slash); [done|].
  by destruct (split_slash_nonempty a) as (h & t & ->).
Qed.

Lemma split_slash_no_slash s : has_slash s = false -> Path.split_slash s = [s].
Proof.
  induction s as [|c s IH]; [done|]. cbn [has_slash Path.split_slash].
  intros [Hc Hs]%orb_false_iff. by rewrite Hc, IH.
Qed.

Lemma join_snoc segs seg :
  segs <> [] -> join "/" (segs ++ [seg]) = join "/" segs +:+ "/" +:+ seg.
Proof.
  induction segs as [|x [|y rest] IH]; [done | done |]. intros _.
  change (join "/" ((x :: y :: rest) ++ [seg]))
    with (x +:+ "/" +:+ join "/" ((y :: rest) ++ [seg])).
  rewrite IH by done.
  change (join "/" (x :: y :: rest)) with (x +:+ "/" +:+ join "/" (y :: rest)).
  by rewrite !append_assoc.
Qed.

Lemma split_slash_join segs :
  segs <> [] -> Forall (fun seg => has_slash seg = false) segs ->
  Path.split_slash (join "/" segs) = segs.
Proof.
  induction segs as [|x [|y rest] IH]; [done | |]; intros _ Hall.
  - inversion Hall; subst. by apply split_slash_no_slash.
  - inversion Hall as [|? ? Hx Hrest]; subst.
    change (join "/" (x :: y :: rest)) with (x +:+ "/" +:+ join "/" (y :: rest)).
    by rewrite split_slash_app, IH, split_slash_no_slash.
Qed.

Lemma normalize_go_app allow l1 l2 acc :
  Path.normalize_go allow (l1 ++ l2) acc =
  Path.normalize_go allow l2 (rev (Path.normalize_go allow l1 acc)).
Proof.
  revert acc. induction l1 as [|seg rest IH]; intros acc.
  - simpl. by rewrite rev_involutive.
  - change ((seg :: rest) ++ l2)%list with (seg :: (rest ++ l2))%list.
    cbn [Path.normalize_go].
    destruct (_ || _); [apply IH|].
    destruct (String.eqb seg ".."); [|apply IH].
    destruct acc as [|top acc']; [apply IH|].
    destruct (String.eqb top ".."); apply IH.
Qed.

Lemma normalize_go_plain allow l acc :
  Forall plain_segment l -> Path.normalize_go allow l acc = (rev acc ++ l)%list.
Proof.
  revert acc. induction l as [|seg rest IH]; intros acc Hall.
  - simpl. by rewrite app_nil_r.
  - inversion Hall as [|? ? ([Hne _] & Hdot & Hdots) Hrest]; subst.
    cbn [Path.normalize_go].
    destruct (String.eqb_spec seg ""); [done|].
    destruct (String.eqb_spec seg "."); [done|].
    destruct (String.eqb_spec seg ".."); [done|]. simpl.
    rewrite IH by done. simpl. by rewrite <- app_assoc.
Qed.

Lemma normalize_go_absolute segs acc :
  Forall (fun seg => has_slash seg = false) segs ->
  Forall plain_segment acc ->
  Forall plain_segment (Path.normalize_go false segs acc).
Proof.
  revert acc. induction segs as [|seg rest IH]; intros acc Hsegs Hacc.
  - simpl. by apply Forall_rev.
  - inversion Hsegs as [|? ? Hseg Hrest]; subst. cbn [Path.normalize_go].
    destruct (String.eqb_spec seg "") as [->|Hne]; [by apply IH|].
    destruct (String.eqb_spec seg ".") as [->|Hdot]; [by apply IH|]. simpl.
    destruct (String.eqb_spec seg "..") as [->|Hdots].
    + destruct acc as [|top acc']; [by apply IH|].
      inversion Hacc; subst.
      destruct (String.eqb top ".."); apply IH; auto.
    + apply IH; [done|]. constructor; [|done]. repeat split; done.
Qed.

Lemma plain_is_proper segs : Forall plain_segment segs -> Forall proper_segment segs.
Proof. intros H. eapply Forall_impl; [exact H|]. by intros seg [? _]. Qed.

Lemma plain_no_slash segs :
  Forall plain_segment segs -> Forall (fun seg => has_slash seg = false) segs.
Proof. intros H. eapply Forall_impl; [exact H|]. by intros seg [[_ ?] _]. Qed.

Lemma join_not_absolute segs :
  Forall proper_segment segs -> Path.isAbsolute (join "/" segs) = false.
Proof.
  intros Hall. destruct (Path.isAbsolute _) eqn:E; [|done].
  unfold Path.isAbsolute in E. apply prefix_app in E as [rest E].
  destruct Hall as [|seg segs [Hne Hns] _]; [done|].
  assert (Hhead : exists tail, join "/" (seg :: segs) = seg +:+ tail).
  { destruct segs; [exists ""; by rewrite append_nil_r_string | eauto]. }
  destruct Hhead as [tail Ht]. rewrite Ht in E.
  destruct seg as [|c seg]; [done|]. simpl in E. injection E as -> _. done.
Qed.

End PathNormalForms.

Section RootForm.

Lemma normalizeString_skills a allow :
  exists segs,
    Path.normalizeString (a +:+ "/" +:+ "skills") allow = join "/" (segs ++ ["skills"]) /\
    Forall proper_segment segs /\
    (allow = false -> Forall plain_segment segs).
Proof.
  unfold Path.normalizeString. rewrite split_slash_app, normalize_go_app.
  set (segs := Path.normalize_go allow (Path.split_slash a) []).
  exists segs. split; [|split].
  - change (Path.split_slash "skills") with ["skills"].
    cbn. by rewrite rev_involutive.
  - apply normalize_go_segments; [apply split_slash_segments | constructor].
  - intros ->. apply normalize_go_absolute; [apply split_slash_segments | constructor].
Qed.

(** An absolute installation root is a separator followed by plain
    segments, one at least, joined by separators. *)
Lemma join_skills_form C :
  Path.isAbsolute (Path.join [C; "skills"]) = true ->
  exists segs, segs <> [] /\ Forall plain_segment segs /\
               Path.join [C; "skills"] = "/" +:+ join "/" segs.
Proof.
  destruct C as [|c C].
  { intros H. vm_compute in H. discriminate. }
  assert (Hj : Path.join [String c C; "skills"] =
               Path.normalize (String c C +:+ "/" +:+ "skills")) by reflexivity.
  rewrite Hj. unfold Path.normalize. cbv zeta.
  change (String.eqb (String c C +:+ "/" +:+ "skills") "") with false. cbv iota.
  assert (Hend : Path.endsWithSlash (String c C +:+ "/" +:+ "skills") = false).
  { by rewrite endsWithSlash_app. }
  rewrite Hend.
  destruct (normalizeString_skills (String c C)
              (negb (Path.isAbsolute (String c C +:+ "/" +:+ "skills"))))
    as (segs & -> & Hproper & Hplain).
  assert (Hall : Forall proper_segment (segs ++ ["skills"])).
  { apply Forall_app. split; [done|]. by repeat constructor. }
  destruct (join_proper_segments _ Hall) as [_ Hne].
  destruct (String.eqb_spec (join "/" (segs ++ ["skills"])) "") as [E|_].
  { exfalso. apply Hne; [by destruct segs | done]. }
  destruct (Path.isAbsolute (String c C +:+ "/" +:+ "skills")).
  - intros _. exists (segs ++ ["skills"])%list.
    split; [by destruct segs|]. split; [|done].
    apply Forall_app. split; [by apply Hplain|].
    constructor; [|constructor]. repeat split; done.
  - intros Habs. by rewrite join_not_absolute in Habs.
Qed.

(** Below such a root a plain segment resolves, and joins, to the root, a
    separator and the segment. *)
Lemma resolve_below_root cwd segs seg :
  segs <> [] -> Forall plain_segment segs -> plain_segment seg ->
  Path.resolve cwd ["/" +:+ join "/" segs; seg] = ("/" +:+ join "/" segs) +:+ "/" +:+ seg /\
  Path.join ["/" +:+ join "/" segs; seg] = ("/" +:+ join "/" segs) +:+ "/" +:+ seg.
Proof.
  intros Hne Hsegs Hseg.
  pose proof Hseg as ([Hseg_ne Hseg_ns] & _).
  assert (Hnorm : forall tail, tail = [] \/ tail = [""] ->
    Path.normalize_go false ("" :: segs ++ seg :: tail) [] = (segs ++ [seg])%list).
  { intros tail Htail.
    change (Path.normalize_go false ("" :: segs ++ seg :: tail) [])
      with (Path.normalize_go false (segs ++ seg :: tail) []).
    rewrite normalize_go_app, (normalize_go_plain false segs []) by done.
    change (rev [] ++ segs)%list with segs.
    destruct Htail as [-> | ->].
    - rewrite normalize_go_plain by (by constructor). by rewrite rev_involutive.
    - change [seg; ""] with ([seg] ++ [""])%list.
      rewrite normalize_go_app, (normalize_go_plain false [seg]) by (by constructor).
      change (Path.normalize_go false [""] ?acc) with (rev acc).
      by rewrite !rev_involutive. }
  assert (Hjoin : join "/" (segs ++ [seg]) = join "/" segs +:+ "/" +:+ seg)
    by (by apply join_snoc).
  assert (Hsplit : Path.split_slash ("" +:+ "/" +:+ join "/" segs) = "" :: segs).
  { rewrite split_slash_app, split_slash_join; [done | done | by apply plain_no_slash]. }
  split.
  - unfold Path.resolve. cbn [rev app Path.resolve_go].
    destruct (String.eqb_spec seg "") as [|_]; [done|].
    rewrite (no_slash_not_absolute seg) by done.
    change (String.eqb ("/" +:+ join "/" segs) "") with false. cbv iota.
    change (Path.isAbsolute ("/" +:+ join "/" segs)) with (String.prefix "/" (String "/" (join "/" segs))).
    assert (Hpre : String.prefix "/" (String "/" (join "/" segs)) = true).
    { apply prefix_app. by exists (join "/" segs). }
    rewrite Hpre. cbv iota beta. unfold Path.normalizeString.
    replace (("/" +:+ join "/" segs) +:+ "/" +:+ seg +:+ "/" +:+ "")
      with (("" +:+ "/" +:+ join "/" segs) +:+ "/" +:+ (seg +:+ "/" +:+ "")) by done.
    rewrite split_slash_app, Hsplit, split_slash_app, (split_slash_no_slash seg) by done.
    change (Path.split_slash "") with [""].
    change (("" :: segs) ++ [seg] ++ [""])%list with ("" :: segs ++ seg :: [""])%list.
    rewrite Hnorm by auto. rewrite Hjoin. by rewrite !append_assoc.
  - assert (Hj : Path.join ["/" +:+ join "/" segs; seg] =
                 Path.normalize (("/" +:+ join "/" segs) +:+ "/" +:+ seg)).
    { destruct seg; [done | reflexivity]. }
    rewrite Hj. unfold Path.normalize. cbv zeta.
    change (String.eqb (("/" +:+ join "/" segs) +:+ "/" +:+ seg) "") with false. cbv iota.
    assert (Habs : Path.isAbsolute (("/" +:+ join "/" segs) +:+ "/" +:+ seg) = true).
    { apply prefix_app. exists (join "/" segs +:+ "/" +:+ seg). done. }
    assert (Hend : Path.endsWithSlash (("/" +:+ join "/" segs) +:+ "/" +:+ seg) = false).
    { rewrite endsWithSlash_app by (by destruct seg).
      rewrite endsWithSlash_app by done.
      destruct (Path.endsWithSlash seg) eqn:E; [|done].
      apply endsWithSlash_has_slash in E. congruence. }
    rewrite Habs, Hend. simpl negb. unfold Path.normalizeString.
    replace (("/" +:+ join "/" segs) +:+ "/" +:+ seg)
      with (("" +:+ "/" +:+ join "/" segs) +:+ "/" +:+ seg) by done.
    rewrite split_slash_app, Hsplit, (split_slash_no_slash seg) by done.
    change (("" :: segs) ++ [seg])%list with ("" :: segs ++ seg :: [])%list.
    rewrite Hnorm by auto. rewrite Hjoin.
    destruct (String.eqb_spec (join "/" segs +:+ "/" +:+ seg) "") as [E|_].
    { destruct (join "/" segs); simpl in E; discriminate. }
    by rewrite !append_assoc.
Qed.

End RootForm.

Section SanitizerAbsoluteRoot.

Context (env : Env).

Lemma no_leading_dot_plain s :
  s <> "" -> has_slash s = false -> startsWith s "." = false -> plain_segment s.
Proof.
  intros Hne Hns Hdot. split; [by split|]. split; intros ->; done.
Qed.

(** X3. With an absolute installation root the test on the resolved path
    never rejects: a name is accepted exactly when what is left after
    stripping is not empty, holds no [..] and does not start with a dot;
    and the directory of an accepted name is the root, a separator and
    the name. *)
Theorem sanitizeSkillName_absolute_root (name : string) :
  Path.isAbsolute (SKILLS_DIR env) = true ->
  (sanitizeSkillName env name = None <->
     strip name = "" \/ includes (strip name) ".." = true \/
     startsWith (strip name) "." = true) /\
  (forall safe,
     sanitizeSkillName env name = Some safe ->
     Path.join [SKILLS_DIR env; safe] = SKILLS_DIR env +:+ "/" +:+ safe /\
     Path.resolve (cwd env) [SKILLS_DIR env; safe] = SKILLS_DIR env +:+ "/" +:+ safe).
Proof.
  intros Habs.
  destruct (join_skills_form (CONFIG_DIR env) Habs) as (segs & Hne & Hsegs & Hroot).
  fold (SKILLS_DIR env) in Hroot.
  assert (Hbelow : forall seg, plain_segment seg ->
    Path.resolve (cwd env) [SKILLS_DIR env; seg] = SKILLS_DIR env +:+ "/" +:+ seg /\
    Path.join [SKILLS_DIR env; seg] = SKILLS_DIR env +:+ "/" +:+ seg).
  { intros seg Hseg. rewrite Hroot. by apply resolve_below_root. }
  split.
  - unfold sanitizeSkillName. cbv zeta.
    destruct (truthy (strip name)) eqn:Ht; simpl.
    2:{ apply truthy_false in Ht. split; auto. }
    destruct (includes (strip name) "..") eqn:Hi; simpl; [split; auto|].
    destruct (startsWith (strip name) ".") eqn:Hd; simpl; [split; auto|].
    assert (Hplain : plain_segment (strip name)).
    { apply no_leading_dot_plain; [|apply strip_no_slash | done].
      intros E. rewrite E in Ht. done. }
    destruct (Hbelow _ Hplain) as [-> _].
    assert (Hpre : startsWith (SKILLS_DIR env +:+ "/" +:+ strip name)
                     (SKILLS_DIR env +:+ Path.sep) = true).
    { apply prefix_app. exists (strip name). by rewrite append_assoc. }
    rewrite Hpre. simpl. split; [done|].
    intros [E|[E|E]]; [|done..]. rewrite E in Ht. done.
  - intros safe Hsafe.
    destruct (sanitized_is_segment env _ _ Hsafe) as [[Hne' Hns] Hdot].
    destruct (Hbelow safe (no_leading_dot_plain _ Hne' Hns Hdot)) as [Hres Hjoin].
    by split.
Qed.

End SanitizerAbsoluteRoot.

(** ** The sanitizer and the specification under an absolute root *)

Section SanitizerAsSpecified.

Context (env : Env).

Lemma components_plain segs :
  Forall plain_segment segs -> List.filter truthy segs = segs.
Proof.
  induction 1 as [|seg segs ([Hne _] & _) _ IH]; [done|].
  cbn [List.filter]. destruct seg; [done|]. simpl. by rewrite IH.
Qed.

Lemma resolve_root cwd segs :
  segs <> [] -> Forall plain_segment segs ->
  Path.resolve cwd ["/" +:+ join "/" segs] = "/" +:+ join "/" segs.
Proof.
  intros Hne Hsegs.
  unfold Path.resolve. cbn [rev app Path.resolve_go].
  change (String.eqb ("/" +:+ join "/" segs) "") with false. cbv iota.
  change (Path.isAbsolute ("/" +:+ join "/" segs)) with (String.prefix "/" (String "/" (join "/" segs))).
  assert (Hpre : String.prefix "/" (String "/" (join "/" segs)) = true).
  { apply prefix_app. by exists (join "/" segs). }
  rewrite Hpre. cbv iota beta. unfold Path.normalizeString. simpl negb.
  replace (("/" +:+ join "/" segs) +:+ "/" +:+ "")
    with ("" +:+ "/" +:+ (join "/" segs +:+ "/" +:+ "")) by (by rewrite !append_assoc).
  rewrite !split_slash_app, split_slash_join; [|done | by apply plain_no_slash].
  change (Path.split_slash "") with [""].
  change ([""] ++ segs ++ [""])%list with ("" :: segs ++ [""])%list.
  change (Path.normalize_go false ("" :: segs ++ [""]) [])
    with (Path.normalize_go false (segs ++ [""]) []).
  rewrite normalize_go_app, (normalize_go_plain false segs []) by done.
  change (rev [] ++ segs)%list with segs.
  change (Path.normalize_go false [""] ?acc) with (rev acc).
  by rewrite rev_involutive.
Qed.

Lemma components_root segs :
  segs <> [] -> Forall plain_segment segs ->
  components ("/" +:+ join "/" segs) = segs.
Proof.
  intros Hne Hsegs. unfold components.
  change ("/" +:+ join "/" segs) with ("" +:+ "/" +:+ join "/" segs).
  rewrite split_slash_app, split_slash_join; [|done | by apply plain_no_slash].
  change (Path.split_slash "") with [""]. cbn [app List.filter truthy].
  by apply components_plain.
Qed.

Lemma components_below segs seg :
  segs <> [] -> Forall plain_segment segs -> plain_segment seg ->
  components (("/" +:+ join "/" segs) +:+ "/" +:+ seg) = (segs ++ [seg])%list.
Proof.
  intros Hne Hsegs Hseg. pose proof Hseg as ([_ Hns] & _).
  unfold components. rewrite split_slash_app, (split_slash_no_slash seg) by done.
  fold (components ("/" +:+ join "/" segs)).
  unfold components. rewrite List.filter_app. fold (components ("/" +:+ join "/" segs)).
  rewrite components_root by done.
  by rewrite (components_plain [seg]) by (by constructor).
Qed.

(** With an absolute installation root the sanitizer rejects exactly
    under the four conditions of the specification. *)
Lemma sanitizeSkillName_absolute_root_as_specified name :
  Path.isAbsolute (SKILLS_DIR env) = true ->
  sanitizeSkillName env name = None <-> spec_rejects env name = true.
Proof.
  intros Habs.
  destruct (join_skills_form (CONFIG_DIR env) Habs) as (segs & Hne & Hsegs & Hroot).
  fold (SKILLS_DIR env) in Hroot.
  unfold sanitizeSkillName, spec_rejects. cbv zeta.
  destruct (truthy (strip name)) eqn:Ht; simpl.
  2:{ split; intros; reflexivity. }
  destruct (includes (strip name) "..") eqn:Hi; simpl.
  { split; intros; reflexivity. }
  destruct (startsWith (strip name) ".") eqn:Hd; simpl.
  { split; intros; reflexivity. }
  assert (Hplain : plain_segment (strip name)).
  { apply no_leading_dot_plain; [|apply strip_no_slash | done].
    intros E. rewrite E in Ht. done. }
  unfold resolved_root, resolved_candidate. rewrite Hroot.
  destruct (resolve_below_root (cwd env) segs (strip name) Hne Hsegs Hplain) as [-> _].
  rewrite resolve_root by done.
  assert (Hpre : startsWith (("/" +:+ join "/" segs) +:+ "/" +:+ strip name)
                   (("/" +:+ join "/" segs) +:+ Path.sep) = true).
  { apply prefix_app. exists (strip name). unfold Path.sep. by rewrite !append_assoc. }
  rewrite Hpre. cbn [negb].
  unfold spec_strict_descendant. cbv zeta.
  rewrite components_root, components_below by done.
  rewrite length_app, take_app_length. cbn [length].
  replace (length segs <? length segs + 1)%nat with true
    by (symmetry; apply Nat.ltb_lt; lia).
  rewrite bool_decide_eq_true_2 by done. split; intros; discriminate.
Qed.

End SanitizerAsSpecified.


Lemma sanitizeSkillName_absolute_root_witness :
  Path.join [SKILLS_DIR sample_env; "myskill"] =
  SKILLS_DIR sample_env +:+ "/" +:+ "myskill".
Proof.
  apply (proj2 (sanitizeSkillName_absolute_root sample_env "my skill" eq_refl)
           "myskill" eq_refl).
Defined.

(** ** More on the file system *)

Section FileSystemMore.

Lemma exists_path_files f d name :
  exists_path f (PFile d name) = true <-> is_Some (files_of f d !! name).
Proof.
  unfold exists_path, files_of. destruct (lookup_dir f d) as [children|].
  - destruct (children !! name); split; intros H; try done;
      try (by eexists); by destruct H.
  - rewrite lookup_empty. split; [done | by intros [? ?]].
Qed.

Lemma mkdir_fs_frame f d d' :
  d' <> d -> root_of (mkdir_fs f d).1 !! d' = root_of f !! d'.
Proof.
  intros Hne. unfold mkdir_fs. destruct f as [root|]; simpl.
  - destruct (root !! d) as [[|children]|]; simpl; [done..|].
    by rewrite lookup_insert_ne.
  - by rewrite lookup_singleton_ne.
Qed.

Lemma mkdir_fs_files f d : files_of (mkdir_fs f d).1 d = files_of f d.
Proof.
  unfold mkdir_fs, files_of, lookup_dir. destruct f as [root|]; simpl.
  - destruct (root !! d) as [[|children]|] eqn:E; simpl; rewrite ?E; [done..|].
    by rewrite lookup_insert_eq.
  - by rewrite lookup_singleton_eq.
Qed.

Lemma mkdir_fs_returned f d :
  (mkdir_fs f d).2 = Returned tt -> is_Some (lookup_dir (mkdir_fs f d).1 d).
Proof.
  unfold mkdir_fs, lookup_dir. destruct f as [root|]; simpl.
  - destruct (root !! d) as [[|children]|] eqn:E; simpl; rewrite ?E; try done.
    intros _. rewrite lookup_insert_eq. by eexists.
  - intros _. rewrite lookup_singleton_eq. by eexists.
Qed.

Lemma writeFile_fs_frame f d name data d' :
  d' <> d -> root_of (writeFile_fs f d name data).1 !! d' = root_of f !! d'.
Proof.
  intros Hne. unfold writeFile_fs. destruct f as [root|]; [|done].
  destruct (lookup_dir (Some root) d) as [children|]; [|done].
  destruct (children !! name) as [[|]|]; simpl; try done; by rewrite lookup_insert_ne.
Qed.

Lemma writeFile_fs_files f d name data :
  (writeFile_fs f d name data).2 = Returned tt ->
  files_of (writeFile_fs f d name data).1 d = <[ name := IFile data ]> (files_of f d).
Proof.
  unfold writeFile_fs, files_of. destruct f as [root|]; [|done].
  destruct (lookup_dir (Some root) d) as [children|] eqn:E; [|done].
  destruct (children !! name) as [[|]|]; cbn [fst snd]; try done;
    unfold lookup_dir; by rewrite lookup_insert_eq.
Qed.

(** A write succeeds exactly when the directory is there and the name is
    not taken by a directory. *)
Lemma writeFile_fs_returned f d name data :
  (writeFile_fs f d name data).2 = Returned tt <->
  is_Some (lookup_dir f d) /\ files_of f d !! name <> Some ISubdir.
Proof.
  unfold writeFile_fs, files_of. destruct f as [root|].
  2:{ simpl. split; [done | by intros [[? ?] _]]. }
  destruct (lookup_dir (Some root) d) as [children|] eqn:E.
  2:{ split; [done | by intros [[? ?] _]]. }
  destruct (children !! name) as [[|]|]; simpl; split; try done; eauto.
  by intros [_ ?].
Qed.

Lemma exists_path_root f d name :
  exists_path f (PFile d name) =
  match root_of f !! d with
  | Some (EDir children) =>
      match children !! name with Some _ => true | None => false end
  | _ => false
  end.
Proof.
  unfold exists_path, lookup_dir, root_of. destruct f as [root|]; [|done].
  by destruct (root !! d) as [[|children]|].
Qed.

Lemma exists_path_frame f f' d name :
  root_of f' !! d = root_of f !! d ->
  exists_path f' (PFile d name) = exists_path f (PFile d name).
Proof. intros H. by rewrite !exists_path_root, H. Qed.

End FileSystemMore.

(** ** More on the installer *)

Section InstallerMore.

Context (env : Env).

(** Every run of the installer on an accepted name is one of the runs of
    [InstallRun]. *)
Lemma install_inv owner repo skillName opts w safe o w' :
  sanitizeSkillName env skillName = Some safe ->
  installSkillFromGitHub env owner repo skillName opts w = (o, w') ->
  InstallRun env owner repo skillName safe opts w o w'.
Proof.
  intros Hsafe Hrun.
  destruct (stops_at_check safe opts w) eqn:Hstop.
  { rewrite (install_already _ _ _ _ _ _ _ Hsafe Hstop) in Hrun.
    injection Hrun as <- <-. by constructor. }
  rewrite (install_probes _ _ _ _ _ _ _ Hsafe Hstop) in Hrun. cbv zeta in Hrun.
  destruct (first_hit env _) as [[content url]|] eqn:Hhit.
  2:{ injection Hrun as <- <-. by constructor. }
  eapply RunDownloaded; [done | exact Hhit |].
  set (w2 := after_fetches _ _) in *.
  change (fs w) with (fs w2) in Hrun.
  set (meta := MetaJson (install_record env owner repo url skillName)) in *.
  destruct (mkdir_fs (fs w2) safe) as [f1 o1] eqn:Em. cbn [fst snd] in Hrun.
  set (w3 := record_op (EvMkdir (PDir safe)) f1 w2) in *.
  assert (Hm : fs_mkdir safe w2 = (o1, w3)) by (by rewrite fs_mkdir_run, Em).
  destruct o1 as [[]|].
  2:{ injection Hrun as <- <-. by apply MkdirThrew. }
  destruct (writeFile_fs f1 safe SKILL_MD (Text content)) as [f2 o2] eqn:Ec.
  cbn [fst snd] in Hrun.
  set (w4 := record_op (EvWriteFile (PFile safe SKILL_MD) (Text content)) f2 w3) in *.
  assert (Hc : fs_writeFile safe SKILL_MD (Text content) w3 = (o2, w4)).
  { rewrite fs_writeFile_run. cbn [fs w3 record_op]. by rewrite Ec. }
  destruct o2 as [[]|].
  2:{ injection Hrun as <- <-. by eapply ContentThrew. }
  destruct (writeFile_fs f2 safe VIBECLAW_JSON meta) as [f3 o3] eqn:Ej.
  cbn [fst snd] in Hrun.
  set (w5 := record_op (EvWriteFile (PFile safe VIBECLAW_JSON) meta) f3 w4) in *.
  assert (Hj : fs_writeFile safe VIBECLAW_JSON meta w4 = (o3, w5)).
  { rewrite fs_writeFile_run. cbn [fs w4 record_op]. by rewrite Ej. }
  destruct o3 as [[]|]; injection Hrun as <- <-.
  - by eapply Written.
  - by eapply RecordThrew.
Qed.

Lemma fs_mkdir_inv d w o w1 :
  fs_mkdir d w = (o, w1) ->
  log w1 = (log w ++ [(EvMkdir (PDir d), fs w1)])%list /\
  files_of (fs w1) d = files_of (fs w) d /\
  (forall d', d' <> d -> root_of (fs w1) !! d' = root_of (fs w) !! d') /\
  (o = Returned tt -> is_Some (lookup_dir (fs w1) d)) /\
  (o = Threw -> fs w1 = fs w).
Proof.
  rewrite fs_mkdir_run. intros [= <- <-]. cbn [fs log record_op].
  split; [done|]. split; [apply mkdir_fs_files|].
  split; [intros d' Hd; by apply mkdir_fs_frame|].
  split; [apply mkdir_fs_returned|].
  unfold mkdir_fs. destruct (fs w) as [root|]; [|done].
  by destruct (root !! d) as [[|children]|].
Qed.

Lemma fs_writeFile_inv d name data w o w1 :
  fs_writeFile d name data w = (o, w1) ->
  log w1 = (log w ++ [(EvWriteFile (PFile d name) data, fs w1)])%list /\
  (forall d', d' <> d -> root_of (fs w1) !! d' = root_of (fs w) !! d') /\
  (o = Returned tt ->
     is_Some (lookup_dir (fs w) d) /\ files_of (fs w) d !! name <> Some ISubdir /\
     is_Some (lookup_dir (fs w1) d) /\
     files_of (fs w1) d = <[ name := IFile data ]> (files_of (fs w) d)) /\
  (o = Threw ->
     fs w1 = fs w /\
     ~ (is_Some (lookup_dir (fs w) d) /\ files_of (fs w) d !! name <> Some ISubdir)).
Proof.
  rewrite fs_writeFile_run. intros [= <- <-]. cbn [fs log record_op].
  split; [done|]. split; [intros d' Hd; by apply writeFile_fs_frame|]. split.
  - intros Hok. pose proof Hok as [Hdir Hfree]%writeFile_fs_returned.
    split; [done|]. split; [done|]. split; [|by apply writeFile_fs_files].
    revert Hok. unfold writeFile_fs. destruct (fs w) as [root|]; [|done].
    destruct (lookup_dir (Some root) d) as [children|]; [|done].
    destruct (children !! name) as [[|]|]; cbn [fst snd]; try done;
      intros _; unfold lookup_dir; rewrite lookup_insert_eq; by eexists.
  - intros Hthrew. split; [by apply writeFile_fs_threw|].
    intros Hok. apply writeFile_fs_returned with (data := data) in Hok. congruence.
Qed.

Lemma requested_subset urls u : u ∈ requested env urls -> u ∈ urls.
Proof.
  induction urls as [|v rest IH]; simpl; [done|].
  destruct (candidate_hit env v).
  - intros ->%list_elem_of_singleton. by left.
  - intros [->|H]%elem_of_cons; [by left | right; auto].
Qed.

Lemma first_hit_is_hit urls content url :
  first_hit env urls = Some (content, url) ->
  url ∈ urls /\ candidate_hit env url = Some content.
Proof.
  induction urls as [|v rest IH]; simpl; [done|].
  destruct (candidate_hit env v) as [c|] eqn:Hv.
  - intros [= <- <-]. split; [by left | done].
  - intros [Hin Hhit]%IH. split; [by right | done].
Qed.

Lemma candidate_hit_validated url content :
  candidate_hit env url = Some content ->
  net env url = Response true (Some content) /\ looks_like_skill_md content = true.
Proof.
  unfold candidate_hit. destruct (net env url) as [|[] [c|]]; try done.
  destruct (looks_like_skill_md c) eqn:Hc; [|done]. by intros [= <-].
Qed.

End InstallerMore.

Section InstallerProperties.

Context (env : Env).

(** What the log of an install holds beyond the log it started with: the
    check for the skill file, requests to candidates, then operations on
    the directory of the skill; each leaves the other entries of the root
    as they were. *)
Lemma install_log owner repo skillName opts w safe o w' :
  sanitizeSkillName env skillName = Some safe ->
  installSkillFromGitHub env owner repo skillName opts w = (o, w') ->
  exists reqs writes,
    log w' = (log w ++ (EvAccess (PFile safe SKILL_MD), fs w) ::
                ((fun u => (EvFetch u, fs w)) <$> reqs) ++ writes)%list /\
    (forall u, u ∈ reqs -> u ∈ getSkillMdUrls owner repo skillName) /\
    Forall (fun ef : Event * FS =>
              (exists p, event_path ef.1 = Some p /\ within_skill safe p) /\
              (forall d, d <> safe -> root_of ef.2 !! d = root_of (fs w) !! d)) writes /\
    (forall d, d <> safe -> root_of (fs w') !! d = root_of (fs w) !! d).
Proof.
  intros Hsafe Hrun. apply (install_inv env _ _ _ _ _ _ _ _ Hsafe) in Hrun.
  destruct Hrun as [Hstop | Hstop Hhit | content url o w' Hstop Hhit Hwrites].
  - exists [], []. split; [done|]. split; [by intros u ?%elem_of_nil|]. by split.
  - exists (requested env (getSkillMdUrls owner repo skillName)), [].
    split; [|split; [apply requested_subset | by split]].
    cbn [log after_fetches after_check record_op fs].
    by rewrite app_nil_r, <- app_assoc.
  - set (w2 := after_fetches _ _) in Hwrites.
    assert (Hlog2 : log w2 = (log w ++ (EvAccess (PFile safe SKILL_MD), fs w) ::
              ((fun u => (EvFetch u, fs w)) <$>
                 requested env (getSkillMdUrls owner repo skillName)))%list).
    { subst w2. cbn [log after_fetches after_check record_op fs]. by rewrite <- app_assoc. }
    assert (Hfs2 : fs w2 = fs w) by done.
    assert (Hdir : exists p, Some (PDir safe) = Some p /\ within_skill safe p).
    { eexists. split; [done | by left]. }
    assert (Hfile : forall name, exists p, Some (PFile safe name) = Some p /\ within_skill safe p).
    { intros name. eexists. split; [done | right; by eexists]. }
    exists (requested env (getSkillMdUrls owner repo skillName)).
    destruct Hwrites as [w3 Hm | w3 w4 Hm Hc | w3 w4 w5 Hm Hc Hj | w3 w4 w5 Hm Hc Hj].
    all: apply fs_mkdir_inv in Hm as (Hl3 & _ & Hf3 & _).
    all: try apply fs_writeFile_inv in Hc as (Hl4 & Hf4 & _).
    all: try apply fs_writeFile_inv in Hj as (Hl5 & Hf5 & _).
    all: rewrite Hfs2 in Hf3.
    + exists [(EvMkdir (PDir safe), fs w3)].
      split; [by rewrite Hl3, Hlog2, <- !app_assoc|].
      split; [apply requested_subset|]. split; [|done].
      repeat (constructor; [split; [first [apply Hdir | apply Hfile] | done]|]).
      constructor.
    + assert (H4 : forall d, d <> safe -> root_of (fs w4) !! d = root_of (fs w) !! d).
      { intros d Hd. by rewrite Hf4, Hf3. }
      exists [(EvMkdir (PDir safe), fs w3);
              (EvWriteFile (PFile safe SKILL_MD) (Text content), fs w4)].
      split; [by rewrite Hl4, Hl3, Hlog2, <- !app_assoc|].
      split; [apply requested_subset|]. split; [|done].
      repeat (constructor; [split; [first [apply Hdir | apply Hfile] | done]|]).
      constructor.
    + assert (H4 : forall d, d <> safe -> root_of (fs w4) !! d = root_of (fs w) !! d).
      { intros d Hd. by rewrite Hf4, Hf3. }
      assert (H5 : forall d, d <> safe -> root_of (fs w5) !! d = root_of (fs w) !! d).
      { intros d Hd. by rewrite Hf5, H4. }
      exists [(EvMkdir (PDir safe), fs w3);
              (EvWriteFile (PFile safe SKILL_MD) (Text content), fs w4);
              (EvWriteFile (PFile safe VIBECLAW_JSON)
                 (MetaJson (install_record env owner repo url skillName)), fs w5)].
      split; [by rewrite Hl5, Hl4, Hl3, Hlog2, <- !app_assoc|].
      split; [apply requested_subset|]. split; [|done].
      repeat (constructor; [split; [first [apply Hdir | apply Hfile] | done]|]).
      constructor.
    + assert (H4 : forall d, d <> safe -> root_of (fs w4) !! d = root_of (fs w) !! d).
      { intros d Hd. by rewrite Hf4, Hf3. }
      assert (H5 : forall d, d <> safe -> root_of (fs w5) !! d = root_of (fs w) !! d).
      { intros d Hd. by rewrite Hf5, H4. }
      exists [(EvMkdir (PDir safe), fs w3);
              (EvWriteFile (PFile safe SKILL_MD) (Text content), fs w4);
              (EvWriteFile (PFile safe VIBECLAW_JSON)
                 (MetaJson (install_record env owner repo url skillName)), fs w5)].
      split; [by rewrite Hl5, Hl4, Hl3, Hlog2, <- !app_assoc|].
      split; [apply requested_subset|]. split; [|done].
      repeat (constructor; [split; [first [apply Hdir | apply Hfile] | done]|]).
      constructor.
Qed.

(** X4. An install works on the directory of the skill only: every file
    operation it performs is on that directory or on a file of it, and
    every other entry of the installation root is, after each operation
    and at the end, what it was at the start. *)
Theorem install_confined_to_skill_directory (owner repo skillName safe : string)
    (opts : option InstallOpts) (w : World) :
  sanitizeSkillName env skillName = Some safe ->
  let run := installSkillFromGitHub env owner repo skillName opts w in
  exists new,
    log run.2 = (log w ++ new)%list /\
    Forall (fun ef : Event * FS =>
              (forall p, event_path ef.1 = Some p -> within_skill safe p) /\
              (forall d, d <> safe -> root_of ef.2 !! d = root_of (fs w) !! d)) new /\
    (forall d, d <> safe -> root_of (fs run.2) !! d = root_of (fs w) !! d).
Proof.
  intros Hsafe run.
  destruct (install_log owner repo skillName opts w safe run.1 run.2 Hsafe)
    as (reqs & writes & Hlog & _ & Hwrites & Hframe).
  { subst run. by destruct (installSkillFromGitHub _ _ _ _ _ _). }
  eexists. split; [exact Hlog|]. split; [|done].
  constructor.
  { split; [|done]. intros p [= <-]. right. by eexists. }
  apply Forall_app. split.
  - apply Forall_fmap, Forall_forall. intros u _. by split.
  - eapply Forall_impl; [exact Hwrites|].
    intros [e f] [(p & Hp & Hin) Hf]. split; [|done].
    intros q Hq. cbn [fst] in *. congruence.
Qed.

Lemma candidate_urls_prefix owner repo skillName url :
  url ∈ getSkillMdUrls owner repo skillName ->
  startsWith url ("https://raw.githubusercontent.com/" +:+ owner +:+ "/" +:+ repo +:+ "/") = true.
Proof.
  unfold getSkillMdUrls. cbv zeta. intros Hin.
  repeat (apply elem_of_cons in Hin as [->|Hin];
          [apply prefix_app; eexists; rewrite !append_assoc; simpl;
           repeat f_equal; reflexivity|]).
  by apply elem_of_nil in Hin.
Qed.

(** X5. Whatever the name and the outcome, the only requests of an install
    are to candidates of [getSkillMdUrls], all of them below
    [raw.githubusercontent.com/<owner>/<repo>/]. *)
Theorem install_requests_only_candidates (owner repo skillName : string)
    (opts : option InstallOpts) (w : World) :
  let run := installSkillFromGitHub env owner repo skillName opts w in
  exists new,
    log run.2 = (log w ++ new)%list /\
    forall url f, (EvFetch url, f) ∈ new ->
      url ∈ getSkillMdUrls owner repo skillName /\
      startsWith url
        ("https://raw.githubusercontent.com/" +:+ owner +:+ "/" +:+ repo +:+ "/") = true.
Proof.
  intros run. destruct (sanitizeSkillName env skillName) as [safe|] eqn:Hsafe.
  2:{ exists []. split; [|by intros ? ? ?%elem_of_nil].
      subst run. unfold installSkillFromGitHub. rewrite Hsafe. by rewrite app_nil_r. }
  destruct (install_log owner repo skillName opts w safe run.1 run.2 Hsafe)
    as (reqs & writes & Hlog & Hreqs & Hwrites & _).
  { subst run. by destruct (installSkillFromGitHub _ _ _ _ _ _). }
  eexists. split; [exact Hlog|].
  intros url f Hin.
  assert (Hcand : url ∈ getSkillMdUrls owner repo skillName).
  { apply elem_of_cons in Hin as [[=]|Hin].
    apply elem_of_app in Hin as [Hin|Hin].
    - apply list_elem_of_fmap in Hin as (u & [= -> _] & Hu). by apply Hreqs.
    - rewrite Forall_forall in Hwrites.
      destruct (Hwrites _ Hin) as [(p & Hp & _) _]. done. }
  split; [done | by apply (candidate_urls_prefix owner repo skillName)].
Qed.

Lemma install_fresh_state owner repo skillName safe opts w w' r :
  sanitizeSkillName env skillName = Some safe ->
  installSkillFromGitHub env owner repo skillName opts w = (Returned r, w') ->
  InstallResult.success r = true ->
  InstallResult.alreadyInstalled r <> Some true ->
  exists content url,
    first_hit env (getSkillMdUrls owner repo skillName) = Some (content, url) /\
    r = fresh_install_result skillName (Path.join [SKILLS_DIR env; safe]) url /\
    files_of (fs w') safe =
      <[ VIBECLAW_JSON := IFile (MetaJson (install_record env owner repo url skillName)) ]>
        (<[ SKILL_MD := IFile (Text content) ]> (files_of (fs w) safe)).
Proof.
  intros Hsafe Hrun Hok Hfresh. apply (install_inv env _ _ _ _ _ _ _ _ Hsafe) in Hrun.
  inversion Hrun as [Hstop Ho | Hstop Hhit Ho | content url o w5 Hstop Hhit Hwrites Ho];
    subst; [done | done |].
  inversion Hwrites as [ | | | w3 w4 w5' Hm Hc Hj]; subst.
  apply fs_mkdir_inv in Hm as (_ & Hf3 & _).
  apply fs_writeFile_inv in Hc as (_ & _ & Hc & _).
  apply fs_writeFile_inv in Hj as (_ & _ & Hj & _).
  destruct (Hc eq_refl) as (_ & _ & _ & Hf4).
  destruct (Hj eq_refl) as (_ & _ & _ & Hf5).
  exists content, url. do 2 (split; [done|]).
  by rewrite Hf5, Hf4, Hf3.
Qed.

(** X6. A fresh success means that the body of the reported source URL, a
    candidate whose response was successful and passed the content test,
    is now the skill file, that the install record names this URL, the
    raw identifier, the repository and the time of the install, and that
    the other files of the directory are kept. This holds with [force]
    on an installed skill too: content and record are replaced. *)
Theorem install_fresh_files (owner repo skillName safe : string)
    (opts : option InstallOpts) (w w' : World) (r : InstallResult.t) :
  sanitizeSkillName env skillName = Some safe ->
  installSkillFromGitHub env owner repo skillName opts w = (Returned r, w') ->
  InstallResult.success r = true ->
  InstallResult.alreadyInstalled r <> Some true ->
  exists content url,
    InstallResult.sourceUrl r = Some url /\
    url ∈ getSkillMdUrls owner repo skillName /\
    net env url = Response true (Some content) /\
    looks_like_skill_md content = true /\
    files_of (fs w') safe =
      <[ VIBECLAW_JSON :=
           IFile (MetaJson {| Meta.installedBy := "vibeclaw";
                              Meta.installedAt := now env;
                              Meta.source := "github:" +:+ owner +:+ "/" +:+ repo;
                              Meta.sourceUrl := url;
                              Meta.skillName := skillName |}) ]>
        (<[ SKILL_MD := IFile (Text content) ]> (files_of (fs w) safe)).
Proof.
  intros Hsafe Hrun Hok Hfresh.
  destruct (install_fresh_state _ _ _ _ _ _ _ _ Hsafe Hrun Hok Hfresh)
    as (content & url & Hhit & -> & Hfiles).
  apply first_hit_is_hit in Hhit as [Hin Hcand].
  apply candidate_hit_validated in Hcand as [Hnet Hvalid].
  exists content, url. by do 4 (split; [done|]).
Qed.

Lemma exists_path_files_eq f d name :
  exists_path f (PFile d name) =
  match files_of f d !! name with Some _ => true | None => false end.
Proof.
  unfold exists_path, files_of. destruct (lookup_dir f d); [done|].
  by rewrite lookup_empty.
Qed.

Lemma fs_mkdir_outcome d w o w1 :
  fs_mkdir d w = (o, w1) ->
  (o = Threw <-> root_of (fs w) !! d = Some EFile).
Proof.
  rewrite fs_mkdir_run. intros [= <- _]. unfold mkdir_fs, root_of.
  destruct (fs w) as [root|]; simpl.
  - destruct (root !! d) as [[|children]|]; simpl; split; done.
  - rewrite lookup_empty. split; done.
Qed.

Lemma lookup_dir_files f d : is_Some (lookup_dir f d) -> lookup_dir f d = Some (files_of f d).
Proof. unfold files_of. by intros [children ->]. Qed.

(** X7. With a download in hand, the installer raises an exception, which
    it does not catch, when something is in the way. When a file has the
    name of the skill directory, or a directory has the name of the skill
    file, the exception is that of [mkdir] or of the first write and the
    files are what they were at the start. When a directory has the name
    of the install record, that directory is still there afterwards: no
    record has been written. *)
Theorem install_throws_when_obstructed (owner repo skillName safe content url : string)
    (opts : option InstallOpts) (w : World) :
  sanitizeSkillName env skillName = Some safe ->
  stops_at_check safe opts w = false ->
  first_hit env (getSkillMdUrls owner repo skillName) = Some (content, url) ->
  let run := installSkillFromGitHub env owner repo skillName opts w in
  (root_of (fs w) !! safe = Some EFile \/
   files_of (fs w) safe !! SKILL_MD = Some ISubdir ->
     run.1 = Threw /\ fs run.2 = fs w) /\
  (files_of (fs w) safe !! VIBECLAW_JSON = Some ISubdir ->
     run.1 = Threw /\
     files_of (fs run.2) safe !! VIBECLAW_JSON = Some ISubdir).
Proof.
  intros Hsafe Hstop Hhit run.
  assert (Hrun : InstallRun env owner repo skillName safe opts w run.1 run.2).
  { apply install_inv; [done|]. subst run. by destruct (installSkillFromGitHub _ _ _ _ _ _). }
  revert Hrun. generalize run.1 run.2. clear run. intros o w' Hrun. cbn [fst snd].
  destruct Hrun as [Hstop' | _ Hhit' | content' url' o w' _ Hhit' Hwrites]; [congruence..|].
  assert (content' = content /\ url' = url) as [-> ->] by (split; congruence).
  clear Hhit'. set (w2 := after_fetches _ _) in Hwrites.
  assert (Hfs2 : fs w2 = fs w) by done.
  assert (Hkept : forall w3 o3, fs_mkdir safe w2 = (o3, w3) ->
            is_Some (lookup_dir (fs w) safe) -> fs w3 = fs w).
  { intros w3 o3. rewrite fs_mkdir_run. intros [= _ <-]. cbn [fs record_op].
    change (fs w2) with (fs w).
    unfold mkdir_fs, lookup_dir. destruct (fs w) as [root|]; [|by intros [? ?]].
    destruct (root !! safe) as [[|children]|]; [by intros [? ?] | done | by intros [? ?]]. }
  assert (Hdir : forall name, files_of (fs w) safe !! name = Some ISubdir ->
            is_Some (lookup_dir (fs w) safe)).
  { intros name. unfold files_of. destruct (lookup_dir (fs w) safe); [by eexists|].
    by rewrite lookup_empty. }
  destruct Hwrites as [w3 Hm | w3 w4 Hm Hc | w3 w4 w5 Hm Hc Hj | w3 w4 w5 Hm Hc Hj];
    pose proof (fs_mkdir_outcome _ _ _ _ Hm) as Hmo;
    pose proof (Hkept _ _ Hm) as Hk;
    apply fs_mkdir_inv in Hm as (_ & Hf3 & _ & Hd3 & Hthrew);
    rewrite Hfs2 in Hmo, Hf3, Hthrew.
  - split.
    + intros _. split; [done | by apply Hthrew].
    + intros Hrec. split; [done|]. by rewrite Hf3.
  - apply fs_writeFile_inv in Hc as (_ & _ & _ & Hc).
    destruct (Hc eq_refl) as [Hfs4 _]. split.
    + intros [Hfile | Hsub]; (split; [done|]); rewrite Hfs4.
      * apply Hmo in Hfile. done.
      * apply Hk. by apply (Hdir SKILL_MD).
    + intros Hrec. split; [done|]. by rewrite Hfs4, Hf3.
  - apply fs_writeFile_inv in Hc as (_ & _ & Hc & _).
    destruct (Hc eq_refl) as (_ & Hfree3 & _ & Hf4).
    apply fs_writeFile_inv in Hj as (_ & _ & _ & Hj).
    destruct (Hj eq_refl) as [Hfs5 _]. rewrite Hf3 in Hfree3. split.
    + intros [Hfile | Hsub]; [|done].
      apply Hmo in Hfile. done.
    + intros Hrec. split; [done|].
      by rewrite Hfs5, Hf4, Hf3, lookup_insert_ne.
  - apply fs_writeFile_inv in Hc as (_ & _ & Hc & _).
    destruct (Hc eq_refl) as (_ & Hfree3 & _ & Hf4).
    apply fs_writeFile_inv in Hj as (_ & _ & Hj & _).
    destruct (Hj eq_refl) as (_ & Hfree4 & _).
    rewrite Hf3 in Hfree3. rewrite Hf4, Hf3, lookup_insert_ne in Hfree4 by done.
    split.
    + intros [Hfile | Hsub]; [|done].
      apply Hmo in Hfile. done.
    + intros Hrec. done.
Qed.

(** X8. An install that does not end in a fresh success, whether it fails,
    raises an exception or finds the skill already installed, leaves
    every directory as tracked, or as untracked, as it was: the listing
    does not change. *)
Theorem install_failure_keeps_tracking (owner repo skillName : string)
    (opts : option InstallOpts) (w : World) :
  let run := installSkillFromGitHub env owner repo skillName opts w in
  (forall r, run.1 = Returned r -> InstallResult.sourceUrl r = None) ->
  forall d, tracked (fs run.2) d = tracked (fs w) d.
Proof.
  intros run Hnot d.
  destruct (sanitizeSkillName env skillName) as [safe|] eqn:Hsafe.
  2:{ subst run. unfold installSkillFromGitHub. by rewrite Hsafe. }
  assert (Hrun : InstallRun env owner repo skillName safe opts w run.1 run.2).
  { apply install_inv; [done|]. subst run. by destruct (installSkillFromGitHub _ _ _ _ _ _). }
  destruct (install_log owner repo skillName opts w safe run.1 run.2 Hsafe)
    as (_ & _ & _ & _ & _ & Hframe).
  { subst run. by destruct (installSkillFromGitHub _ _ _ _ _ _). }
  destruct (decide (d = safe)) as [->|Hd].
  2:{ unfold tracked. apply exists_path_frame. by apply Hframe. }
  clear Hframe. revert Hnot Hrun. generalize run.1 run.2. clear run.
  intros o w' Hnot Hrun.
  destruct Hrun as [Hstop | Hstop Hhit | content url o w' Hstop Hhit Hwrites]; [done..|].
  set (w2 := after_fetches _ _) in Hwrites.
  assert (Hfs2 : fs w2 = fs w) by done.
  unfold tracked. rewrite !exists_path_files_eq.
  destruct Hwrites as [w3 Hm | w3 w4 Hm Hc | w3 w4 w5 Hm Hc Hj | w3 w4 w5 Hm Hc Hj];
    apply fs_mkdir_inv in Hm as (_ & Hf3 & _ & _ & _);
    rewrite Hfs2 in Hf3.
  - by rewrite Hf3.
  - apply fs_writeFile_inv in Hc as (_ & _ & _ & Hc).
    destruct (Hc eq_refl) as [-> _]. by rewrite Hf3.
  - apply fs_writeFile_inv in Hc as (_ & _ & Hc & _).
    destruct (Hc eq_refl) as (_ & _ & _ & Hf4).
    apply fs_writeFile_inv in Hj as (_ & _ & _ & Hj).
    destruct (Hj eq_refl) as [-> _].
    by rewrite Hf4, Hf3, lookup_insert_ne.
  - by specialize (Hnot _ eq_refl).
Qed.

End InstallerProperties.

(** ** The registry and the installer together *)

Section RegistryMore.

Context (env : Env).

Lemma listInstalledSkills_run w :
  exists names w',
    listInstalledSkills w = (Returned names, w') /\
    fs w' = fs w /\
    (forall n, n ∈ names <-> tracked (fs w) n = true).
Proof.
  unfold listInstalledSkills, try_catch. unfold bind at 1. rewrite fs_readdir_run.
  set (w1 := record_op _ _ w). unfold readdir_fs.
  destruct (fs w) as [root|] eqn:Hfs.
  - destruct (collect_installed_run ((fun ne => (ne.1, isDirectory ne.2)) <$> map_to_list root)
                [] w1) as (w' & Hrun & Hsame & _).
    eexists _, w'. split; [by rewrite Hrun|]. split; [done|].
    subst w1. cbn [app fs record_op]. apply tracked_names_readdir.
  - exists [], w1. split; [done|]. split; [done|].
    intros n. split; [by intros ?%elem_of_nil | done].
Qed.

Lemma uninstall_tracked_run skillName safe w :
  sanitizeSkillName env skillName = Some safe ->
  tracked (fs w) safe = true ->
  exists root,
    fs w = Some root /\
    uninstallSkill env skillName w =
      (Returned true,
       record_op (EvRm (PDir safe)) (Some (delete safe root))
         (record_op (EvAccess (PFile safe VIBECLAW_JSON)) (fs w) w)).
Proof.
  intros Hsafe Ht.
  destruct (tracked_is_dir _ _ Ht) as (root & children & Hfs & Hd & _).
  exists root. split; [done|].
  unfold uninstallSkill. rewrite Hsafe.
  unfold try_catch. unfold bind at 1. rewrite fs_access_run.
  unfold tracked in Ht. rewrite Ht.
  unfold bind at 1. rewrite fs_rm_run. cbn [fs record_op].
  rewrite Hfs, rm_fs_removes by (by eexists). reflexivity.
Qed.

Lemma uninstall_untracked_run skillName safe w :
  sanitizeSkillName env skillName = Some safe ->
  tracked (fs w) safe = false ->
  uninstallSkill env skillName w =
    (Returned false, record_op (EvAccess (PFile safe VIBECLAW_JSON)) (fs w) w).
Proof.
  intros Hsafe Ht. unfold uninstallSkill. rewrite Hsafe.
  unfold try_catch. unfold bind at 1. rewrite fs_access_run.
  unfold tracked in Ht. by rewrite Ht.
Qed.

Lemma fs_readFile_run d name w :
  fs_readFile d name w =
  (readFile_fs (fs w) d name, record_op (EvAccess (PFile d name)) (fs w) w).
Proof. reflexivity. Qed.

Lemma readFile_fs_files f d name :
  readFile_fs f d name =
  match files_of f d !! name with
  | Some (IFile data) => Returned data
  | _ => Threw
  end.
Proof.
  unfold readFile_fs, files_of. destruct (lookup_dir f d); [done|].
  by rewrite lookup_empty.
Qed.

(** What [getInstalledSkillMeta] does for an accepted name: one read of
    the record file, and a result that depends on what the file holds. *)
Lemma getInstalledSkillMeta_run JSON_parse skillName safe w :
  sanitizeSkillName env skillName = Some safe ->
  getInstalledSkillMeta env JSON_parse skillName w =
  (Returned (match files_of (fs w) safe !! VIBECLAW_JSON with
             | Some (IFile (MetaJson meta)) => Some meta
             | Some (IFile (Text content)) => JSON_parse content
             | _ => None
             end),
   record_op (EvAccess (PFile safe VIBECLAW_JSON)) (fs w) w).
Proof.
  intros Hsafe. unfold getInstalledSkillMeta. rewrite Hsafe.
  unfold try_catch. unfold bind at 1. rewrite fs_readFile_run, readFile_fs_files.
  destruct (files_of (fs w) safe !! VIBECLAW_JSON) as [[[content|meta]|]|]; try done.
  unfold parse_meta. by destruct (JSON_parse content).
Qed.

(** X9. Reading the record of a skill never fails and never changes a file:
    a rejected name gives null without any operation; a record is
    returned only for a tracked directory, and the record that the
    installer wrote is returned as it was written. *)
Theorem getInstalledSkillMeta_reads_record (JSON_parse : string -> option Meta.t)
    (skillName : string) (w : World) :
  exists res w',
    getInstalledSkillMeta env JSON_parse skillName w = (Returned res, w') /\
    fs w' = fs w /\
    (sanitizeSkillName env skillName = None -> res = None /\ w' = w) /\
    (forall safe meta,
       sanitizeSkillName env skillName = Some safe ->
       files_of (fs w) safe !! VIBECLAW_JSON = Some (IFile (MetaJson meta)) ->
       res = Some meta) /\
    (forall meta, res = Some meta ->
       exists safe, sanitizeSkillName env skillName = Some safe /\
                    tracked (fs w) safe = true).
Proof.
  destruct (sanitizeSkillName env skillName) as [safe|] eqn:Hsafe.
  2:{ exists None, w. unfold getInstalledSkillMeta. rewrite Hsafe.
      split; [done|]. split; [done|]. split; [done|]. split; [done|]. done. }
  eexists _, _. split; [by apply getInstalledSkillMeta_run|].
  split; [done|]. split; [done|]. split.
  - intros safe' meta [= <-] ->. done.
  - intros meta Hres. exists safe. split; [done|].
    unfold tracked. rewrite exists_path_files_eq.
    by destruct (files_of (fs w) safe !! VIBECLAW_JSON).
Qed.

(** X10. After a fresh success the skill is listed under its sanitized name,
    and its record, read back under the raw name, says who installed it,
    when, from which repository and from which URL: the URL that the
    result reports. *)
Theorem install_then_listed_with_record (owner repo skillName safe : string)
    (opts : option InstallOpts) (w w1 : World) (r : InstallResult.t)
    (JSON_parse : string -> option Meta.t) :
  sanitizeSkillName env skillName = Some safe ->
  installSkillFromGitHub env owner repo skillName opts w = (Returned r, w1) ->
  InstallResult.success r = true ->
  InstallResult.alreadyInstalled r <> Some true ->
  (exists names w2, listInstalledSkills w1 = (Returned names, w2) /\ safe ∈ names) /\
  (exists url w3,
     InstallResult.sourceUrl r = Some url /\
     getInstalledSkillMeta env JSON_parse skillName w1 =
       (Returned (Some {| Meta.installedBy := "vibeclaw";
                          Meta.installedAt := now env;
                          Meta.source := "github:" +:+ owner +:+ "/" +:+ repo;
                          Meta.sourceUrl := url;
                          Meta.skillName := skillName |}), w3)).
Proof.
  intros Hsafe Hrun Hok Hfresh.
  destruct (install_fresh_state env _ _ _ _ _ _ _ _ Hsafe Hrun Hok Hfresh)
    as (content & url & _ & -> & Hfiles).
  assert (Hrec : files_of (fs w1) safe !! VIBECLAW_JSON =
                 Some (IFile (MetaJson (install_record env owner repo url skillName)))).
  { by rewrite Hfiles, lookup_insert_eq. }
  split.
  - destruct (listInstalledSkills_run w1) as (names & w2 & Hlist & _ & Hmem).
    exists names, w2. split; [done|]. apply Hmem.
    unfold tracked. by rewrite exists_path_files_eq, Hrec.
  - exists url. eexists. split; [done|].
    by rewrite (getInstalledSkillMeta_run JSON_parse _ _ _ Hsafe), Hrec.
Qed.

(** X11. Uninstall undoes a fresh install: when the root had no entry of the
    name, installing the skill and uninstalling it leaves the entries of
    the root as they were, and the root itself if it existed. *)
Theorem uninstall_undoes_fresh_install (owner repo skillName safe : string)
    (opts : option InstallOpts) (w w1 : World) (r : InstallResult.t) :
  sanitizeSkillName env skillName = Some safe ->
  root_of (fs w) !! safe = None ->
  installSkillFromGitHub env owner repo skillName opts w = (Returned r, w1) ->
  InstallResult.success r = true ->
  exists w2,
    uninstallSkill env skillName w1 = (Returned true, w2) /\
    root_of (fs w2) = root_of (fs w) /\
    (is_Some (fs w) -> fs w2 = fs w).
Proof.
  intros Hsafe Hnone Hrun Hok.
  assert (Hfresh : InstallResult.alreadyInstalled r <> Some true).
  { apply (install_inv env _ _ _ _ _ _ _ _ Hsafe) in Hrun.
    inversion Hrun as [Hstop Ho | Hstop Hhit Ho | content url o w5 Hstop Hhit Hwrites Ho];
      subst.
    - apply andb_true_iff in Hstop as [Hc _]. unfold has_content in Hc.
      rewrite exists_path_root, Hnone in Hc. done.
    - done.
    - inversion Hwrites; subst; done. }
  destruct (install_fresh_state env _ _ _ _ _ _ _ _ Hsafe Hrun Hok Hfresh)
    as (content & url & _ & _ & Hfiles).
  destruct (install_log env _ _ _ _ _ _ _ _ Hsafe Hrun) as (_ & _ & _ & _ & _ & Hframe).
  assert (Ht : tracked (fs w1) safe = true).
  { unfold tracked. by rewrite exists_path_files_eq, Hfiles, lookup_insert_eq. }
  destruct (uninstall_tracked_run _ _ _ Hsafe Ht) as (root1 & Hfs1 & Hun).
  eexists. split; [exact Hun|]. cbn [fs record_op root_of].
  assert (Hroot : delete safe root1 = root_of (fs w)).
  { apply map_eq. intros d. destruct (decide (d = safe)) as [->|Hd].
    - by rewrite lookup_delete_eq, Hnone.
    - rewrite lookup_delete_ne by done. rewrite <- (Hframe d Hd). by rewrite Hfs1. }
  split; [done|]. intros [root Hfs]. rewrite Hfs in Hroot |- *. by rewrite Hroot.
Qed.

(** X12. After a successful uninstall the skill is gone for every operation:
    it is not tracked, it has no skill file, so that an install without
    [force] downloads it again, and a second uninstall returns false and
    changes nothing. *)
Theorem uninstall_then_absent (skillName safe : string) (w w1 : World) :
  sanitizeSkillName env skillName = Some safe ->
  uninstallSkill env skillName w = (Returned true, w1) ->
  tracked (fs w1) safe = false /\
  has_content (fs w1) safe = false /\
  (forall opts, stops_at_check safe opts w1 = false) /\
  (exists names w2, listInstalledSkills w1 = (Returned names, w2) /\ safe ∉ names) /\
  (exists w2, uninstallSkill env skillName w1 = (Returned false, w2) /\ fs w2 = fs w1).
Proof.
  intros Hsafe Hun.
  destruct (tracked (fs w) safe) eqn:Ht.
  2:{ rewrite (uninstall_untracked_run _ _ _ Hsafe Ht) in Hun. done. }
  destruct (uninstall_tracked_run _ _ _ Hsafe Ht) as (root & Hfs & Hrun).
  rewrite Hrun in Hun. injection Hun as <-. cbn [fs record_op].
  assert (Hgone : forall name,
            exists_path (Some (delete safe root)) (PFile safe name) = false).
  { intros name. unfold exists_path, lookup_dir. by rewrite lookup_delete_eq. }
  split; [apply Hgone|]. split; [apply Hgone|]. split.
  { intros opts. unfold stops_at_check, has_content. cbn [fs record_op].
    by rewrite Hgone. }
  split.
  - set (w1 := record_op _ _ _).
    destruct (listInstalledSkills_run w1) as (names & w2 & Hlist & _ & Hmem).
    exists names, w2. split; [done|]. rewrite Hmem. subst w1. cbn [fs record_op].
    unfold tracked. by rewrite Hgone.
  - eexists. split; [apply uninstall_untracked_run; [done | apply Hgone] | done].
Qed.

End RegistryMore.

(** ** The tools *)

Section Tools.

Context (remote : Catalog.Remote) (env : Env).

Lemma includes_app s p : includes s p = true <-> exists a b, s = a +:+ p +:+ b.
Proof.
  rewrite includes_occurs. split.
  - intros [k Hk]. revert s Hk. induction k as [|k IH]; intros s Hk.
    + simpl in Hk. apply prefix_app in Hk as [b ->]. by exists "", b.
    + destruct s as [|c s]; [done|]. simpl in Hk.
      destruct (IH _ Hk) as (a & b & ->). by exists (String c a), b.
  - intros (a & b & ->). exists (String.length a).
    induction a as [|c a IH]; simpl; [|done].
    apply prefix_app. by exists b.
Qed.

Lemma checkSecurity_truthy skill msg :
  Gate.checkSecurity skill = Some msg -> truthy msg = true.
Proof.
  unfold Gate.checkSecurity, Gate.check_score.
  destruct (Gate.cisco_scan_result skill) as [scan|];
    [destruct (negb (Gate.is_safe scan)); [by intros [= <-]|]|];
    (destruct (Gate.security_score skill) as [score|]; [|done];
     destruct (score >=? Gate.SCORE_THRESHOLD); [by intros [= <-] | done]).
Qed.

(** X13. An allowed resource is shown as verified whenever it has a deep scan
    at all, as pre-scanned or with minor flags whenever it has a score
    that is not negative, and as pending only without a deep scan and
    with no score or a negative one. *)
Theorem formatSecurityBadge_after_gate (skill : Gate.VibeResource) :
  Gate.checkSecurity skill = None ->
  (is_Some (Gate.cisco_scan_result skill) ->
     formatSecurityBadge skill = "🛡️ Verified safe (Cisco scan)") /\
  (Gate.cisco_scan_result skill = None ->
     (Gate.security_score skill = Some 0 ->
        formatSecurityBadge skill = "🛡️ Pre-scanned (no issues)") /\
     (forall score, Gate.security_score skill = Some score -> 0 < score ->
        score < 25 /\
        formatSecurityBadge skill =
          "⚠️ Minor flags (score: " +:+ pretty score +:+ ")") /\
     (Gate.security_score skill = None \/
      (exists score, Gate.security_score skill = Some score /\ score < 0) ->
        formatSecurityBadge skill = "🔍 Scan pending")).
Proof.
  unfold Gate.checkSecurity, Gate.check_score, Gate.SCORE_THRESHOLD, formatSecurityBadge.
  intros Hgate. split.
  - intros [scan Hscan]. rewrite Hscan in *. by destruct (Gate.is_safe scan).
  - intros Hnone. rewrite Hnone in *.
    destruct (Gate.security_score skill) as [score|]; [|by repeat split].
    destruct (Z.geb_spec score 25) as [|Hlt]; [done|].
    split; [by intros [= ->]|]. split.
    + intros s [= <-] Hpos. split; [done|].
      destruct (Z.eqb_spec score 0); [lia|].
      destruct (Z.gtb_spec score 0); [|lia].
      destruct (Z.ltb_spec score 25); [done | lia].
    + intros [|(s & [= <-] & Hneg)]; [done|].
      destruct (Z.eqb_spec score 0); [lia|].
      destruct (Z.gtb_spec score 0); [lia | done].
Qed.

Lemma fold_listing names output :
  fold_left (fun output name => output +:+ "  - " +:+ name +:+ nl) names output =
  output +:+ fold_left (fun output name => output +:+ listing_line name) names "".
Proof.
  revert output. induction names as [|n names IH] using rev_ind; intros output.
  - simpl. by rewrite append_nil_r_string.
  - rewrite !fold_left_app. simpl. rewrite IH. unfold listing_line.
    by rewrite !append_assoc.
Qed.

Lemma listing_includes names n :
  n ∈ names ->
  includes (fold_left (fun output name => output +:+ listing_line name) names "")
           (listing_line n) = true.
Proof.
  induction names as [|m names IH] using rev_ind; [by intros ?%elem_of_nil|].
  rewrite fold_left_app. simpl. intros [Hin | ->%list_elem_of_singleton]%elem_of_app.
  - apply includes_app. apply IH, includes_app in Hin as (a & b & ->).
    exists a, (b +:+ listing_line m). by rewrite !append_assoc.
  - apply includes_app. eexists _, "". by rewrite append_nil_r_string.
Qed.

(** X15. The manage tool never fails. Listing changes no file; its text says
    that nothing is installed exactly when no directory is tracked, and
    otherwise has a line for every tracked directory. An unknown action,
    and an uninstall without a name, perform no operation at all. *)
Theorem createManageTool_execute_reads (action : string) (skillName : option string)
    (w : World) :
  (action = "list" ->
     exists content w',
       createManageTool_execute env action skillName w = (Returned content, w') /\
       fs w' = fs w /\
       (content = "No skills installed via VibeClaw yet." <->
          forall n, tracked (fs w) n = false) /\
       (forall n, tracked (fs w) n = true ->
          includes content (listing_line n) = true)) /\
  (action = "uninstall" -> truthy_opt skillName = false ->
     createManageTool_execute env action skillName w =
       (Returned "Please specify which skill to uninstall.", w)) /\
  (action <> "list" -> action <> "uninstall" ->
     createManageTool_execute env action skillName w =
       (Returned ("Unknown action: " +:+ action), w)).
Proof.
  split; [|split].
  - intros ->. unfold createManageTool_execute. cbn [String.eqb Ascii.eqb Bool.eqb andb].
    change (String.eqb "list" "list") with true. cbv iota.
    destruct (listInstalledSkills_run w) as (names & w' & Hrun & Hfs & Hmem).
    unfold bind. rewrite Hrun. destruct names as [|n names].
    + exists "No skills installed via VibeClaw yet.", w'. repeat split; try done.
      * intros _ m. destruct (tracked (fs w) m) eqn:E; [|done].
        apply Hmem in E. by apply elem_of_nil in E.
      * intros m Hm. apply Hmem in Hm. by apply elem_of_nil in Hm.
    + eexists _, w'. cbv zeta. split; [reflexivity|]. split; [done|].
      rewrite fold_listing.
      match goal with
      | |- context [?h +:+ fold_left _ _ ""] => set (header := h)
      end.
      split; [split|].
      * intros Heq. discriminate Heq.
      * intros Hnone. specialize (Hnone n).
        assert (tracked (fs w) n = true) by (apply Hmem; by left). congruence.
      * intros m Hm. apply Hmem in Hm. apply includes_app.
        apply listing_includes, includes_app in Hm as (a & b & ->).
        exists (header +:+ a), b. by rewrite (append_assoc header a).
  - intros -> Hname. unfold createManageTool_execute.
    change (String.eqb "uninstall" "list") with false.
    change (String.eqb "uninstall" "uninstall") with true. cbv iota.
    destruct skillName as [name|]; [|done]. simpl in Hname. by rewrite Hname.
  - intros Hl Hu. unfold createManageTool_execute.
    destruct (String.eqb_spec action "list"); [done|].
    destruct (String.eqb_spec action "uninstall"); done.
Qed.

(** X16. Uninstalling through the manage tool removes the directory of the
    sanitized name exactly when that directory is tracked, and says so;
    in every other case the files are left as they are and the text says
    that the skill was not found. *)
Theorem createManageTool_execute_uninstalls (name : string) (w : World) :
  truthy name = true ->
  exists content w',
    createManageTool_execute env "uninstall" (Some name) w = (Returned content, w') /\
    ((exists safe root,
        sanitizeSkillName env name = Some safe /\ tracked (fs w) safe = true /\
        fs w = Some root /\ fs w' = Some (delete safe root) /\
        content = "✓ Uninstalled " +:+ dquote +:+ name +:+ dquote +:+
                  ". It will be removed on next session.") \/
     ((forall safe, sanitizeSkillName env name = Some safe -> tracked (fs w) safe = false) /\
      fs w' = fs w /\
      content = dquote +:+ name +:+ dquote +:+
                " was not found or was not installed via VibeClaw.")).
Proof.
  intros Hname. unfold createManageTool_execute.
  change (String.eqb "uninstall" "list") with false.
  change (String.eqb "uninstall" "uninstall") with true. cbv iota. rewrite Hname.
  unfold bind.
  destruct (sanitizeSkillName env name) as [safe|] eqn:Hsafe.
  - destruct (tracked (fs w) safe) eqn:Ht.
    + destruct (uninstall_tracked_run env _ _ _ Hsafe Ht) as (root & Hfs & ->).
      eexists _, _. split; [reflexivity|]. left. exists safe, root. by repeat split.
    + rewrite (uninstall_untracked_run env _ _ _ Hsafe Ht).
      eexists _, _. split; [reflexivity|]. right. split; [|done].
      by intros safe' [= <-].
  - unfold uninstallSkill. rewrite Hsafe.
    eexists _, _. split; [reflexivity|]. right. by repeat split.
Qed.

Lemma install_search_run client query w :
  VibeIndexClient_search remote client query
    (Some {| Catalog.type := Some "skill"; Catalog.limit := Some 1;
             Catalog.offset := None |}) w =
  (Returned (api_result (Catalog.api remote (install_search_url client query))),
   record_op (EvFetch (install_search_url client query)) (fs w) w).
Proof.
  unfold VibeIndexClient_search, VibeIndexClient_fetch. cbn [Catalog.type Catalog.limit Catalog.offset].
  change (pretty 1) with "1". change (pretty 0) with "0".
  fold (install_search_url client query).
  unfold bind, get_fs.
  by destruct (Catalog.api remote (install_search_url client query)).
Qed.

(** The install with its report, inside the [try]: it always yields a
    text, and leaves the world that the installer leaves. *)
Lemma install_and_report_run skill owner repo opts w :
  exists content,
    try_catch
      (let* result := installSkillFromGitHub env owner repo (Catalog.name skill) opts in
       ret (install_report skill result))
      (let* message := caught_message remote in
       ret ("Error installing skill: " +:+ message)) w =
    (Returned content,
     (installSkillFromGitHub env owner repo (Catalog.name skill) opts w).2).
Proof.
  unfold try_catch, bind, caught_message, ret.
  destruct (installSkillFromGitHub env owner repo (Catalog.name skill) opts w)
    as [[result|] w']; eauto.
Qed.

(** X17. The gate comes before the installer: when the first result of the
    search is a skill that [checkSecurity] blocks, the tool returns the
    explanation of the gate, and the search is the only operation it has
    performed: no request to the repository, no operation on a file. *)
Theorem createInstallTool_execute_blocks (client : Catalog.VibeIndexClient)
    (query : string) (force : option bool) (w : World)
    (skill : Catalog.Resource) (owner repo msg : string) :
  installable (Catalog.api remote (install_search_url client query)) skill owner repo ->
  Gate.checkSecurity (Catalog.gate_view skill) = Some msg ->
  createInstallTool_execute remote env client query force w =
    (Returned msg, record_op (EvFetch (install_search_url client query)) (fs w) w).
Proof.
  intros (body & rest & Hapi & Hok & Hdata & Howner & Hto & Hrepo & Htr) Hgate.
  unfold createInstallTool_execute. unfold bind at 1.
  rewrite install_search_run, Hapi. cbn [api_result].
  rewrite Hdata, Hok, Howner, Hrepo, Hto, Htr. cbn [negb orb]. cbv zeta.
  rewrite Hgate. cbn [truthy_opt template].
  by rewrite (checkSecurity_truthy _ _ Hgate).
Qed.

(** An install that raises an exception has performed an operation: the
    one that raised it is the last of the log. *)
Lemma install_threw_last owner repo skillName opts w w' :
  installSkillFromGitHub env owner repo skillName opts w = (Threw, w') ->
  exists e, last (events w') = Some e /\ is_fs_write e = true.
Proof.
  intros Hrun.
  destruct (sanitizeSkillName env skillName) as [safe|] eqn:Hsafe.
  2:{ unfold installSkillFromGitHub in Hrun. by rewrite Hsafe in Hrun. }
  apply (install_inv env _ _ _ _ _ _ _ _ Hsafe) in Hrun.
  inversion Hrun as [ | | content url o w5 _ _ Hwrites]; subst.
  inversion Hwrites as [w3 Hm | w3 w4 Hm Hc | w3 w4 w5 Hm Hc Hj | ]; subst.
  - apply fs_mkdir_inv in Hm as (Hl & _). unfold events.
    rewrite Hl, fmap_app. simpl. rewrite last_snoc. by eexists.
  - apply fs_writeFile_inv in Hc as (Hl & _). unfold events.
    rewrite Hl, fmap_app. simpl. rewrite last_snoc. by eexists.
  - apply fs_writeFile_inv in Hj as (Hl & _). unfold events.
    rewrite Hl, fmap_app. simpl. rewrite last_snoc. by eexists.
Qed.

(** X18. The install tool never fails, and it runs the installer exactly
    for a skill that the search returned first, that names its
    repository and that the gate allows. For such a skill it runs
    [installSkillFromGitHub] on the owner, the repository and the name of
    the skill, with the [force] it was given, right after the search; it
    leaves the world that the installer leaves, and returns the report of
    the result of the installer, or the message of its exception. In
    every other case the search is its only operation. *)
Theorem createInstallTool_execute_installs_allowed_only
    (client : Catalog.VibeIndexClient) (query : string) (force : option bool) (w : World) :
  let run := createInstallTool_execute remote env client query force w in
  let w1 := record_op (EvFetch (install_search_url client query)) (fs w) w in
  let answer := Catalog.api remote (install_search_url client query) in
  (exists content, run.1 = Returned content) /\
  (forall skill owner repo,
     installable answer skill owner repo ->
     Gate.checkSecurity (Catalog.gate_view skill) = None ->
     let inst := installSkillFromGitHub env owner repo (Catalog.name skill)
                   (Some {| force := force |}) w1 in
     run.2 = inst.2 /\
     (forall result, inst.1 = Returned result ->
        run.1 = Returned (install_report skill result)) /\
     (inst.1 = Threw ->
        exists e, last (events inst.2) = Some e /\ is_fs_write e = true /\
          run.1 = Returned ("Error installing skill: " +:+ Catalog.error_message remote e))) /\
  ((forall skill owner repo,
      installable answer skill owner repo ->
      Gate.checkSecurity (Catalog.gate_view skill) <> None) ->
   run.2 = w1).
Proof.
  intros run w1 answer.
  assert (Hrun : exists content w',
    createInstallTool_execute remote env client query force w = (Returned content, w') /\
    (w' = w1 \/
     exists skill owner repo,
       installable answer skill owner repo /\
       Gate.checkSecurity (Catalog.gate_view skill) = None)).
  { unfold createInstallTool_execute. unfold bind at 1.
    rewrite install_search_run. fold w1. subst answer.
    destruct (Catalog.api remote (install_search_url client query))
      as [m|st tx|m|body] eqn:Hapi;
      cbn [api_result]; try (eexists _, _; split; [reflexivity | by left]).
    destruct (Catalog.data body) as [|skill rest] eqn:Hdata;
      [eexists _, _; split; [reflexivity | by left]|].
    destruct (Catalog.success body) eqn:Hok; cbn [negb];
      [|eexists _, _; split; [reflexivity | by left]].
    destruct (Catalog.github_owner skill) as [owner|] eqn:Howner;
      [|eexists _, _; split; [reflexivity | by left]].
    destruct (Catalog.github_repo skill) as [repo|] eqn:Hrepo;
      [|eexists _, _; split; [reflexivity | by left]].
    destruct (truthy owner) eqn:Hto; cbn [negb orb];
      [|eexists _, _; split; [reflexivity | by left]].
    destruct (truthy repo) eqn:Htr; cbn [negb];
      [|eexists _, _; split; [reflexivity | by left]].
    cbv zeta.
    destruct (Gate.checkSecurity (Catalog.gate_view skill)) as [msg|] eqn:Hgate.
    { cbn [truthy_opt template]. rewrite (checkSecurity_truthy _ _ Hgate).
      eexists _, _; split; [reflexivity | by left]. }
    cbn [truthy_opt].
    destruct (install_and_report_run skill owner repo (Some {| force := force |}) w1)
      as [content ->].
    eexists _, _. split; [reflexivity|]. right. exists skill, owner, repo.
    split; [|done]. exists body, rest. by repeat split. }
  destruct Hrun as (content & w' & Hrun & Hw').
  split; [subst run; rewrite Hrun; by eexists|]. split.
  - clear content w' Hrun Hw'.
    intros skill owner repo (body & rest & Hapi & Hok & Hdata & Howner & Hto & Hrepo & Htr)
      Hgate inst.
    assert (Hexec : run =
      try_catch
        (let* result := installSkillFromGitHub env owner repo (Catalog.name skill)
                          (Some {| force := force |}) in
         ret (install_report skill result))
        (let* message := caught_message remote in
         ret ("Error installing skill: " +:+ message)) w1).
    { subst run answer. unfold createInstallTool_execute. unfold bind at 1.
      rewrite install_search_run, Hapi. cbn [api_result].
      rewrite Hdata, Hok, Howner, Hrepo, Hto, Htr. cbn [negb orb]. cbv zeta.
      by rewrite Hgate. }
    rewrite Hexec. unfold try_catch, bind, caught_message, ret. fold inst.
    destruct inst as [[result|] w'] eqn:Hinst; cbn [fst snd].
    + split; [done|]. split; [by intros result' [= <-] | done].
    + split; [done|]. split; [done|]. intros _.
      destruct (install_threw_last _ _ _ _ _ _ Hinst) as (e & He & Hwrite).
      exists e. split; [done|]. split; [done|]. by rewrite He.
  - intros Hnone. subst run. rewrite Hrun. cbn [snd].
    destruct Hw' as [-> | (skill & owner & repo & Hinst & Hgate)]; [done|].
    by apply Hnone in Hinst.
Qed.

End Tools.

(** ** The further properties on sample worlds *)

Lemma sample_install_run :
  installSkillFromGitHub sample_env "o" "r" "my skill" None (start None) =
  (Returned (fresh_install_result "my skill" "/home/u/.openclaw/skills/myskill" sample_url),
   sample_installed).
Proof.
  rewrite (surjective_pairing (installSkillFromGitHub _ _ _ _ _ _)).
  apply (f_equal2 pair); [vm_compute; reflexivity | reflexivity].
Qed.

Lemma sample_first_hit :
  first_hit sample_env (getSkillMdUrls "o" "r" "my skill") = Some (sample_skill_md, sample_url).
Proof. vm_compute. reflexivity. Qed.

Lemma install_confined_to_skill_directory_witness :
  root_of (fs sample_installed) !! "other" = None.
Proof.
  destruct (install_confined_to_skill_directory sample_env "o" "r" "my skill" "myskill"
              None (start None) eq_refl) as (new & _ & _ & Hframe).
  unfold sample_installed. rewrite Hframe; [reflexivity | discriminate].
Defined.

Lemma install_fresh_files_witness :
  exists content url,
    net sample_env url = Response true (Some content) /\
    files_of (fs sample_installed) "myskill" !! SKILL_MD = Some (IFile (Text content)).
Proof.
  destruct (install_fresh_files sample_env "o" "r" "my skill" "myskill" None
              (start None) sample_installed _ eq_refl sample_install_run eq_refl
              ltac:(discriminate))
    as (content & url & _ & _ & Hnet & _ & Hfiles).
  exists content, url. split; [exact Hnet|].
  rewrite Hfiles, lookup_insert_ne by discriminate. apply lookup_insert_eq.
Defined.

Lemma install_throws_when_obstructed_witness :
  let run := installSkillFromGitHub sample_env "o" "r" "my skill" None
               (start file_in_the_way_fs) in
  run.1 = Threw /\ fs run.2 = file_in_the_way_fs.
Proof.
  apply (proj1 (install_throws_when_obstructed sample_env "o" "r" "my skill" "myskill"
                  sample_skill_md sample_url None (start file_in_the_way_fs)
                  eq_refl eq_refl sample_first_hit)).
  left. reflexivity.
Defined.

Lemma install_failure_keeps_tracking_witness :
  tracked (fs (installSkillFromGitHub offline_env "o" "r" "gamma" None
                 (start (Some two_installed_root))).2) "alpha" =
  tracked (Some two_installed_root) "alpha".
Proof.
  apply (install_failure_keeps_tracking offline_env "o" "r" "gamma" None
           (start (Some two_installed_root))).
  intros r Hr. vm_compute in Hr. injection Hr as <-. reflexivity.
Defined.

Lemma install_then_listed_with_record_witness :
  exists names w2,
    listInstalledSkills sample_installed = (Returned names, w2) /\ "myskill" ∈ names.
Proof.
  apply (proj1 (install_then_listed_with_record sample_env "o" "r" "my skill" "myskill"
                  None (start None) sample_installed _ (fun _ => None)
                  eq_refl sample_install_run eq_refl ltac:(discriminate))).
Defined.

Lemma uninstall_undoes_fresh_install_witness :
  exists w2,
    uninstallSkill sample_env "my skill" sample_installed = (Returned true, w2) /\
    root_of (fs w2) = ∅.
Proof.
  destruct (uninstall_undoes_fresh_install sample_env "o" "r" "my skill" "myskill"
              None (start None) sample_installed _ eq_refl eq_refl
              sample_install_run eq_refl) as (w2 & Hun & Hroot & _).
  exists w2. split; assumption.
Defined.

Lemma sample_uninstall_run :
  uninstallSkill sample_env "alpha" (start (Some two_installed_root)) =
  (Returned true, (uninstallSkill sample_env "alpha" (start (Some two_installed_root))).2).
Proof.
  rewrite (surjective_pairing (uninstallSkill _ _ _)) at 1.
  apply (f_equal2 pair); [vm_compute; reflexivity | reflexivity].
Qed.

Lemma uninstall_then_absent_witness :
  tracked (fs (uninstallSkill sample_env "alpha" (start (Some two_installed_root))).2)
          "alpha" = false.
Proof.
  apply (uninstall_then_absent sample_env "alpha" "alpha"
           (start (Some two_installed_root)) _ eq_refl sample_uninstall_run).
Defined.

Lemma formatSecurityBadge_after_gate_witness :
  formatSecurityBadge (Catalog.gate_view clean_skill) = "🛡️ Pre-scanned (no issues)".
Proof.
  apply (proj2 (formatSecurityBadge_after_gate (Catalog.gate_view clean_skill) eq_refl));
    reflexivity.
Defined.

Lemma createManageTool_execute_uninstalls_witness :
  exists content w',
    createManageTool_execute sample_env "uninstall" (Some "alpha")
      (start (Some two_installed_root)) = (Returned content, w').
Proof.
  destruct (createManageTool_execute_uninstalls sample_env "alpha"
              (start (Some two_installed_root)) eq_refl) as (content & w' & Hrun & _).
  exists content, w'. exact Hrun.
Defined.

Lemma createInstallTool_execute_blocks_witness :
  createInstallTool_execute (remote_with unsafe_skill) sample_env sample_client "x" None
    (start None) =
  (Returned (Gate.scan_block_message (Catalog.gate_view unsafe_skill)
               {| Gate.is_safe := false; Gate.max_severity := "high";
                  Gate.findings_count := 3 |}),
   record_op (EvFetch (install_search_url sample_client "x")) None (start None)).
Proof.
  apply (createInstallTool_execute_blocks (remote_with unsafe_skill) sample_env
           sample_client "x" None (start None) unsafe_skill "o" "r").
  - eexists _, []. repeat split; reflexivity.
  - reflexivity.
Defined.

(** The install tool on a clean skill of the sample repository: the
    installer runs right after the search. *)
Lemma createInstallTool_execute_installs_allowed_only_witness :
  let w1 := record_op (EvFetch (install_search_url sample_client "my skill")) None
              (start None) in
  (createInstallTool_execute (remote_with clean_skill) sample_env sample_client
     "my skill" None (start None)).2 =
  (installSkillFromGitHub sample_env "o" "r" "my skill" (Some {| force := None |}) w1).2.
Proof.
  intros w1.
  assert (Hskill : installable
            (Catalog.api (remote_with clean_skill) (install_search_url sample_client "my skill"))
            clean_skill "o" "r").
  { eexists _, []. repeat split; reflexivity. }
  exact (proj1 (proj1 (proj2 (createInstallTool_execute_installs_allowed_only
                                (remote_with clean_skill) sample_env sample_client
                                "my skill" None (start None)))
                  clean_skill "o" "r" Hskill eq_refl)).
Defined.

(** The request of the install tool for a query with a space, an
    ampersand and a slash: the query cannot add a parameter. *)
Example install_search_url_encodes :
  install_search_url sample_client "my skill&type=mcp/x" =
  "https://vibeindex.ai/api/v1/search?q=my+skill%26type%3Dmcp%2Fx&type=skill&limit=1&offset=0".
Proof. vm_compute. reflexivity. Qed.

(** The install tool turns an exception of the installer into a text. *)
Example createInstallTool_execute_reports_exception :
  (createInstallTool_execute (remote_with clean_skill) sample_env sample_client
     "my skill" None (start file_in_the_way_fs)).1 =
  Returned "Error installing skill: EEXIST: file already exists".
Proof. vm_compute. reflexivity. Qed.

(** ** The explanation of the gate *)

Section GateExplains.

Import Gate.

Lemma flags_line_lists skill f fs :
  security_flags skill = Some (f :: fs) ->
  flags_line skill = "  Flags: " +:+ join ", " (f :: fs) +:+ nl.
Proof. unfold flags_line. by intros ->. Qed.

(** X14. Every explanation of the gate names the resource in quotes and the
    signal that blocked it: the severity and the number of findings of
    the deep scan, or the score; and it lists the flags when there are
    some. The numbers are those of the record, digit by digit, when they
    are integers that JavaScript holds exactly. *)
Theorem checkSecurity_explains (skill : VibeResource) (msg : string) :
  checkSecurity skill = Some msg ->
  includes msg (dquote +:+ name skill +:+ dquote) = true /\
  (forall scan, cisco_scan_result skill = Some scan -> is_safe scan = false ->
     includes msg ("Severity: " +:+ max_severity scan +:+ nl) = true /\
     (safe_integer (findings_count scan) ->
      includes msg ("Findings: " +:+ pretty (findings_count scan) +:+ " issue(s) detected") = true)) /\
  (~ deep_scan_unsafe skill ->
     exists score, security_score skill = Some score /\ 25 <= score /\
       (safe_integer score ->
        includes msg ("risk score (" +:+ pretty score +:+ ")") = true)) /\
  (forall f fs, security_flags skill = Some (f :: fs) ->
     includes msg ("Flags: " +:+ join ", " (f :: fs) +:+ nl) = true).
Proof.
  intros Hmsg.
  assert (Hcases :
    (exists scan, cisco_scan_result skill = Some scan /\ is_safe scan = false /\
                  msg = scan_block_message skill scan) \/
    (~ deep_scan_unsafe skill /\
     exists score, security_score skill = Some score /\ 25 <= score /\
                   msg = score_block_message skill score)).
  { revert Hmsg. unfold checkSecurity, check_score, SCORE_THRESHOLD.
    assert (Hscore : match security_score skill with
                     | Some score =>
                         if score >=? 25 then Some (score_block_message skill score) else None
                     | None => None
                     end = Some msg ->
                     exists score, security_score skill = Some score /\ 25 <= score /\
                                   msg = score_block_message skill score).
    { destruct (security_score skill) as [score|]; [|done].
      destruct (Z.geb_spec score 25); [|done]. intros [= <-]. eauto. }
    destruct (cisco_scan_result skill) as [scan|] eqn:Hscan.
    - destruct (is_safe scan) eqn:Hs; simpl.
      + intros H. right. split; [|by apply Hscore].
        intros (scan' & Hs' & Hu). congruence.
      + intros [= <-]. left. eauto.
    - intros H. right. split; [|by apply Hscore]. intros (scan' & Hs' & _). congruence. }
  destruct Hcases as [(scan & Hscan & Hunsafe & ->) | (Hsafe & score & Hscore & Hge & ->)].
  - unfold scan_block_message. cbv zeta. split; [|split; [|split]].
    + apply includes_app. eexists "⛔ BLOCKED: ", _. rewrite !append_assoc. reflexivity.
    + intros scan' Hs' _. assert (scan' = scan) as -> by congruence.
      split.
      * apply includes_app.
        eexists ("⛔ BLOCKED: " +:+ dquote +:+ name skill +:+ dquote +:+
                 " failed Vibe Index security scan." +:+ nl +:+ nl +:+ "  "), _.
        rewrite !append_assoc. reflexivity.
      * intros _. apply includes_app.
        eexists ("⛔ BLOCKED: " +:+ dquote +:+ name skill +:+ dquote +:+
                 " failed Vibe Index security scan." +:+ nl +:+ nl +:+
                 "  Severity: " +:+ max_severity scan +:+ nl +:+ "  "), _.
        rewrite !append_assoc. reflexivity.
    + intros Hn. exfalso. apply Hn. by exists scan.
    + intros f fs Hflags. rewrite (flags_line_lists _ _ _ Hflags). apply includes_app.
      eexists ("⛔ BLOCKED: " +:+ dquote +:+ name skill +:+ dquote +:+
               " failed Vibe Index security scan." +:+ nl +:+ nl +:+
               "  Severity: " +:+ max_severity scan +:+ nl +:+
               "  Findings: " +:+ pretty (findings_count scan) +:+ " issue(s) detected" +:+ nl +:+
               "  "), _.
      rewrite !append_assoc. reflexivity.
  - unfold score_block_message. split; [|split; [|split]].
    + apply includes_app. eexists "⛔ BLOCKED: ", _. rewrite !append_assoc. reflexivity.
    + intros scan Hscan Hu. exfalso. apply Hsafe. by exists scan.
    + intros _. exists score. split; [done|]. split; [done|]. intros _.
      apply includes_app.
      eexists ("⛔ BLOCKED: " +:+ dquote +:+ name skill +:+ dquote +:+ " has a high security "), _.
      rewrite !append_assoc. reflexivity.
    + intros f fs Hflags. rewrite (flags_line_lists _ _ _ Hflags). apply includes_app.
      eexists ("⛔ BLOCKED: " +:+ dquote +:+ name skill +:+ dquote +:+
               " has a high security risk score (" +:+ pretty score +:+ ")." +:+ nl +:+ nl +:+
               "  "), _.
      rewrite !append_assoc. reflexivity.
Qed.

End GateExplains.

Lemma checkSecurity_explains_witness :
  let scan := {| Gate.is_safe := false; Gate.max_severity := "high";
                 Gate.findings_count := 3 |} in
  let skill := {| Gate.name := "x"; Gate.security_score := Some 0;
                  Gate.security_flags := None;
                  Gate.cisco_scan_result := Some scan |} in
  includes (Gate.scan_block_message skill scan) (dquote +:+ Gate.name skill +:+ dquote) = true.
Proof.
  intros scan skill.
  exact (proj1 (checkSecurity_explains skill (Gate.scan_block_message skill scan) eq_refl)).
Defined.
